(** * Clocktopus: the local session log and the presence monitor

    A shallow embedding of
    - [lib/db.ts]      (the SQLite table [sessions] and its four statements),
    - [clockify.ts]    ([Clockify.startTimer], which logs a session),
    - [index.ts]       (the [monitor] command: [stopTimerAndLog],
                        [safeRestartTimerIfNeeded] and the two pollers),
    followed by the properties of the specification stated over it.

    What a function receives from outside while it runs (clock readings,
    the answers of Clockify and Jira, the presence sample, a fresh uuid) is
    given to it as a record; the requests it issues are appended to a
    trace.  Async functions are suspended at their awaits, so that polls
    can be run one after the other or with their bodies overlapping. *)

From Stdlib Require Import List String Ascii ZArith QArith Qround Lia Bool.
From Stdlib Require OrderedTypeEx.
Import ListNotations.

Local Open Scope Z_scope.
Local Open Scope list_scope.

(** ** Outcomes of fallible calls *)

(** The exceptions the modelled code can raise. *)
Inductive Exn : Type :=
| SqliteConstraintPrimaryKey  (* INSERT of an id that is already a PRIMARY KEY *)
| ZodError                    (* SessionSchema.parse on a value that is no row *)
| TransportError              (* a rejected HTTP or Jira promise *)
| PresenceError               (* desktop-idle / macos-notification-state threw *)
| RangeError.                 (* toISOString on an invalid Date *)

Inductive Outcome (A : Type) : Type :=
| Returns (a : A)
| Throws (e : Exn).
Arguments Returns {A} a.
Arguments Throws {A} e.

(** ** Text timestamps

    [startedAt] and [completedAt] are TEXT columns.  SQLite compares TEXT
    with the BINARY collation, that is bytewise and then by length, which is
    the lexicographic order [String.compare]. *)

Definition text_lt (a b : string) : bool := String.ltb a b.
Definition text_le (a b : string) : bool := String.leb a b.

(** ** lib/db.ts *)

Module Db.

(** A row of table [sessions]; [completedAt] and [jiraTicket] are nullable. *)
Record Session : Type := mkSession {
  id : string;
  projectId : string;
  description : string;
  startedAt : string;
  completedAt : option string;
  isAutoCompleted : Z;
  jiraTicket : option string
}.

(** The table, rows in rowid (insertion) order. *)
Definition Store : Type := list Session.

Definition isOpen (r : Session) : bool :=
  match completedAt r with None => true | Some _ => false end.

(** [... ORDER BY startedAt DESC LIMIT 1] over the scanned rows.  SQL
    leaves the choice among rows with equal [startedAt] open; here the first
    one scanned is kept, and no property below depends on that choice. *)
Fixpoint orderByStartedAtDescLimit1 (rows : list Session) : option Session :=
  match rows with
  | [] => None
  | r :: rest =>
      match orderByStartedAtDescLimit1 rest with
      | None => Some r
      | Some b => if text_lt (startedAt r) (startedAt b) then Some b else Some r
      end
  end.

(** [INSERT INTO sessions (id, projectId, description, startedAt,
    isAutoCompleted, jiraTicket) VALUES (?, ?, ?, ?, 0, ?)].
    [id] is the PRIMARY KEY: inserting a present id raises and stores nothing. *)
Definition logSessionStart (id' projectId' description' startedAt' : string)
    (jiraTicket' : option string) (rows : Store) : Outcome Store :=
  if existsb (fun r => String.eqb (id r) id') rows
  then Throws SqliteConstraintPrimaryKey
  else Returns (rows ++ [mkSession id' projectId' description' startedAt'
                                   None 0 jiraTicket']).

(** The row written by the UPDATE of [completeLatestSession]. *)
Definition setCompleted (completedAt' : string) (isAutoCompleted' : bool)
    (r : Session) : Session :=
  mkSession (id r) (projectId r) (description r) (startedAt r)
            (Some completedAt') (if isAutoCompleted' then 1 else 0)
            (jiraTicket r).

(** [SELECT id FROM sessions WHERE completedAt IS NULL
     ORDER BY startedAt DESC LIMIT 1]. *)
Definition selectLatestOpen (rows : Store) : option Session :=
  orderByStartedAtDescLimit1 (filter isOpen rows).

(** [UPDATE sessions SET completedAt = ?, isAutoCompleted = ?
     WHERE id = (SELECT id ... LIMIT 1)].  With no open row the subquery is
    NULL and [id = NULL] selects nothing.  The parameter [isAutoCompleted]
    defaults to [false] in the source; callers that omit it pass [false]. *)
Definition completeLatestSession (completedAt' : string)
    (isAutoCompleted' : bool) (rows : Store) : Store :=
  match selectLatestOpen rows with
  | None => rows
  | Some target =>
      map (fun r => if String.eqb (id r) (id target)
                    then setCompleted completedAt' isAutoCompleted' r
                    else r) rows
  end.

(** [SessionSchema.parse(stmt.get())] for
    [SELECT * FROM sessions ORDER BY startedAt DESC LIMIT 1].
    On an empty table [stmt.get()] is [undefined], which the object schema
    rejects by throwing. *)
Definition getLatestSession (rows : Store) : Outcome Session :=
  match orderByStartedAtDescLimit1 rows with
  | None => Throws ZodError
  | Some r => Returns r
  end.

(** [DELETE FROM sessions WHERE startedAt < ?] with the cutoff text bound.
    The function returns nothing. *)
Definition deleteOlderThan (cutoff : string) (rows : Store) : Store :=
  filter (fun r => negb (text_lt (startedAt r) cutoff)) rows.

End Db.

(** ** The JavaScript [Date] the program relies on

    Instants are milliseconds since the epoch, as [Date.now()] gives them.
    The runtime is an interface: every property below holds for any
    implementation of it. *)

(** A JavaScript number, as a parameter of type [number] receives one: a
    finite value, NaN or an infinity. *)
Inductive JsNumber : Type :=
| Finite (q : Q)
| NaN
| Infinity (negative : bool).

Class DateRuntime : Type := {
  (** [new Date(ms).toISOString()] *)
  toISOString : Z -> string;
  (** [new Date(text).getTime()]; [None] is NaN (an invalid date) *)
  getTime : string -> option Z;
  (** [d.setDate(d.getDate() - days)] for [d = new Date(ms)], a
      local-calendar operation: the time value of [d] afterwards, [None]
      when [d] is then an invalid date (its time value is NaN) *)
  setDateBack : Z -> JsNumber -> option Z;
  (** [new Date] of the empty text is an invalid date *)
  getTime_empty : getTime EmptyString = None;
  (** [setDate] of NaN or of an infinity leaves an invalid date *)
  setDateBack_NaN : forall ms, setDateBack ms NaN = None;
  setDateBack_Infinity : forall ms negative,
      setDateBack ms (Infinity negative) = None
}.

(** A concrete runtime for the examples: UTC, proleptic Gregorian calendar,
    texts of the form [YYYY-MM-DDTHH:mm:ss.sssZ], which is the form every
    timestamp written by the program has. *)
Module IsoDate.

Definition digit (n : Z) : ascii := ascii_of_nat (48 + Z.to_nat (n mod 10)).

(** The [k] low decimal digits of [n], most significant first. *)
Fixpoint pad (k : nat) (n : Z) (rest : string) : string :=
  match k with
  | O => rest
  | S k' => pad k' (n / 10) (String (digit n) rest)
  end.

Definition msPerDay : Z := 86400000.

(** Days since the epoch to (year, month, day). *)
Definition civilFromDays (days : Z) : Z * Z * Z :=
  let z := days + 719468 in
  let era := z / 146097 in
  let doe := z - era * 146097 in
  let yoe := (doe - doe / 1460 + doe / 36524 - doe / 146096) / 365 in
  let doy := doe - (365 * yoe + yoe / 4 - yoe / 100) in
  let mp := (5 * doy + 2) / 153 in
  let d := doy - (153 * mp + 2) / 5 + 1 in
  let m := if mp <? 10 then mp + 3 else mp - 9 in
  let y := yoe + era * 400 + (if m <=? 2 then 1 else 0) in
  (y, m, d).

Definition daysFromCivil (y m d : Z) : Z :=
  let y' := y - (if m <=? 2 then 1 else 0) in
  let era := y' / 400 in
  let yoe := y' - era * 400 in
  let doy := (153 * (if 2 <? m then m - 3 else m + 9) + 2) / 5 + d - 1 in
  let doe := yoe * 365 + yoe / 4 - yoe / 100 + doy in
  era * 146097 + doe - 719468.

Definition digits (k : nat) (n : Z) : string := pad k n EmptyString.

Definition format (ms : Z) : string :=
  let days := ms / msPerDay in
  let t := ms mod msPerDay in
  let '(y, m, d) := civilFromDays days in
  let year :=
    if (0 <=? y) && (y <=? 9999) then digits 4 y
    else ((if (0 <=? y)%Z then "+" else "-") ++ digits 6 (Z.abs y))%string in
  (year ++ "-" ++ digits 2 m ++ "-" ++ digits 2 d ++ "T"
   ++ digits 2 (t / 3600000) ++ ":" ++ digits 2 (t / 60000 mod 60) ++ ":"
   ++ digits 2 (t / 1000 mod 60) ++ "." ++ digits 3 (t mod 1000) ++ "Z")%string.

(** The value of a run of decimal digits, [None] if another character occurs. *)
Fixpoint number (acc : Z) (s : string) : option Z :=
  match s with
  | EmptyString => Some acc
  | String c rest =>
      let n := Z.of_nat (nat_of_ascii c) in
      if (48 <=? n) && (n <=? 57) then number (10 * acc + (n - 48)) rest
      else None
  end.

Definition field (from len : nat) (s : string) : option Z :=
  number 0 (substring from len s).

(** Reads the fields at their fixed positions and accepts the text when it
    is the canonical rendering of the instant they denote. *)
Definition parse (s : string) : option Z :=
  match field 0 4 s, field 5 2 s, field 8 2 s,
        field 11 2 s, field 14 2 s, field 17 2 s, field 20 3 s with
  | Some y, Some m, Some d, Some hh, Some mm, Some ss, Some ms =>
      let t := daysFromCivil y m d * msPerDay
               + hh * 3600000 + mm * 60000 + ss * 1000 + ms in
      if String.eqb (format t) s then Some t else None
  | _, _, _, _, _, _, _ => None
  end.

(** [ToIntegerOrInfinity] of a finite value: rounding towards zero. *)
Definition truncate (q : Q) : Z :=
  if Qle_bool 0 q then Qfloor q else Qceiling q.

(** [getDate()]: the day of the month. *)
Definition dayOfMonth (ms : Z) : Z :=
  let '(_, _, d) := civilFromDays (ms / msPerDay) in d.

(** [TimeClip]: a time value is at most 8.64e15 ms away from the epoch. *)
Definition timeClip (t : Z) : option Z :=
  if Z.abs t <=? 8640000000000000 then Some t else None.

(** [setDate(dt)]: the same month and time of day, day of the month [dt]
    rounded towards zero, carried over into other months. *)
Definition setDate (ms : Z) (dt : Q) : option Z :=
  timeClip (ms + (truncate dt - dayOfMonth ms) * msPerDay).

Definition utc : DateRuntime :=
  {| toISOString := format;
     getTime := parse;
     setDateBack := fun ms days =>
       match days with
       | Finite q => setDate ms (inject_Z (dayOfMonth ms) - q)
       | _ => None
       end;
     getTime_empty := eq_refl;
     setDateBack_NaN := fun _ => eq_refl;
     setDateBack_Infinity := fun _ _ => eq_refl |}.

End IsoDate.

(** ** Effects: the world the commands act on

    The table, the three variables the [monitor] closure keeps between
    polls, and the requests issued so far, oldest first.  Console output and
    desktop notifications are not recorded. *)

Inductive Event : Type :=
| GetUser                                   (* GET /user *)
| GetActiveTimer                            (* GET .../time-entries?in-progress *)
| StopTimer                                 (* PATCH .../time-entries {end} *)
| PostTimeEntry (projectId description : string) (start : Z)
                                            (* POST .../time-entries {start} *)
| GetProject (projectId : string)           (* GET .../projects/:id *)
| GetProjects (page : nat)                  (* GET .../projects?page= *)
| JiraGetTicket (ticket : string)
| JiraStopTimer (ticket : string) (timeSpentSeconds : Z)
| DbLogSessionStart (id : string)           (* the INSERT went through *)
| DbCompleteLatestSession (completedAt : string) (isAutoCompleted : bool).

Record World : Type := mkWorld {
  db : Db.Store;
  lastResumeAt : Z;
  isLocked : bool;
  lastIdle : bool;
  trace : list Event
}.

Definition initialWorld (rows : Db.Store) : World :=
  mkWorld rows 0 false false [].

(** An async function runs until it settles (returns or throws) or reaches
    an [await] of something pending.  What is left after the await runs
    later, on the world as it is then; what was changed before a throw
    stays changed. *)
Inductive Async (A : Type) : Type :=
| Settled (result : Outcome A) (w : World)
| Awaiting (w : World) (rest : World -> Async A).
Arguments Settled {A} result w.
Arguments Awaiting {A} w rest.

Definition M (A : Type) : Type := World -> Async A.

Definition ret {A} (a : A) : M A := fun w => Settled (Returns a) w.

Definition throw {A} (e : Exn) : M A := fun w => Settled (Throws e) w.

Definition settle {A} (o : Outcome A) : M A := fun w => Settled o w.

Fixpoint andThen {A B} (a : Async A) (k : A -> M B) : Async B :=
  match a with
  | Settled (Returns x) w => k x w
  | Settled (Throws e) w => Settled (Throws e) w
  | Awaiting w rest => Awaiting w (fun w' => andThen (rest w') k)
  end.

Definition bind {A B} (m : M A) (k : A -> M B) : M B :=
  fun w => andThen (m w) k.

Fixpoint orCatch {A} (a : Async A) (handler : Exn -> M A) : Async A :=
  match a with
  | Settled (Returns x) w => Settled (Returns x) w
  | Settled (Throws e) w => handler e w
  | Awaiting w rest => Awaiting w (fun w' => orCatch (rest w') handler)
  end.

Definition tryCatch {A} (m : M A) (handler : Exn -> M A) : M A :=
  fun w => orCatch (m w) handler.

Declare Scope monad_scope.
Delimit Scope monad_scope with monad.
Notation "x <- m ;; k" := (bind m (fun x => k))
  (at level 61, m at next level, right associativity) : monad_scope.
Notation "m ;; k" := (bind m (fun _ => k))
  (at level 61, right associativity) : monad_scope.
Local Open Scope monad_scope.

(** Gives way to whatever else is ready to run. *)
Definition yield : M unit :=
  fun w => Awaiting w (fun w' => Settled (Returns tt) w').

Definition getWorld : M World := fun w => Settled (Returns w) w.

Definition emit (ev : Event) : M unit :=
  fun w => Settled (Returns tt)
             (mkWorld (db w) (lastResumeAt w) (isLocked w) (lastIdle w)
                      (trace w ++ [ev])).

(** [await] of a call to the outside: the request goes out now, the answer
    is there when the function is resumed. *)
Definition await {A} (ev : Event) (answer : Outcome A) : M A :=
  emit ev ;; yield ;; settle answer.

Definition setLastResumeAt (t : Z) : M unit :=
  fun w => Settled (Returns tt)
             (mkWorld (db w) t (isLocked w) (lastIdle w) (trace w)).

Definition setIsLocked (b : bool) : M unit :=
  fun w => Settled (Returns tt)
             (mkWorld (db w) (lastResumeAt w) b (lastIdle w) (trace w)).

Definition setLastIdle (b : bool) : M unit :=
  fun w => Settled (Returns tt)
             (mkWorld (db w) (lastResumeAt w) (isLocked w) b (trace w)).

Definition setDb (rows : Db.Store) : M unit :=
  fun w => Settled (Returns tt)
             (mkWorld rows (lastResumeAt w) (isLocked w) (lastIdle w) (trace w)).

(** The function run to its end with nothing else running in between. *)
Fixpoint complete {A} (a : Async A) : Outcome A * World :=
  match a with
  | Settled result w => (result, w)
  | Awaiting w rest => complete (rest w)
  end.

(** The statements of lib/db.ts run against the world's table; they are
    synchronous. *)

Definition dbLogSessionStart (id projectId description startedAt : string)
    (jiraTicket : option string) : M unit :=
  w <- getWorld ;;
  rows <- settle (Db.logSessionStart id projectId description startedAt
                                     jiraTicket (db w)) ;;
  setDb rows ;;
  emit (DbLogSessionStart id).

Definition dbCompleteLatestSession (completedAt : string)
    (isAutoCompleted : bool) : M unit :=
  w <- getWorld ;;
  setDb (Db.completeLatestSession completedAt isAutoCompleted (db w)) ;;
  emit (DbCompleteLatestSession completedAt isAutoCompleted).

Definition dbGetLatestSession : M Db.Session :=
  w <- getWorld ;;
  settle (Db.getLatestSession (db w)).

(** JavaScript truthiness of a string and of a nullable string. *)
Definition truthy (s : string) : bool := negb (String.eqb s EmptyString).

Definition truthyOpt (s : option string) : option string :=
  match s with
  | Some t => if truthy t then Some t else None
  | None => None
  end.

(** ** clockify.ts *)

(** What Clockify answers; the code below only tests it for presence.
    [getUser], [getActiveTimer] and [stopTimer] catch their own failures
    and answer null. *)
Record TimeEntry : Type := mkTimeEntry {
  entryId : string;
  entryProjectId : string;
  entryDescription : string
}.

Record User : Type := mkUser {
  userId : string;
  defaultWorkspace : string
}.

(** What [Clockify.startTimer] receives from outside while it runs. *)
Record StartEnv : Type := mkStartEnv {
  st_user : option User;               (* getUser(): null when it failed *)
  st_ticket : Outcome (option string); (* getJiraTicket(): summary, null, or rejected *)
  st_date : Z;                         (* new Date() *)
  st_uuid : string;                    (* uuidv4() *)
  st_post : Outcome TimeEntry          (* the POST: response.data or a rejection *)
}.

Definition defaultDescription : string := "Working on a task...".

Section Program.

Context {date : DateRuntime}.

(** [Clockify.startTimer(workspaceId, projectId, description, jiraTicket)];
    [description = None] is the omitted argument. *)
Definition startTimer (e : StartEnv) (projectId : string)
    (description : option string) (jiraTicket : option string)
    : M (option TimeEntry) :=
  tryCatch
    (user <- await GetUser (Returns (st_user e)) ;;
     match user with
     | None => ret None
     | Some _ =>
         let description :=
           match description with Some d => d | None => defaultDescription end in
         finalDescription <-
           match truthyOpt jiraTicket with
           | Some jt =>
               ticket <- await (JiraGetTicket jt) (st_ticket e) ;;
               ret (match ticket with
                    | Some summary => (jt ++ " " ++ summary)%string
                    | None => description
                    end)
           | None => ret description
           end ;;
         let startedAt := toISOString (st_date e) in
         let sessionId := st_uuid e in
         response <- await (PostTimeEntry projectId finalDescription (st_date e))
                           (st_post e) ;;
         dbLogSessionStart sessionId projectId finalDescription startedAt
                           jiraTicket ;;
         _ <- await (GetProject projectId) (Returns tt) ;;
         ret (Some response)
     end)
    (fun _ => ret None).

(** ** index.ts, command [monitor] *)

(** [Math.round((new Date(completedAt).getTime()
                 - new Date(startedAt).getTime()) / 1000)], [None] for NaN. *)
Definition timeSpentSeconds (completedAt startedAt : string) : option Z :=
  match getTime completedAt, getTime startedAt with
  | Some c, Some s => Some ((c - s + 500) / 1000)
  | _, _ => None
  end.

Record StopEnv : Type := mkStopEnv {
  sp_active : option TimeEntry;   (* getActiveTimer(): absent when none or failed *)
  sp_date : Z;                    (* new Date() *)
  sp_stopped : option TimeEntry;  (* stopTimer(): null when it failed *)
  sp_jira : Outcome unit          (* stopJiraTimer() *)
}.

Definition stopTimerAndLog (e : StopEnv) : M bool :=
  activeEntry <- await GetActiveTimer (Returns (sp_active e)) ;;
  match activeEntry with
  | None => ret false
  | Some _ =>
      let completedAt := toISOString (sp_date e) in
      latestSession <- dbGetLatestSession ;;
      stoppedEntry <- await StopTimer (Returns (sp_stopped e)) ;;
      match stoppedEntry with
      | None => ret false
      | Some _ =>
          dbCompleteLatestSession completedAt true ;;
          match truthyOpt (Db.jiraTicket latestSession) with
          | Some jt =>
              match timeSpentSeconds completedAt (Db.startedAt latestSession) with
              | Some secs =>
                  if 60 <=? secs
                  then tryCatch (await (JiraStopTimer jt secs) (sp_jira e))
                                (fun _ => ret tt)
                  else ret tt
              | None => ret tt
              end
          | None => ret tt
          end ;;
          ret true
      end
  end.

Definition RESUME_COOLDOWN_MS : Z := 10000.

Record ResumeEnv : Type := mkResumeEnv {
  rs_now0 : Z;                    (* Date.now() on entry *)
  rs_active : option TimeEntry;   (* getActiveTimer() *)
  rs_now1 : Z;                    (* Date.now() for twoHoursAgo *)
  rs_start : StartEnv;
  rs_now2 : Z                     (* Date.now() kept in lastResumeAt *)
}.

(** [eligible] of [safeRestartTimerIfNeeded]. *)
Definition eligible (now1 : Z) (latestSession : Db.Session) : bool :=
  let twoHoursAgo := now1 - 2 * 60 * 60 * 1000 in
  let completedAt :=
    match truthyOpt (Db.completedAt latestSession) with
    | Some text => getTime text
    | None => Some 0
    end in
  negb (Db.isAutoCompleted latestSession =? 0)
  && match completedAt with Some c => twoHoursAgo <? c | None => false end
  && truthy (Db.projectId latestSession).

(** [if (!latestSession) return] has no counterpart: [getLatestSession]
    returns a row or throws. *)
Definition safeRestartTimerIfNeeded (e : ResumeEnv) : M unit :=
  w <- getWorld ;;
  if rs_now0 e - lastResumeAt w <? RESUME_COOLDOWN_MS then ret tt
  else
    yield ;;                                        (* await sleep(800) *)
    latestSession <- dbGetLatestSession ;;
    activeEntry <- await GetActiveTimer (Returns (rs_active e)) ;;
    match activeEntry with
    | Some _ => ret tt
    | None =>
        if negb (eligible (rs_now1 e) latestSession) then ret tt
        else
          _ <- startTimer (rs_start e) (Db.projectId latestSession)
                          (Some (Db.description latestSession)) None ;;
          setLastResumeAt (rs_now2 e)
    end.

Definition IDLE_THRESHOLD_SECONDS : Q := 300 # 1.

(** One firing of a poller, with what it receives from outside:
    [getSessionState()] or [getIdleTime()] (either may throw), and what the
    branch it takes will be answered. *)
Inductive Tick : Type :=
| LockPoll (state : Outcome string) (stop : StopEnv) (resume : ResumeEnv)
| IdlePoll (idleTime : Outcome Q) (stop : StopEnv) (resume : ResumeEnv).

(** The body of the 3 s [pollInterval] callback. *)
Definition pollLock (state : Outcome string) (stop : StopEnv)
    (resume : ResumeEnv) : M unit :=
  tryCatch
    (state <- settle state ;;
     let locked := String.eqb state "SESSION_SCREEN_IS_LOCKED" in
     w <- getWorld ;;
     if locked && negb (isLocked w) then
       setIsLocked true ;;
       _ <- stopTimerAndLog stop ;;
       ret tt
     else if negb locked && isLocked w then
       safeRestartTimerIfNeeded resume ;;
       setIsLocked false
     else ret tt)
    (fun _ => ret tt).

(** The body of the 5 s [idleInterval] callback. *)
Definition pollIdle (idleTime : Outcome Q) (stop : StopEnv)
    (resume : ResumeEnv) : M unit :=
  tryCatch
    (idleTime <- settle idleTime ;;
     if Qle_bool IDLE_THRESHOLD_SECONDS idleTime then
       stopped <- stopTimerAndLog stop ;;
       if stopped then setLastIdle true else ret tt
     else
       w <- getWorld ;;
       (if lastIdle w then safeRestartTimerIfNeeded resume else ret tt) ;;
       setLastIdle false)
    (fun _ => ret tt).

Definition runTick (t : Tick) : M unit :=
  match t with
  | LockPoll state stop resume => pollLock state stop resume
  | IdlePoll idleTime stop resume => pollIdle idleTime stop resume
  end.

(** The world after a sequence of polls, each run to its end before the
    next one fires. *)
Fixpoint runTicks (ts : list Tick) (w : World) : World :=
  match ts with
  | [] => w
  | t :: rest => runTicks rest (snd (complete (runTick t w)))
  end.

(** Polls whose bodies overlap.  The pollers are [setInterval] callbacks:
    a firing does not wait for bodies still suspended at an [await].  A turn
    of the event loop either fires a poll, which runs up to its first
    pending await, or resumes a suspended body up to its next one. *)
Inductive Turn : Type :=
| Fire (t : Tick)
| Resume (i : nat).

(** The shared world and the suspended bodies, oldest first. *)
Definition Loop : Type := World * list (World -> Async unit).

Fixpoint setNth {A} (i : nat) (x : option A) (l : list A) : list A :=
  match l, i with
  | [], _ => []
  | _ :: tl, O => match x with Some y => y :: tl | None => tl end
  | hd :: tl, S i' => hd :: setNth i' x tl
  end.

Definition turn (x : Turn) (s : Loop) : Loop :=
  match x with
  | Fire t =>
      match runTick t (fst s) with
      | Settled _ w => (w, snd s)
      | Awaiting w rest => (w, snd s ++ [rest])
      end
  | Resume i =>
      match nth_error (snd s) i with
      | None => s
      | Some body =>
          match body (fst s) with
          | Settled _ w => (w, setNth i None (snd s))
          | Awaiting w rest => (w, setNth i (Some rest) (snd s))
          end
      end
  end.

Fixpoint runTurns (xs : list Turn) (s : Loop) : Loop :=
  match xs with
  | [] => s
  | x :: rest => runTurns rest (turn x s)
  end.

(** ** lib/db.ts, [deleteOldSessions(days)] called at instant [now]:
    how it ends and the table it leaves.  [date.toISOString()] is
    evaluated before the DELETE runs and throws a RangeError on an invalid
    date; the function returns nothing. *)
Definition deleteOldSessions (now : Z) (days : JsNumber) (rows : Db.Store)
    : Outcome unit * Db.Store :=
  match setDateBack now days with
  | Some date => (Returns tt, Db.deleteOlderThan (toISOString date) rows)
  | None => (Throws RangeError, rows)
  end.

End Program.

(** ** Vocabulary of the properties *)

(** The number of sessions with [completedAt] absent. *)
Definition openCount (rows : Db.Store) : nat :=
  List.length (filter Db.isOpen rows).

Definition atMostOneOpen (rows : Db.Store) : Prop :=
  (openCount rows <= 1)%nat.

(** [r] is among [rows] and none of them started later. *)
Definition latestAmong (r : Db.Session) (rows : list Db.Session) : Prop :=
  In r rows /\
  forall r', In r' rows -> text_le (Db.startedAt r') (Db.startedAt r) = true.

(** The two store operations a client can issue.  An append that raises
    leaves the table as it was. *)
Inductive StoreOp : Type :=
| AppendSession (id projectId description startedAt : string)
                (jiraTicket : option string)
| CloseOpenSession (completedAt : string) (autoCompleted : bool).

Definition applyOp (op : StoreOp) (rows : Db.Store) : Db.Store :=
  match op with
  | AppendSession i p d s j =>
      match Db.logSessionStart i p d s j rows with
      | Returns rows' => rows'
      | Throws _ => rows
      end
  | CloseOpenSession c a => Db.completeLatestSession c a rows
  end.

(** The table after each operation of the sequence. *)
Fixpoint statesAfter (ops : list StoreOp) (rows : Db.Store) : list Db.Store :=
  match ops with
  | [] => []
  | op :: rest => applyOp op rows :: statesAfter rest (applyOp op rows)
  end.

(** Every [AppendSession] of the sequence is issued on a table that has no
    open session. *)
Fixpoint appendsWhenClosed (ops : list StoreOp) (rows : Db.Store) : bool :=
  match ops with
  | [] => true
  | op :: rest =>
      match op with
      | AppendSession _ _ _ _ _ => Nat.eqb (openCount rows) 0
      | CloseOpenSession _ _ => true
      end && appendsWhenClosed rest (applyOp op rows)
  end.

(** No two [AppendSession] follow each other directly. *)
Fixpoint appendsSeparated (ops : list StoreOp) : bool :=
  match ops with
  | AppendSession _ _ _ _ _ :: ((AppendSession _ _ _ _ _ :: _) as rest) => false
  | _ :: rest => appendsSeparated rest
  | [] => true
  end.

(** The sessions a purge with this cutoff removes. *)
Definition olderThan (cutoff : string) (rows : Db.Store) : list Db.Session :=
  filter (fun r => text_lt (Db.startedAt r) cutoff) rows.

Definition SESSION_SCREEN_IS_LOCKED : string := "SESSION_SCREEN_IS_LOCKED".

(** The poll observes inactivity and takes the stopping branch: the screen
    is reported locked while the monitor holds it unlocked, or the idle time
    has reached the threshold. *)
Definition turnsInactive (t : Tick) (w : World) : option StopEnv :=
  match t with
  | LockPoll (Returns state) stop _ =>
      if String.eqb state SESSION_SCREEN_IS_LOCKED && negb (isLocked w)
      then Some stop else None
  | IdlePoll (Returns idleTime) stop _ =>
      if Qle_bool IDLE_THRESHOLD_SECONDS idleTime then Some stop else None
  | _ => None
  end.

(** The poll observes the return of activity after inactivity: the screen is
    reported unlocked while the monitor holds it locked, or the idle time is
    below the threshold after an idle stop. *)
Definition turnsActive (t : Tick) (w : World) : option ResumeEnv :=
  match t with
  | LockPoll (Returns state) _ resume =>
      if negb (String.eqb state SESSION_SCREEN_IS_LOCKED) && isLocked w
      then Some resume else None
  | IdlePoll (Returns idleTime) _ resume =>
      if negb (Qle_bool IDLE_THRESHOLD_SECONDS idleTime) && lastIdle w
      then Some resume else None
  | _ => None
  end.

Definition resumeEnvOf (t : Tick) : ResumeEnv :=
  match t with
  | LockPoll _ _ resume => resume
  | IdlePoll _ _ resume => resume
  end.

(** The instants at which remote timers were started. *)
Definition postTimes (evs : list Event) : list Z :=
  flat_map (fun ev => match ev with
                      | PostTimeEntry _ _ start => [start]
                      | _ => []
                      end) evs.

(** Successive elements are at least a cooldown apart. *)
Definition spaced (times : list Z) : Prop :=
  Sorted.StronglySorted (fun a b => a + RESUME_COOLDOWN_MS <= b) times.

(** The clock does not run backwards while a resume is in progress. *)
Definition clockAdvances (r : ResumeEnv) : Prop :=
  rs_now0 r <= st_date (rs_start r) /\ st_date (rs_start r) <= rs_now2 r.

Definition twoHours : Z := 2 * 60 * 60 * 1000.
Definition threeHours : Z := 3 * 60 * 60 * 1000.

(** The Jira request that may follow the local close. *)
Definition jiraTail (evs : list Event) : Prop :=
  evs = [] \/ exists ticket secs, evs = [JiraStopTimer ticket secs].

(** The world [stopTimerAndLog] starts from in a poll that observes
    inactivity: the lock poller has set its flag by then. *)
Definition enteringStop (t : Tick) (w : World) : World :=
  match t with
  | LockPoll _ _ _ =>
      mkWorld (db w) (lastResumeAt w) true (lastIdle w) (trace w)
  | IdlePoll _ _ _ => w
  end.

(** What a poll can do to [lastResumeAt] and to the timers started: nothing,
    or, the cooldown having elapsed, it reads the clock into [lastResumeAt]
    after at most one start. *)
Definition resumeEffect (e : ResumeEnv) (w w' : World) : Prop :=
  (lastResumeAt w' = lastResumeAt w /\
   postTimes (trace w') = postTimes (trace w)) \/
  (RESUME_COOLDOWN_MS <= rs_now0 e - lastResumeAt w /\
   lastResumeAt w' = rs_now2 e /\
   (postTimes (trace w') = postTimes (trace w) \/
    postTimes (trace w') = postTimes (trace w) ++ [st_date (rs_start e)])).

(** Timers started so far are spaced and none is later than [lastResumeAt]. *)
Definition cooldownInvariant (w : World) : Prop :=
  spaced (postTimes (trace w)) /\
  Forall (fun p => p <= lastResumeAt w) (postTimes (trace w)).

(** ** Concrete stores, operations and polls used by the examples *)

Module Examples.

Import Db.
Local Open Scope string_scope.

(** 2023-11-14T22:13:20.000Z *)
Definition t0 : Z := 1700000000000.

Definition firstStart : StoreOp :=
  AppendSession "s1" "proj-1" "write report" "2023-11-14T22:13:20.000Z" None.

Definition secondStart : StoreOp :=
  AppendSession "s2" "proj-2" "review" "2023-11-14T23:00:00.000Z" None.

Definition userStop : StoreOp :=
  CloseOpenSession "2023-11-14T22:50:00.000Z" false.

Definition opsAlternating : list StoreOp := [firstStart; userStop; secondStart].

Definition opsTwoStarts : list StoreOp := [firstStart; secondStart].

(** The table after [opsTwoStarts]: both sessions are open. *)
Definition twoOpen : Store :=
  [ mkSession "s1" "proj-1" "write report" "2023-11-14T22:13:20.000Z" None 0 None;
    mkSession "s2" "proj-2" "review" "2023-11-14T23:00:00.000Z" None 0 None ].

(** The table after [opsAlternating]: one closed and one open session. *)
Definition oneOpen : Store :=
  [ mkSession "s1" "proj-1" "write report" "2023-11-14T22:13:20.000Z"
              (Some "2023-11-14T22:50:00.000Z") 0 None;
    mkSession "s2" "proj-2" "review" "2023-11-14T23:00:00.000Z" None 0 None ].

(** An open session started two weeks before [t0]. *)
Definition forgotten : Session :=
  mkSession "s0" "proj-1" "left running" "2023-10-31T09:00:00.000Z" None 0 None.

(** The monitored scenario: a session started by hand at [t0]. *)
Definition working : Session :=
  mkSession "s1" "proj-1" "write report" "2023-11-14T22:13:20.000Z" None 0 None.

Definition someEntry : TimeEntry := mkTimeEntry "e1" "proj-1" "write report".

Definition me : User := mkUser "u1" "ws1".

(** Clockify answers every request; the clock advances during a resume. *)
Definition stopEnvAt (t : Z) : StopEnv :=
  mkStopEnv (Some someEntry) t (Some someEntry) (Returns tt).

Definition resumeEnvAt (t : Z) (uuid : string) : ResumeEnv :=
  mkResumeEnv t None (t + 900)
              (mkStartEnv (Some me) (Returns None) (t + 1000) uuid
                          (Returns someEntry))
              (t + 1500).

Definition lockedAt (t : Z) : Tick :=
  LockPoll (Returns "SESSION_SCREEN_IS_LOCKED") (stopEnvAt t)
           (resumeEnvAt t "unused").

Definition unlockedAt (t : Z) (uuid : string) : Tick :=
  LockPoll (Returns "SESSION_ON_CONSOLE_KEY") (stopEnvAt t)
           (resumeEnvAt t uuid).

(** A lock poll during which Clockify reports no running timer. *)
Definition lockedNoTimerAt (t : Z) : Tick :=
  LockPoll (Returns "SESSION_SCREEN_IS_LOCKED")
           (mkStopEnv None t None (Returns tt)) (resumeEnvAt t "unused").

Definition minute : Z := 60000.

(** Locked after 30 minutes. *)
Definition lock1 : Tick := lockedAt (t0 + 30 * minute).
(** Unlocked after an hour: the session is resumed as "s2". *)
Definition unlock1 : Tick := unlockedAt (t0 + 60 * minute) "s2".
(** Locked again 3 s later, unlocked 3 s after that. *)
Definition lock2 : Tick := lockedAt (t0 + 60 * minute + 3000).
Definition unlock2 : Tick := unlockedAt (t0 + 60 * minute + 6000) "s3".
(** Unlocked only three hours after the first lock. *)
Definition unlockLate : Tick := unlockedAt (t0 + 30 * minute + threeHours) "s2".

(** The idle poller: idle for 305 s, and back at the keyboard 20 s later. *)
Definition idle305 : Tick :=
  IdlePoll (Returns (305 # 1)) (stopEnvAt (t0 + 30 * minute))
           (resumeEnvAt (t0 + 30 * minute) "unused").

Definition idle0 : Tick :=
  IdlePoll (Returns (0 # 1)) (stopEnvAt (t0 + 30 * minute + 20000))
           (resumeEnvAt (t0 + 30 * minute + 20000) "s2").

Definition monitorStart : World := initialWorld [working].

(** A poll run to its end. *)
Definition poll (t : Tick) (w : World) : World :=
  snd (complete (runTick (date := IsoDate.utc) t w)).

Definition afterLock1 : World :=
  runTicks (date := IsoDate.utc) [lock1] monitorStart.

Definition afterLock2 : World :=
  runTicks (date := IsoDate.utc) [lock1; unlock1; lock2] monitorStart.

(** Idle for five minutes, then locked: the idle poller stopped the timer,
    the lock poller found none. *)
Definition bothInactive : World :=
  runTicks (date := IsoDate.utc)
           [idle305; lockedNoTimerAt (t0 + 35 * minute)] monitorStart.

(** Back after an hour.  The two pollers fire 50 ms apart and both observe
    the return of activity. *)
Definition unlockBack : Tick := unlockedAt (t0 + 60 * minute) "s2".

Definition idleBack : Tick :=
  IdlePoll (Returns (0 # 1)) (stopEnvAt (t0 + 60 * minute + 50))
           (resumeEnvAt (t0 + 60 * minute + 50) "s3").

(** Both bodies are suspended at their awaits and resumed in turn. *)
Definition overlapped : list Turn :=
  [ Fire unlockBack; Fire idleBack;
    Resume 0; Resume 1;      (* sleep over: table read, timer lookup sent *)
    Resume 0; Resume 1;      (* no timer reported: user lookup sent *)
    Resume 0; Resume 1;      (* POST sent *)
    Resume 0; Resume 1;      (* session logged, project lookup sent *)
    Resume 0; Resume 0 ]%nat.  (* lastResumeAt assigned, first by the lock poll *)

End Examples.

(** * The rest of the code *)

(** ** lib/db.ts, table [event_projects] *)

Module EventProjects.

(** [eventName TEXT PRIMARY KEY, projectId TEXT]; a NULL [projectId] is the
    remembered choice to skip the event. *)
Record Row : Type := mkRow {
  eventName : string;
  projectId : option string
}.

Definition Table : Type := list Row.

(** [SELECT projectId FROM event_projects WHERE eventName = ?], then
    [row ? row.projectId : undefined]: [None] is [undefined], [Some None]
    is [null]. *)
Definition getEventProject (eventName' : string) (rows : Table)
    : option (option string) :=
  match find (fun r => String.eqb (eventName r) eventName') rows with
  | Some row => Some (projectId row)
  | None => None
  end.

(** [INSERT OR REPLACE INTO event_projects (eventName, projectId)
     VALUES (?, ?)]: the row that holds the key is deleted, the new row is
    inserted. *)
Definition setEventProject (eventName' : string) (projectId' : option string)
    (rows : Table) : Table :=
  filter (fun r => negb (String.eqb (eventName r) eventName')) rows
  ++ [mkRow eventName' projectId'].

End EventProjects.

(** ** lib/db.ts, table [google_tokens] *)

Module Tokens.

(** [id INTEGER PRIMARY KEY AUTOINCREMENT, token TEXT, createdAt TEXT]. *)
Record Row : Type := mkRow {
  id : Z;
  token : string;
  createdAt : string
}.

Definition Table : Type := list Row.

(** No statement deletes from this table, so the id AUTOINCREMENT gives is
    one more than the largest id in it. *)
Definition nextId (rows : Table) : Z :=
  1 + fold_right Z.max 0 (map id rows).

(** [INSERT INTO google_tokens (token, createdAt) VALUES (?, ?)]. *)
Definition insert (token' createdAt' : string) (rows : Table) : Table :=
  rows ++ [mkRow (nextId rows) token' createdAt'].

(** [SELECT * FROM google_tokens ORDER BY createdAt DESC LIMIT 1]; among
    rows with equal [createdAt] the first one scanned is kept. *)
Fixpoint orderByCreatedAtDescLimit1 (rows : list Row) : option Row :=
  match rows with
  | [] => None
  | r :: rest =>
      match orderByCreatedAtDescLimit1 rest with
      | None => Some r
      | Some b => if text_lt (createdAt r) (createdAt b) then Some b else Some r
      end
  end.

End Tokens.

(** [JSON.parse]: the value or a SyntaxError. *)
Inductive Parsed (T : Type) : Type :=
| Value (t : T)
| SyntaxError.
Arguments Value {T} t.
Arguments SyntaxError {T}.

(** [JSON.stringify] and [JSON.parse] on the values of type [T], [null]
    among them; a text written by [stringify] parses back to the value. *)
Class JsonRuntime (T : Type) : Type := {
  null : T;
  stringify : T -> string;
  parse : string -> Parsed T;
  parse_stringify : forall t, parse (stringify t) = Value t
}.

(** The JSON texts [true], [false] and [null]; [None] is null. *)
Definition stringifyBool (b : option bool) : string :=
  match b with
  | Some true => "true"
  | Some false => "false"
  | None => "null"
  end.

Definition parseBool (s : string) : Parsed (option bool) :=
  if String.eqb s "true" then Value (Some true)
  else if String.eqb s "false" then Value (Some false)
  else if String.eqb s "null" then Value None
  else SyntaxError.

Definition jsonBool : JsonRuntime (option bool) :=
  {| null := None;
     stringify := stringifyBool;
     parse := parseBool;
     parse_stringify :=
       fun b => match b return parseBool (stringifyBool b) = Value b with
                | Some true => eq_refl
                | Some false => eq_refl
                | None => eq_refl
                end |}.

Section TokenStore.

Context {date : DateRuntime} {T : Type} {json : JsonRuntime T}.

(** [storeToken(token)] called at instant [now]. *)
Definition storeToken (now : Z) (token : T) (rows : Tokens.Table)
    : Tokens.Table :=
  Tokens.insert (stringify token) (toISOString now) rows.

(** [getLatestToken()]: [row ? JSON.parse(row.token) : null].  The null of
    an empty table is the null a stored text [null] parses to. *)
Definition getLatestToken (rows : Tokens.Table) : Parsed T :=
  match Tokens.orderByCreatedAtDescLimit1 rows with
  | Some row => parse (Tokens.token row)
  | None => Value null
  end.

End TokenStore.

(** ** clockify.ts, [getProjects] and [logTime] *)

Module Clockify.

Record ClockifyProject : Type := mkProject {
  id : string;
  name : string
}.

(** What [getProjects] did: the pages it asked for, in order, and the list
    it returned. *)
Record Fetched : Type := mkFetched {
  requested : list nat;
  returned : list ClockifyProject
}.

(** The [while (hasMore)] loop of [getProjects] from page [page] on, with
    [allProjects] collected so far and [asked] the pages requested so far.
    [server p] is what the GET of page [p] (page size 50) answers.  The
    loop has no bound of its own; [None] is a loop still running when the
    fuel is spent.  A rejected request is caught outside the loop and makes
    the function return the empty list. *)
Fixpoint getProjectsFrom (fuel : nat)
    (server : nat -> Outcome (list ClockifyProject))
    (page : nat) (asked : list nat) (allProjects : list ClockifyProject)
    : option Fetched :=
  match fuel with
  | O => None
  | S fuel' =>
      match server page with
      | Throws _ => Some (mkFetched (asked ++ [page]) [])
      | Returns data =>
          if (0 <? List.length data)%nat
          then getProjectsFrom fuel' server (S page) (asked ++ [page])
                               (allProjects ++ data)
          else Some (mkFetched (asked ++ [page]) allProjects)
      end
  end.

Definition getProjects (fuel : nat)
    (server : nat -> Outcome (list ClockifyProject)) : option Fetched :=
  getProjectsFrom fuel server 1 [] [].

(** A POST of a finished time entry. *)
Record LoggedTime : Type := mkLoggedTime {
  lt_projectId : string;
  lt_start : string;
  lt_end : string;
  lt_description : string
}.

(** [logTime(workspaceId, projectId, start, end, description)]: the POST
    it sends, if any, and what it returns.  [post] is the answer to the
    POST; a rejection is caught and gives null. *)
Definition logTime (post : Outcome TimeEntry) (projectId : option string)
    (start end_ description : string)
    : option LoggedTime * option TimeEntry :=
  match truthyOpt projectId with
  | None => (None, None)
  | Some p =>
      (Some (mkLoggedTime p start end_ description),
       match post with
       | Returns data => Some data
       | Throws _ => None
       end)
  end.

End Clockify.

(** ** index.ts, commands [start] and [stop] *)

(** How a command ends when it does not throw. *)
Inductive CommandEnd : Type :=
| Done
| Exit (code : Z).      (* process.exit(code) *)

(** The project filter of [start]: what is written to
    [data/local-projects.json], if anything, and the projects offered in
    the prompt.  [projects] is what [getProjects] returned, [localProjects]
    what [getLocalProjects] returned. *)
Definition offeredProjects (projects localProjects : list Clockify.ClockifyProject)
    : option (list Clockify.ClockifyProject) * list Clockify.ClockifyProject :=
  let written :=
    if (List.length localProjects =? 0)%nat
    then Some (map (fun p => Clockify.mkProject (Clockify.id p) (Clockify.name p))
                   projects)
    else None in
  let localProjects :=
    match written with
    | Some allProjects => allProjects
    | None => localProjects
    end in
  let projects :=
    if (0 <? List.length localProjects)%nat
    then let localProjectIds := map Clockify.id localProjects in
         filter (fun p => existsb (String.eqb (Clockify.id p)) localProjectIds)
                projects
    else projects in
  (written, projects).

(** The project filter of scripts/log-calendar-events.ts: nothing is
    written, and a project given on the command line empties the list. *)
Definition calendarProjects (projectId : option string)
    (allProjects localProjects : list Clockify.ClockifyProject)
    : list Clockify.ClockifyProject :=
  match truthyOpt projectId with
  | Some _ => []
  | None =>
      if (0 <? List.length localProjects)%nat
      then let localProjectIds := map Clockify.id localProjects in
           filter (fun p => existsb (String.eqb (Clockify.id p)) localProjectIds)
                  allProjects
      else allProjects
  end.

Record StopCommandEnv : Type := mkStopCommandEnv {
  sc_user : option User;          (* getUser() *)
  sc_stopped : option TimeEntry;  (* stopTimer() *)
  sc_date : Z;                    (* new Date(), read after the stop *)
  sc_jira : Outcome unit          (* stopJiraTimer() *)
}.

Section Commands.

Context {date : DateRuntime}.

Local Open Scope monad_scope.

(** [getWorkspaceAndUser()]: [None] is [process.exit(1)]. *)
Definition getWorkspaceAndUser (user : option User)
    : M (option (string * string)) :=
  user <- await GetUser (Returns user) ;;
  ret (match user with
       | None => None
       | Some u => Some (defaultWorkspace u, userId u)
       end).

(** The action of [program.command('stop')].  An exception it lets escape
    is the [Throws] of the result. *)
Definition stopCommand (e : StopCommandEnv) : M CommandEnd :=
  ids <- getWorkspaceAndUser (sc_user e) ;;
  match ids with
  | None => ret (Exit 1)
  | Some _ =>
      latestSession <- dbGetLatestSession ;;
      stoppedEntry <- await StopTimer (Returns (sc_stopped e)) ;;
      match stoppedEntry with
      | Some _ =>
          let completedAt := toISOString (sc_date e) in
          dbCompleteLatestSession completedAt false ;;
          match truthyOpt (Db.jiraTicket latestSession) with
          | Some jt =>
              match timeSpentSeconds completedAt (Db.startedAt latestSession) with
              | Some secs =>
                  if 60 <=? secs
                  then tryCatch (await (JiraStopTimer jt secs) (sc_jira e))
                                (fun _ => ret tt)
                  else ret tt
              | None => ret tt
              end
          | None => ret tt
          end ;;
          ret Done
      | None => ret Done
      end
  end.

(** [clockify.getProjects(workspaceId)] as a call inside a command: the
    loop of [Clockify.getProjectsFrom], one GET per page.  [None] is the
    loop still running when the fuel is spent. *)
Fixpoint requestProjectsFrom (fuel : nat)
    (server : nat -> Outcome (list Clockify.ClockifyProject))
    (page : nat) (allProjects : list Clockify.ClockifyProject)
    : M (option (list Clockify.ClockifyProject)) :=
  match fuel with
  | O => ret None
  | S fuel' =>
      data <- await (GetProjects page) (server page) ;;
      if (0 <? List.length data)%nat
      then requestProjectsFrom fuel' server (S page) (allProjects ++ data)
      else ret (Some allProjects)
  end.

Definition requestProjects (fuel : nat)
    (server : nat -> Outcome (list Clockify.ClockifyProject))
    : M (option (list Clockify.ClockifyProject)) :=
  tryCatch (requestProjectsFrom fuel server 1 [])
           (fun _ => ret (Some [])).

Record StartCommandEnv : Type := mkStartCommandEnv {
  sa_user : option User;                       (* getUser() *)
  sa_server : nat -> Outcome (list Clockify.ClockifyProject);
                                               (* the answer to the GET of a page *)
  sa_local : list Clockify.ClockifyProject;    (* getLocalProjects() *)
  sa_selected : string;                        (* the answer to the prompt *)
  sa_start : StartEnv
}.

(** The action of [program.command('start')] with its [message] argument
    and [--jira] option: how it ends, what it wrote to
    [data/local-projects.json] and the choices it prompted with, if it
    prompted.  [None] is the command still in the paging loop of
    [getProjects] when the fuel is spent. *)
Definition startCommand (fuel : nat) (e : StartCommandEnv)
    (message jira : option string)
    : M (option (CommandEnd * option (list Clockify.ClockifyProject)
                 * option (list Clockify.ClockifyProject))) :=
  ids <- getWorkspaceAndUser (sa_user e) ;;
  match ids with
  | None => ret (Some (Exit 1, None, None))
  | Some _ =>
      fetched <- requestProjects fuel (sa_server e) ;;
      match fetched with
      | None => ret None
      | Some projects =>
          let '(written, projects) := offeredProjects projects (sa_local e) in
          if (List.length projects =? 0)%nat
          then ret (Some (Done, written, None))
          else
            _ <- startTimer (sa_start e) (sa_selected e) message jira ;;
            ret (Some (Done, written, Some projects))
      end
  end.

End Commands.

(** ** scripts/log-calendar-events.ts, the loop over the events *)

Module Calendar.

(** [event.start] and [event.end]: a [date] for an all-day event, a
    [dateTime] otherwise. *)
Record EventTime : Type := mkEventTime {
  date : option string;
  dateTime : option string
}.

Record CalendarEvent : Type := mkCalendarEvent {
  summary : option string;
  start : option EventTime;
  end_ : option EventTime
}.

(** What the loop does towards the user and towards Clockify. *)
Inductive Action : Type :=
| Prompt (summary : string)
| LogTime (projectId start end_ description : string).

Definition isAllDay (event : CalendarEvent) : bool :=
  match start event with
  | Some s => match truthyOpt (date s) with Some _ => true | None => false end
  | None => false
  end.

(** [event.summary && event.start && event.start.dateTime && event.end
     && event.end.dateTime]. *)
Definition timed (event : CalendarEvent) : option (string * string * string) :=
  match truthyOpt (summary event), start event, end_ event with
  | Some label, Some s, Some e =>
      match truthyOpt (dateTime s), truthyOpt (dateTime e) with
      | Some startsAt, Some endsAt => Some (label, startsAt, endsAt)
      | _, _ => None
      end
  | _, _, _ => None
  end.

(** The prompt for an event and what follows it: the answer is stored
    under the label, and the event is logged unless the answer was Skip.
    [answer] is what the prompt resolves to ([None] is Skip; a rejection
    leaves the loop through the outer [catch]); [continue] is the rest of
    the loop. *)
Definition promptAndLog (answer : Outcome (option string))
    (label startsAt endsAt : string) (table : EventProjects.Table)
    (continue : EventProjects.Table ->
                EventProjects.Table * list Action * bool)
    : EventProjects.Table * list Action * bool :=
  match answer with
  | Throws _ => (table, [Prompt label], false)
  | Returns selectedProjectId =>
      let '(table', actions, finished) :=
        continue (EventProjects.setEventProject label selectedProjectId table) in
      (table',
       Prompt label
       :: match truthyOpt selectedProjectId with
          | Some p => [LogTime p startsAt endsAt label]
          | None => []
          end ++ actions,
       finished)
  end.

(** [for (const event of events)] from the event at position [index] on.
    [projectId] is the [--project-id] option and [ask index label] the
    answer to the prompt for the event at [index].  The result is the table
    [event_projects] afterwards, what was done, and whether the loop ran
    to its end. *)
Fixpoint processEvents (projectId : option string)
    (ask : nat -> string -> Outcome (option string))
    (index : nat) (events : list CalendarEvent) (table : EventProjects.Table)
    : EventProjects.Table * list Action * bool :=
  match events with
  | [] => (table, [], true)
  | event :: rest =>
      if isAllDay event
      then processEvents projectId ask (S index) rest table
      else
        match timed event with
        | None => processEvents projectId ask (S index) rest table
        | Some (label, startsAt, endsAt) =>
            let eventProjectId :=
              match truthyOpt projectId with
              | Some p => Some (Some p)
              | None => EventProjects.getEventProject label table
              end in
            match eventProjectId with
            | Some None => processEvents projectId ask (S index) rest table
            | Some (Some p) =>
                if truthy p
                then
                  let '(table', actions, finished) :=
                    processEvents projectId ask (S index) rest table in
                  (table', LogTime p startsAt endsAt label :: actions, finished)
                else promptAndLog (ask index label) label startsAt endsAt table
                       (processEvents projectId ask (S index) rest)
            | None => promptAndLog (ask index label) label startsAt endsAt table
                        (processEvents projectId ask (S index) rest)
            end
        end
  end.

End Calendar.

(** ** Vocabulary of the further properties *)

(** The statements of lib/db.ts that write table [sessions].  An INSERT
    that raises leaves the table as it was. *)
Inductive TableOp : Type :=
| OpLogSessionStart (id projectId description startedAt : string)
                    (jiraTicket : option string)
| OpCompleteLatestSession (completedAt : string) (isAutoCompleted : bool)
| OpDeleteOlderThan (cutoff : string).

Definition applyTableOp (op : TableOp) (rows : Db.Store) : Db.Store :=
  match op with
  | OpLogSessionStart i p d s j =>
      match Db.logSessionStart i p d s j rows with
      | Returns rows' => rows'
      | Throws _ => rows
      end
  | OpCompleteLatestSession c a => Db.completeLatestSession c a rows
  | OpDeleteOlderThan cutoff => Db.deleteOlderThan cutoff rows
  end.

Fixpoint runTableOps (ops : list TableOp) (rows : Db.Store) : Db.Store :=
  match ops with
  | [] => rows
  | op :: rest => runTableOps rest (applyTableOp op rows)
  end.

(** What of a session is fixed when it is logged. *)
Definition identity (r : Db.Session)
    : string * string * string * string * option string :=
  (Db.id r, Db.projectId r, Db.description r, Db.startedAt r, Db.jiraTicket r).

(** The later of two cutoffs. *)
Definition laterCutoff (c1 c2 : string) : string :=
  if text_lt c1 c2 then c2 else c1.

(** The remote timers a trace asks Clockify to start: project,
    description and start instant of each POST, oldest first. *)
Definition started (evs : list Event) : list (string * string * Z) :=
  flat_map (fun ev => match ev with
                      | PostTimeEntry p d s => [(p, d, s)]
                      | _ => []
                      end) evs.

(** The reports of time spent that a trace sends to Jira. *)
Definition reported (evs : list Event) : list (string * Z) :=
  flat_map (fun ev => match ev with
                      | JiraStopTimer ticket secs => [(ticket, secs)]
                      | _ => []
                      end) evs.

(** The events of a listing that the loop of log-calendar-events.ts looks
    at: not all-day, with a summary and both instants; for each its label,
    start and end. *)
Definition timedEvents (events : list Calendar.CalendarEvent)
    : list (string * string * string) :=
  flat_map (fun event =>
              if Calendar.isAllDay event then []
              else match Calendar.timed event with
                   | Some x => [x]
                   | None => []
                   end) events.

(** ** Concrete tables, answers and events used by the further examples *)

Module MoreExamples.

Import Examples.
Local Open Scope string_scope.

(** A start, a start under an id already taken, a close and a purge. *)
Definition tableOps : list TableOp :=
  [ OpLogSessionStart "s3" "proj-1" "standup" "2023-11-15T09:00:00.000Z" None;
    OpLogSessionStart "s1" "proj-2" "again" "2023-11-15T09:30:00.000Z" None;
    OpCompleteLatestSession "2023-11-15T10:00:00.000Z" true;
    OpDeleteOlderThan "2023-11-14T23:00:00.000Z" ].

(** Table [event_projects]: one event with a project, one to skip. *)
Definition choices : EventProjects.Table :=
  [ EventProjects.mkRow "standup" (Some "proj-1");
    EventProjects.mkRow "lunch" None ].

(** Table [google_tokens] with one token, stored at [t0]. *)
Definition oneToken : Tokens.Table :=
  [ Tokens.mkRow 1 "false" "2023-11-14T22:13:20.000Z" ].

Definition alpha : Clockify.ClockifyProject := Clockify.mkProject "proj-1" "Alpha".
Definition beta : Clockify.ClockifyProject := Clockify.mkProject "proj-2" "Beta".
Definition gamma : Clockify.ClockifyProject := Clockify.mkProject "proj-3" "Gamma".

(** A workspace of three projects served in two pages. *)
Definition twoPages : list (list Clockify.ClockifyProject) :=
  [ [alpha; beta]; [gamma] ].

Definition serveTwoPages (page : nat)
    : Outcome (list Clockify.ClockifyProject) :=
  match page with
  | 1%nat => Returns [alpha; beta]
  | 2%nat => Returns [gamma]
  | _ => Returns []
  end.

(** The same workspace when the request for the second page is rejected. *)
Definition serveOnePageThenFail (page : nat)
    : Outcome (list Clockify.ClockifyProject) :=
  match page with
  | 1%nat => Returns [alpha; beta]
  | _ => Throws TransportError
  end.

(** A server that ignores the page number. *)
Definition serveSamePage (page : nat)
    : Outcome (list Clockify.ClockifyProject) :=
  Returns [alpha].

(** The table after the monitor closed [working] at the first lock. *)
Definition autoClosed : Db.Session :=
  Db.mkSession "s1" "proj-1" "write report" "2023-11-14T22:13:20.000Z"
               (Some "2023-11-14T22:43:20.000Z") 1 None.

(** The screen is back on while Clockify rejects the POST. *)
Definition unlockedPostRejected : Tick :=
  LockPoll (Returns "SESSION_ON_CONSOLE_KEY") (stopEnvAt (t0 + 60 * minute))
           (mkResumeEnv (t0 + 60 * minute) None (t0 + 60 * minute + 900)
                        (mkStartEnv (Some me) (Returns None)
                                    (t0 + 60 * minute + 1000) "s2"
                                    (Throws TransportError))
                        (t0 + 60 * minute + 1500)).

(** The monitor holds the screen locked over an empty table. *)
Definition lockedEmpty : World := mkWorld [] 0 true false [].

(** [stop] half an hour after [t0], answered by Clockify. *)
Definition stopNow : StopCommandEnv :=
  mkStopCommandEnv (Some me) (Some someEntry) (t0 + 30 * minute) (Returns tt).

(** [start] in the workspace of three projects, none of them in the local
    list. *)
Definition delta : Clockify.ClockifyProject := Clockify.mkProject "proj-4" "Delta".

Definition startElsewhere : StartCommandEnv :=
  mkStartCommandEnv (Some me) serveTwoPages [delta] "proj-1"
                    (mkStartEnv (Some me) (Returns None) t0 "s1"
                                (Returns someEntry)).

(** A day of calendar events: an all-day event, two meetings and an event
    without an end. *)
Definition day : list Calendar.CalendarEvent :=
  [ Calendar.mkCalendarEvent (Some "holiday")
      (Some (Calendar.mkEventTime (Some "2023-11-15") None))
      (Some (Calendar.mkEventTime (Some "2023-11-16") None));
    Calendar.mkCalendarEvent (Some "standup")
      (Some (Calendar.mkEventTime None (Some "2023-11-15T09:00:00Z")))
      (Some (Calendar.mkEventTime None (Some "2023-11-15T09:15:00Z")));
    Calendar.mkCalendarEvent (Some "lunch")
      (Some (Calendar.mkEventTime None (Some "2023-11-15T12:00:00Z")))
      (Some (Calendar.mkEventTime None (Some "2023-11-15T13:00:00Z")));
    Calendar.mkCalendarEvent (Some "retro")
      (Some (Calendar.mkEventTime None (Some "2023-11-15T15:00:00Z")))
      (Some (Calendar.mkEventTime None (Some "2023-11-15T16:00:00Z")));
    Calendar.mkCalendarEvent (Some "open end")
      (Some (Calendar.mkEventTime None (Some "2023-11-15T17:00:00Z")))
      None ].

(** Every prompt is answered with project Beta. *)
Definition alwaysBeta (index : nat) (label : string)
    : Outcome (option string) :=
  Returns (Some "proj-2").

End MoreExamples.

(** * Properties *)

(** ** The order on text timestamps *)

Lemma text_lt_le (a b : string) : text_lt a b = negb (text_le b a).
Proof.
  unfold text_lt, text_le, String.ltb, String.leb.
  rewrite (String.compare_antisym b a).
  destruct (String.compare a b); reflexivity.
Qed.

Lemma text_le_refl (a : string) : text_le a a = true.
Proof.
  unfold text_le, String.leb.
  assert (H : String.compare a a = Eq)
    by (apply OrderedTypeEx.String_as_OT.cmp_eq; reflexivity).
  rewrite H. reflexivity.
Qed.

Lemma text_le_trans (a b c : string) :
  text_le a b = true -> text_le b c = true -> text_le a c = true.
Proof.
  unfold text_le, String.leb.
  destruct (String.compare a b) eqn:Hab; try discriminate; intros _;
    destruct (String.compare b c) eqn:Hbc; try discriminate; intros _.
  - apply String.compare_eq_iff in Hab. subst. rewrite Hbc. reflexivity.
  - apply String.compare_eq_iff in Hab. subst. rewrite Hbc. reflexivity.
  - apply String.compare_eq_iff in Hbc. subst. rewrite Hab. reflexivity.
  - apply OrderedTypeEx.String_as_OT.cmp_lt in Hab, Hbc.
    pose proof (OrderedTypeEx.String_as_OT.lt_trans _ _ _ Hab Hbc) as Hac.
    apply OrderedTypeEx.String_as_OT.cmp_lt in Hac.
    unfold OrderedTypeEx.String_as_OT.cmp in Hac. rewrite Hac. reflexivity.
Qed.

Lemma text_lt_false_le (a b : string) :
  text_lt a b = false -> text_le b a = true.
Proof. rewrite text_lt_le. destruct (text_le b a); simpl; congruence. Qed.

Lemma text_lt_true_le (a b : string) :
  text_lt a b = true -> text_le a b = true.
Proof.
  unfold text_lt, text_le, String.ltb, String.leb.
  destruct (String.compare a b); congruence.
Qed.

(** ** [ORDER BY startedAt DESC LIMIT 1] *)

Lemma orderBy_none (rows : list Db.Session) :
  Db.orderByStartedAtDescLimit1 rows = None <-> rows = [].
Proof.
  split.
  - destruct rows as [|r rest]; [reflexivity|]. simpl.
    destruct (Db.orderByStartedAtDescLimit1 rest) as [b|]; [|discriminate].
    destruct (text_lt _ _); discriminate.
  - intros ->. reflexivity.
Qed.

Lemma orderBy_latest (rows : list Db.Session) (r : Db.Session) :
  Db.orderByStartedAtDescLimit1 rows = Some r -> latestAmong r rows.
Proof.
  revert r. induction rows as [|x rest IH]; intros r; simpl; [discriminate|].
  destruct (Db.orderByStartedAtDescLimit1 rest) as [b|] eqn:Hrest.
  - destruct (IH b eq_refl) as [Hin Hmax].
    destruct (text_lt (Db.startedAt x) (Db.startedAt b)) eqn:Hlt;
      intros [= <-]; split.
    + right; exact Hin.
    + intros r' [<-|Hr']; [apply text_lt_true_le; exact Hlt | apply Hmax; exact Hr'].
    + left; reflexivity.
    + intros r' [<-|Hr']; [apply text_le_refl|].
      eapply text_le_trans; [apply Hmax; exact Hr' | apply text_lt_false_le; exact Hlt].
  - apply orderBy_none in Hrest. subst rest.
    intros [= <-]. split; [left; reflexivity|].
    intros r' [<-|[]]. apply text_le_refl.
Qed.

Lemma selectLatestOpen_none (rows : Db.Store) :
  Db.selectLatestOpen rows = None <-> openCount rows = 0%nat.
Proof.
  unfold Db.selectLatestOpen, openCount. rewrite orderBy_none.
  destruct (filter Db.isOpen rows); simpl; split; congruence.
Qed.

Lemma selectLatestOpen_some (rows : Db.Store) (r : Db.Session) :
  Db.selectLatestOpen rows = Some r ->
  In r rows /\ Db.completedAt r = None /\
  forall r', In r' rows -> Db.completedAt r' = None ->
             text_le (Db.startedAt r') (Db.startedAt r) = true.
Proof.
  unfold Db.selectLatestOpen. intros H.
  apply orderBy_latest in H. destruct H as [Hin Hmax].
  apply filter_In in Hin. destruct Hin as [Hin Hopen].
  split; [exact Hin|]. split.
  - unfold Db.isOpen in Hopen. destruct (Db.completedAt r); congruence.
  - intros r' Hr' Hnone. apply Hmax. apply filter_In. split; [exact Hr'|].
    unfold Db.isOpen. rewrite Hnone. reflexivity.
Qed.

Lemma isOpen_iff (r : Db.Session) : Db.isOpen r = true <-> Db.completedAt r = None.
Proof. unfold Db.isOpen. destruct (Db.completedAt r); split; congruence. Qed.

Lemma openCount_zero (rows : Db.Store) :
  openCount rows = 0%nat <-> forall r, In r rows -> Db.completedAt r <> None.
Proof.
  unfold openCount. split.
  - intros H r Hin Hnone.
    assert (Hf : In r (filter Db.isOpen rows))
      by (apply filter_In; split; [exact Hin | apply isOpen_iff; exact Hnone]).
    destruct (filter Db.isOpen rows); [destruct Hf | discriminate].
  - intros H. destruct (filter Db.isOpen rows) as [|r l] eqn:Hf; [reflexivity|].
    assert (Hin : In r (filter Db.isOpen rows)) by (rewrite Hf; left; reflexivity).
    apply filter_In in Hin. destruct Hin as [Hin Hopen].
    apply isOpen_iff in Hopen. elim (H r Hin Hopen).
Qed.

(** ** The UPDATE of [completeLatestSession] *)

Lemma map_unchanged {A} (f : A -> A) (l : list A) :
  (forall x, In x l -> f x = x) -> map f l = l.
Proof.
  intros H. rewrite <- (map_id l) at 2. apply map_ext_in. exact H.
Qed.

Lemma update_by_id (g : Db.Session -> Db.Session)
    (before after : list Db.Session) (r : Db.Session) :
  NoDup (map Db.id (before ++ r :: after)) ->
  map (fun x => if String.eqb (Db.id x) (Db.id r) then g x else x)
      (before ++ r :: after)
  = before ++ g r :: after.
Proof.
  intros Hnd. rewrite map_app in Hnd. simpl in Hnd.
  apply NoDup_remove_2 in Hnd.
  rewrite map_app. simpl. rewrite String.eqb_refl.
  f_equal; [|f_equal]; apply map_unchanged; intros x Hx;
    destruct (String.eqb_spec (Db.id x) (Db.id r)) as [Heq|]; try reflexivity;
    exfalso; apply Hnd; rewrite <- Heq; apply in_or_app;
    [left | right]; apply in_map; exact Hx.
Qed.

Lemma filter_map_le {A} (p : A -> bool) (f : A -> A) (l : list A) :
  (forall x, p (f x) = true -> p x = true) ->
  (List.length (filter p (map f l)) <= List.length (filter p l))%nat.
Proof.
  intros H. induction l as [|x l IH]; simpl; [lia|].
  destruct (p (f x)) eqn:Hf.
  - rewrite (H x Hf). simpl. lia.
  - destruct (p x); simpl; lia.
Qed.

Lemma openCount_complete_le (c : string) (a : bool) (rows : Db.Store) :
  (openCount (Db.completeLatestSession c a rows) <= openCount rows)%nat.
Proof.
  unfold Db.completeLatestSession.
  destruct (Db.selectLatestOpen rows) as [target|]; [|lia].
  apply filter_map_le. intros x.
  destruct (String.eqb (Db.id x) (Db.id target)); [discriminate | auto].
Qed.

Lemma complete_closes_all (c : string) (a : bool) (rows : Db.Store) :
  atMostOneOpen rows -> openCount (Db.completeLatestSession c a rows) = 0%nat.
Proof.
  intros Hone. unfold Db.completeLatestSession.
  destruct (Db.selectLatestOpen rows) as [target|] eqn:Hsel.
  - apply openCount_zero. intros x Hx Hnone.
    apply in_map_iff in Hx. destruct Hx as [y [Hy Hin]].
    destruct (String.eqb_spec (Db.id y) (Db.id target)) as [Heq|Hne];
      [subst x; discriminate|]. subst x.
    unfold Db.selectLatestOpen in Hsel. apply orderBy_latest in Hsel.
    destruct Hsel as [Ht _].
    assert (Hyf : In y (filter Db.isOpen rows))
      by (apply filter_In; split; [exact Hin | apply isOpen_iff; exact Hnone]).
    unfold atMostOneOpen, openCount in Hone.
    destruct (filter Db.isOpen rows) as [|z [|z' l]]; simpl in *;
      [contradiction | | lia].
    destruct Ht as [<-|[]]. destruct Hyf as [<-|[]]. apply Hne. reflexivity.
  - apply selectLatestOpen_none. exact Hsel.
Qed.

Lemma complete_noop (c : string) (a : bool) (rows : Db.Store) :
  openCount rows = 0%nat -> Db.completeLatestSession c a rows = rows.
Proof.
  intros H. apply selectLatestOpen_none in H.
  unfold Db.completeLatestSession. rewrite H. reflexivity.
Qed.

Lemma complete_decomposed (c : string) (a : bool) (rows : Db.Store) :
  NoDup (map Db.id rows) ->
  (exists r, In r rows /\ Db.completedAt r = None) ->
  exists before r after,
    rows = before ++ r :: after /\
    Db.completedAt r = None /\
    (forall r', In r' rows -> Db.completedAt r' = None ->
                text_le (Db.startedAt r') (Db.startedAt r) = true) /\
    Db.completeLatestSession c a rows
    = before ++ Db.mkSession (Db.id r) (Db.projectId r) (Db.description r)
                             (Db.startedAt r) (Some c) (if a then 1 else 0)
                             (Db.jiraTicket r) :: after.
Proof.
  intros Hnd [o [Hoin Hoopen]].
  unfold Db.completeLatestSession.
  destruct (Db.selectLatestOpen rows) as [r|] eqn:Hsel.
  - destruct (selectLatestOpen_some _ _ Hsel) as [Hin [Hopen Hmax]].
    destruct (in_split _ _ Hin) as [before [after Hrows]].
    exists before, r, after. subst rows.
    repeat split; try assumption.
    apply (update_by_id (Db.setCompleted c a)). exact Hnd.
  - apply selectLatestOpen_none in Hsel.
    elim (proj1 (openCount_zero rows) Hsel o Hoin Hoopen).
Qed.

(** The PRIMARY KEY keeps ids distinct. *)
Lemma logSessionStart_ids (i p d s : string) (j : option string)
    (rows rows' : Db.Store) :
  NoDup (map Db.id rows) ->
  Db.logSessionStart i p d s j rows = Returns rows' ->
  NoDup (map Db.id rows').
Proof.
  unfold Db.logSessionStart. intros Hnd.
  destruct (existsb _ rows) eqn:Hex; [discriminate|]. intros [= <-].
  rewrite map_app. simpl.
  apply NoDup_app; [exact Hnd | repeat constructor; intros [] |].
  intros x Hx [<-|[]]. apply in_map_iff in Hx. destruct Hx as [y [Hy Hin]].
  subst i.
  assert (existsb (fun r => String.eqb (Db.id r) (Db.id y)) rows = true)
    by (apply existsb_exists; exists y; split; [exact Hin | apply String.eqb_refl]).
  congruence.
Qed.

Lemma completeLatestSession_ids (c : string) (a : bool) (rows : Db.Store) :
  map Db.id (Db.completeLatestSession c a rows) = map Db.id rows.
Proof.
  unfold Db.completeLatestSession.
  destruct (Db.selectLatestOpen rows) as [t|]; [|reflexivity].
  rewrite map_map. apply map_ext. intros x.
  destruct (String.eqb (Db.id x) (Db.id t)); reflexivity.
Qed.

Lemma openCount_app (l1 l2 : Db.Store) :
  openCount (l1 ++ l2) = (openCount l1 + openCount l2)%nat.
Proof. unfold openCount. rewrite filter_app, length_app. reflexivity. Qed.

Lemma applyOp_keeps_invariant (op : StoreOp) (rows : Db.Store) :
  atMostOneOpen rows ->
  match op with
  | AppendSession _ _ _ _ _ => openCount rows = 0%nat
  | CloseOpenSession _ _ => True
  end ->
  atMostOneOpen (applyOp op rows).
Proof.
  unfold atMostOneOpen. intros Hone Hguard.
  destruct op as [i p d s j|c a]; simpl.
  - unfold Db.logSessionStart.
    destruct (existsb _ rows); [exact Hone|].
    rewrite openCount_app, Hguard. unfold openCount. simpl. lia.
  - pose proof (openCount_complete_le c a rows). lia.
Qed.

Lemma guarded_run_invariant (ops : list StoreOp) :
  forall rows,
    atMostOneOpen rows -> appendsWhenClosed ops rows = true ->
    Forall atMostOneOpen (statesAfter ops rows).
Proof.
  induction ops as [|op rest IH]; intros rows Hone Hg; simpl; [constructor|].
  simpl in Hg. apply andb_prop in Hg. destruct Hg as [Hop Hrest].
  assert (Hone' : atMostOneOpen (applyOp op rows)).
  { apply applyOp_keeps_invariant; [exact Hone|].
    destruct op; [apply Nat.eqb_eq; exact Hop | exact I]. }
  constructor; [exact Hone' | apply IH; assumption].
Qed.

Lemma separated_is_guarded (ops : list StoreOp) :
  forall rows,
    atMostOneOpen rows ->
    match ops with
    | AppendSession _ _ _ _ _ :: _ => openCount rows = 0%nat
    | _ => True
    end ->
    appendsSeparated ops = true ->
    appendsWhenClosed ops rows = true.
Proof.
  induction ops as [|op rest IH]; intros rows Hone Hhead Hsep; [reflexivity|].
  cbn [appendsWhenClosed]. apply andb_true_intro. split.
  - destruct op; [apply Nat.eqb_eq; exact Hhead | reflexivity].
  - apply IH.
    + apply applyOp_keeps_invariant; [exact Hone|].
      destruct op; [exact Hhead | exact I].
    + destruct rest as [|[i p d s j|c a] rest']; try exact I.
      destruct op as [i' p' d' s' j'|c' a'].
      * simpl in Hsep. discriminate.
      * simpl. apply complete_closes_all. exact Hone.
    + destruct op; destruct rest as [|[] ?]; simpl in Hsep; try exact Hsep;
        try reflexivity; discriminate.
Qed.

(** ** C1 *)

(** C1, refuted as stated: after two [logSessionStart] in a row from the
    empty store, two sessions have [completedAt] absent. *)
Lemma two_appends_leave_two_open :
  ~ Forall atMostOneOpen (statesAfter Examples.opsTwoStarts []).
Proof.
  intros H. inversion H as [|s1 l1 _ H1]; subst.
  inversion H1 as [|s2 l2 H2 _]; subst.
  unfold atMostOneOpen in H2. vm_compute in H2. lia.
Qed.

(** C1, amended: for every sequence of [logSessionStart] and
    [completeLatestSession] run from the empty store in which each
    [logSessionStart] is issued while no session is open, the store holds at
    most one session with [completedAt] absent after every operation. *)
Theorem open_sessions_invariant (ops : list StoreOp) :
  appendsWhenClosed ops [] = true ->
  Forall atMostOneOpen (statesAfter ops []).
Proof.
  apply guarded_run_invariant. unfold atMostOneOpen, openCount. simpl. lia.
Qed.

Lemma open_sessions_invariant_witness :
  appendsWhenClosed Examples.opsAlternating [] = true /\
  Forall atMostOneOpen (statesAfter Examples.opsAlternating []).
Proof.
  split; [reflexivity|].
  apply (open_sessions_invariant Examples.opsAlternating). reflexivity.
Defined.

(** The same holds when no two [logSessionStart] follow each other directly. *)
Corollary separated_appends_invariant (ops : list StoreOp) :
  appendsSeparated ops = true ->
  Forall atMostOneOpen (statesAfter ops []).
Proof.
  intros Hsep. apply guarded_run_invariant.
  - unfold atMostOneOpen, openCount. simpl. lia.
  - apply separated_is_guarded; [| | exact Hsep].
    + unfold atMostOneOpen, openCount. simpl. lia.
    + destruct ops as [|[] ?]; [exact I | reflexivity | exact I].
Qed.

Example twoOpen_reached :
  last (statesAfter Examples.opsTwoStarts []) [] = Examples.twoOpen.
Proof. reflexivity. Qed.

Example oneOpen_reached :
  last (statesAfter Examples.opsAlternating []) [] = Examples.oneOpen.
Proof. reflexivity. Qed.

(** ** C2 *)

(** C2, refuted as stated: purging with a five-day cutoff deletes an open
    session that was started two weeks earlier. *)
Lemma purge_deletes_old_open_session :
  let rows := Examples.forgotten :: Examples.oneOpen in
  let purged :=
    deleteOldSessions (date := IsoDate.utc) Examples.t0 (Finite (5 # 1)) rows in
  In Examples.forgotten rows /\
  Db.completedAt Examples.forgotten = None /\
  fst purged = Returns tt /\
  ~ In Examples.forgotten (snd purged) /\
  snd purged = Examples.oneOpen.
Proof.
  cbv zeta. split; [left; reflexivity|]. split; [reflexivity|].
  assert (H : deleteOldSessions (date := IsoDate.utc) Examples.t0
                (Finite (5 # 1)) (Examples.forgotten :: Examples.oneOpen)
              = (Returns tt, Examples.oneOpen)) by (vm_compute; reflexivity).
  rewrite H. split; [reflexivity|]. split; [|reflexivity].
  intros [Heq|[Heq|[]]]; discriminate Heq.
Qed.

(** The DELETE by a cutoff text: what stays and how many rows leave. *)
Lemma deleteOlderThan_by_cutoff (cutoff : string) (rows : Db.Store) :
  (forall r, In r (Db.deleteOlderThan cutoff rows) <->
             In r rows /\ text_lt (Db.startedAt r) cutoff = false) /\
  List.length rows
  = (List.length (Db.deleteOlderThan cutoff rows)
     + List.length (olderThan cutoff rows))%nat.
Proof.
  split.
  - intros r. unfold Db.deleteOlderThan. rewrite filter_In.
    destruct (text_lt (Db.startedAt r) cutoff); simpl; intuition congruence.
  - unfold Db.deleteOlderThan, olderThan.
    induction rows as [|x rows IH]; simpl; [reflexivity|].
    destruct (text_lt (Db.startedAt x) cutoff); simpl; lia.
Qed.

(** C2, amended: called with a finite number of days for which the date
    moved back is a valid date, [deleteOldSessions] returns no value and
    deletes exactly the sessions whose [startedAt] is strictly before the
    cutoff, the ISO text of that date, open ones included; it keeps every
    other session, and the number of rows that leave is the number of such
    sessions.  In every other case (the number of days is NaN or an
    infinity, or the date leaves the range of dates) [toISOString] throws a
    RangeError and no row is deleted. *)
Theorem purge_is_by_cutoff_only (date : DateRuntime) (now : Z)
    (days : JsNumber) (rows : Db.Store) :
  match days, setDateBack now days with
  | Finite _, Some cutoffDate =>
      fst (deleteOldSessions now days rows) = Returns tt /\
      (forall r,
          In r (snd (deleteOldSessions now days rows)) <->
          In r rows /\
          text_lt (Db.startedAt r) (toISOString cutoffDate) = false) /\
      List.length rows
      = (List.length (snd (deleteOldSessions now days rows))
         + List.length (olderThan (toISOString cutoffDate) rows))%nat
  | _, _ =>
      fst (deleteOldSessions now days rows) = Throws RangeError /\
      snd (deleteOldSessions now days rows) = rows
  end.
Proof.
  unfold deleteOldSessions.
  destruct days as [q| |negative].
  - destruct (setDateBack now (Finite q)) as [cutoffDate|]; cbn [fst snd].
    + split; [reflexivity|]. apply deleteOlderThan_by_cutoff.
    + split; reflexivity.
  - rewrite setDateBack_NaN. split; reflexivity.
  - rewrite setDateBack_Infinity. split; reflexivity.
Qed.

(** At half past ten in the evening of 14 November 2023, a purge of five
    days has the cutoff 9 November, and a purge of NaN days throws. *)
Example purge_five_days_and_NaN :
  setDateBack (DateRuntime := IsoDate.utc) Examples.t0 (Finite (5 # 1))
  = Some (Examples.t0 - 5 * IsoDate.msPerDay) /\
  deleteOldSessions (date := IsoDate.utc) Examples.t0 NaN Examples.oneOpen
  = (Throws RangeError, Examples.oneOpen) /\
  deleteOldSessions (date := IsoDate.utc) Examples.t0
                    (Finite (200000000 # 1)) Examples.oneOpen
  = (Throws RangeError, Examples.oneOpen).
Proof.
  split; [vm_compute; reflexivity|].
  split; [reflexivity | vm_compute; reflexivity].
Qed.

(** ** C3 *)

(** C3, at the failing input: on the empty table [getLatestSession] throws
    instead of returning an absent value. *)
Theorem getLatestSession_empty_throws :
  Db.getLatestSession [] = Throws ZodError.
Proof. reflexivity. Qed.

(** On every other table it returns a session none started later than. *)
Lemma getLatestSession_nonempty (rows : Db.Store) :
  rows <> [] ->
  exists r, Db.getLatestSession rows = Returns r /\ latestAmong r rows.
Proof.
  intros Hne. unfold Db.getLatestSession.
  destruct (Db.orderByStartedAtDescLimit1 rows) as [r|] eqn:H.
  - exists r. split; [reflexivity | apply orderBy_latest; exact H].
  - apply orderBy_none in H. contradiction.
Qed.

Lemma getLatestSession_returns (rows : Db.Store) (r : Db.Session) :
  Db.getLatestSession rows = Returns r -> latestAmong r rows.
Proof.
  unfold Db.getLatestSession.
  destruct (Db.orderByStartedAtDescLimit1 rows) as [b|] eqn:H; [|discriminate].
  intros [= <-]. apply orderBy_latest. exact H.
Qed.

(** ** C8 *)

(** C8: on a table with distinct ids, [completeLatestSession] leaves the
    table as it is when no session has [completedAt] absent; otherwise it
    rewrites exactly one row, an open session none of the open sessions
    started later than, setting its [completedAt] and [isAutoCompleted] and
    nothing else. *)
Theorem completeLatestSession_closes_latest_open
    (c : string) (a : bool) (rows : Db.Store) :
  NoDup (map Db.id rows) ->
  ((forall r, In r rows -> Db.completedAt r <> None) ->
   Db.completeLatestSession c a rows = rows) /\
  ((exists r, In r rows /\ Db.completedAt r = None) ->
   exists before r after,
     rows = before ++ r :: after /\
     Db.completedAt r = None /\
     (forall r', In r' rows -> Db.completedAt r' = None ->
                 text_le (Db.startedAt r') (Db.startedAt r) = true) /\
     Db.completeLatestSession c a rows
     = before ++ Db.mkSession (Db.id r) (Db.projectId r) (Db.description r)
                              (Db.startedAt r) (Some c) (if a then 1 else 0)
                              (Db.jiraTicket r) :: after).
Proof.
  intros Hnd. split.
  - intros Hclosed. apply complete_noop. apply openCount_zero. exact Hclosed.
  - apply complete_decomposed. exact Hnd.
Qed.

Lemma completeLatestSession_closes_latest_open_witness :
  NoDup (map Db.id Examples.twoOpen) /\
  exists before r after,
    Examples.twoOpen = before ++ r :: after /\
    Db.completedAt r = None /\
    (forall r', In r' Examples.twoOpen -> Db.completedAt r' = None ->
                text_le (Db.startedAt r') (Db.startedAt r) = true) /\
    Db.completeLatestSession "2023-11-14T23:30:00.000Z" true Examples.twoOpen
    = before ++ Db.mkSession (Db.id r) (Db.projectId r) (Db.description r)
                             (Db.startedAt r) (Some "2023-11-14T23:30:00.000Z"%string)
                             1 (Db.jiraTicket r) :: after.
Proof.
  assert (Hnd : NoDup (map Db.id Examples.twoOpen)).
  { simpl. repeat constructor; simpl; intuition discriminate. }
  split; [exact Hnd|].
  apply (proj2 (completeLatestSession_closes_latest_open
                  "2023-11-14T23:30:00.000Z" true Examples.twoOpen Hnd)).
  eexists. split; [left; reflexivity | reflexivity].
Defined.

(** ** C9 *)

(** C9, refuted as stated: with two open sessions in the table the second
    call closes the second one. *)
Lemma second_close_changes_store :
  Db.completeLatestSession "2023-11-15T00:10:00.000Z" false
    (Db.completeLatestSession "2023-11-15T00:00:00.000Z" false Examples.twoOpen)
  <> Db.completeLatestSession "2023-11-15T00:00:00.000Z" false Examples.twoOpen.
Proof. vm_compute. discriminate. Qed.

(** C9, amended: on a table with at most one open session, a second
    [completeLatestSession], whatever its arguments, leaves the table as the
    first call left it. *)
Theorem completeLatestSession_twice
    (c1 c2 : string) (a1 a2 : bool) (rows : Db.Store) :
  atMostOneOpen rows ->
  Db.completeLatestSession c2 a2 (Db.completeLatestSession c1 a1 rows)
  = Db.completeLatestSession c1 a1 rows.
Proof.
  intros Hone. apply complete_noop. apply complete_closes_all. exact Hone.
Qed.

Lemma completeLatestSession_twice_witness :
  atMostOneOpen Examples.oneOpen /\
  Db.completeLatestSession "2023-11-15T00:10:00.000Z" true
    (Db.completeLatestSession "2023-11-15T00:00:00.000Z" false Examples.oneOpen)
  = Db.completeLatestSession "2023-11-15T00:00:00.000Z" false Examples.oneOpen.
Proof.
  assert (H : atMostOneOpen Examples.oneOpen)
    by (unfold atMostOneOpen; vm_compute; lia).
  split; [exact H | apply (completeLatestSession_twice _ _ _ _ _ H)].
Defined.

(** ** The monitor *)

Create HintDb monad_ops.
#[local] Hint Unfold bind ret throw settle tryCatch await yield getWorld emit
  setLastResumeAt setIsLocked setLastIdle setDb dbLogSessionStart
  dbCompleteLatestSession dbGetLatestSession : monad_ops.

(** Unfolds the monad and evaluates as far as the known values allow. *)
Ltac run := autounfold with monad_ops; cbn.

Lemma complete_andThen {A B} (a : Async A) (k : A -> M B) :
  complete (andThen a k)
  = match complete a with
    | (Returns x, w) => complete (k x w)
    | (Throws e, w) => (Throws e, w)
    end.
Proof. induction a as [[x|e] w|w rest IH]; simpl; auto. Qed.

Lemma complete_orCatch {A} (a : Async A) (handler : Exn -> M A) :
  complete (orCatch a handler)
  = match complete a with
    | (Returns x, w) => (Returns x, w)
    | (Throws e, w) => complete (handler e w)
    end.
Proof. induction a as [[x|e] w|w rest IH]; simpl; auto. Qed.

Lemma postTimes_app (l1 l2 : list Event) :
  postTimes (l1 ++ l2) = postTimes l1 ++ postTimes l2.
Proof. apply flat_map_app. Qed.

Section Monitor.

Context {date : DateRuntime}.

(** *** [stopTimerAndLog] *)

Lemma stopTimerAndLog_not_stopped (e : StopEnv) (w : World) :
  sp_active e = None \/ sp_stopped e = None ->
  db (snd (complete (stopTimerAndLog e w))) = db w /\
  (trace (snd (complete (stopTimerAndLog e w))) = trace w ++ [GetActiveTimer] \/
   trace (snd (complete (stopTimerAndLog e w)))
   = trace w ++ [GetActiveTimer; StopTimer]).
Proof.
  intros H. unfold stopTimerAndLog. run.
  destruct (sp_active e) as [a|]; cbn.
  - destruct H as [H|H]; [discriminate|]. rewrite H.
    destruct (Db.getLatestSession (db w)); cbn.
    + rewrite <- app_assoc. auto.
    + auto.
  - auto.
Qed.

Ltac stopped_with rest :=
  split; [reflexivity|]; split; [reflexivity|]; exists rest;
  split; [first [left; reflexivity | right; eauto]
         | repeat rewrite <- app_assoc; reflexivity].

Lemma stopTimerAndLog_stopped (e : StopEnv) (w : World)
    (a s : TimeEntry) (latest : Db.Session) :
  sp_active e = Some a ->
  sp_stopped e = Some s ->
  Db.getLatestSession (db w) = Returns latest ->
  fst (complete (stopTimerAndLog e w)) = Returns true /\
  db (snd (complete (stopTimerAndLog e w)))
  = Db.completeLatestSession (toISOString (sp_date e)) true (db w) /\
  exists rest,
    jiraTail rest /\
    trace (snd (complete (stopTimerAndLog e w)))
    = trace w ++ [GetActiveTimer; StopTimer;
                  DbCompleteLatestSession (toISOString (sp_date e)) true]
              ++ rest.
Proof.
  intros Ha Hs Hl. unfold stopTimerAndLog. run. rewrite Ha. cbn.
  rewrite Hl. cbn. rewrite Hs. cbn.
  destruct (truthyOpt (Db.jiraTicket latest)) as [jt|]; cbn;
    [|stopped_with (@nil Event)].
  destruct (timeSpentSeconds _ _) as [secs|]; cbn;
    [|stopped_with (@nil Event)].
  destruct (60 <=? secs); cbn; [|stopped_with (@nil Event)].
  destruct (sp_jira e); cbn; stopped_with [JiraStopTimer jt secs].
Qed.

(** [stopTimerAndLog] starts no timer and leaves the monitor's variables. *)
Lemma stopTimerAndLog_frame (e : StopEnv) (w : World) :
  lastResumeAt (snd (complete (stopTimerAndLog e w))) = lastResumeAt w /\
  isLocked (snd (complete (stopTimerAndLog e w))) = isLocked w /\
  lastIdle (snd (complete (stopTimerAndLog e w))) = lastIdle w /\
  postTimes (trace (snd (complete (stopTimerAndLog e w)))) = postTimes (trace w).
Proof.
  unfold stopTimerAndLog. run.
  destruct (sp_active e) as [a|]; cbn;
    [|repeat split; try reflexivity; rewrite postTimes_app, app_nil_r; reflexivity].
  destruct (Db.getLatestSession (db w)) as [latest|]; cbn;
    [|repeat split; try reflexivity; rewrite postTimes_app, app_nil_r; reflexivity].
  destruct (sp_stopped e) as [s|]; cbn;
    [|repeat split; try reflexivity; rewrite !postTimes_app, !app_nil_r; reflexivity].
  destruct (truthyOpt (Db.jiraTicket latest)) as [jt|]; cbn;
    [destruct (timeSpentSeconds _ _) as [secs|]; cbn;
     [destruct (60 <=? secs); cbn; [destruct (sp_jira e); cbn|]|]|];
    repeat split; try reflexivity; rewrite !postTimes_app, !app_nil_r; reflexivity.
Qed.

(** *** [safeRestartTimerIfNeeded] *)

Lemma truthy_nonempty (s : string) : s <> EmptyString -> truthy s = true.
Proof.
  intros H. unfold truthy.
  destruct (String.eqb_spec s EmptyString); [contradiction | reflexivity].
Qed.

Lemma getTime_some_truthy (text : string) (ms : Z) :
  getTime text = Some ms -> truthyOpt (Some text) = Some text.
Proof.
  intros H. unfold truthyOpt. rewrite truthy_nonempty; [reflexivity|].
  intros ->. rewrite getTime_empty in H. discriminate.
Qed.

Lemma eligible_fresh (now1 : Z) (latest : Db.Session) (c : string) (cms : Z) :
  Db.completedAt latest = Some c ->
  getTime c = Some cms ->
  Db.isAutoCompleted latest <> 0 ->
  now1 - twoHours < cms ->
  Db.projectId latest <> EmptyString ->
  eligible now1 latest = true.
Proof.
  intros Hc Hms Hauto Hfresh Hpid. unfold eligible.
  rewrite Hc, (getTime_some_truthy _ _ Hms), Hms.
  rewrite (truthy_nonempty _ Hpid).
  apply Z.eqb_neq in Hauto. rewrite Hauto.
  unfold twoHours in Hfresh.
  assert (H : (now1 - 2 * 60 * 60 * 1000 <? cms) = true) by (apply Z.ltb_lt; lia).
  rewrite H. reflexivity.
Qed.

Lemma eligible_stale (now1 : Z) (latest : Db.Session) (c : string) (cms : Z) :
  Db.completedAt latest = Some c ->
  getTime c = Some cms ->
  cms <= now1 - twoHours ->
  eligible now1 latest = false.
Proof.
  intros Hc Hms Hstale. unfold eligible.
  rewrite Hc, (getTime_some_truthy _ _ Hms), Hms.
  unfold twoHours in Hstale.
  assert (H : (now1 - 2 * 60 * 60 * 1000 <? cms) = false) by (apply Z.ltb_ge; lia).
  rewrite H. rewrite andb_false_r. reflexivity.
Qed.

(** Inside the cooldown the call does nothing at all. *)
Lemma safeRestart_in_cooldown (e : ResumeEnv) (w : World) :
  rs_now0 e - lastResumeAt w < RESUME_COOLDOWN_MS ->
  complete (safeRestartTimerIfNeeded e w) = (Returns tt, w).
Proof.
  intros H. unfold safeRestartTimerIfNeeded. run.
  apply Z.ltb_lt in H. rewrite H. reflexivity.
Qed.

Lemma safeRestart_not_eligible (e : ResumeEnv) (w : World) (latest : Db.Session) :
  Db.getLatestSession (db w) = Returns latest ->
  eligible (rs_now1 e) latest = false ->
  fst (complete (safeRestartTimerIfNeeded e w)) = Returns tt /\
  db (snd (complete (safeRestartTimerIfNeeded e w))) = db w /\
  lastResumeAt (snd (complete (safeRestartTimerIfNeeded e w))) = lastResumeAt w /\
  (trace (snd (complete (safeRestartTimerIfNeeded e w))) = trace w \/
   trace (snd (complete (safeRestartTimerIfNeeded e w))) = trace w ++ [GetActiveTimer]).
Proof.
  intros Hl He. unfold safeRestartTimerIfNeeded. run.
  destruct (rs_now0 e - lastResumeAt w <? RESUME_COOLDOWN_MS); cbn; [auto|].
  rewrite Hl. cbn. destruct (rs_active e); cbn; [auto|].
  rewrite He. cbn. auto.
Qed.

Lemma safeRestart_resumes (e : ResumeEnv) (w : World) (latest : Db.Session)
    (u : User) (entry : TimeEntry) :
  RESUME_COOLDOWN_MS <= rs_now0 e - lastResumeAt w ->
  Db.getLatestSession (db w) = Returns latest ->
  rs_active e = None ->
  eligible (rs_now1 e) latest = true ->
  st_user (rs_start e) = Some u ->
  st_post (rs_start e) = Returns entry ->
  ~ In (st_uuid (rs_start e)) (map Db.id (db w)) ->
  fst (complete (safeRestartTimerIfNeeded e w)) = Returns tt /\
  db (snd (complete (safeRestartTimerIfNeeded e w)))
  = db w ++ [Db.mkSession (st_uuid (rs_start e)) (Db.projectId latest)
                          (Db.description latest)
                          (toISOString (st_date (rs_start e))) None 0 None] /\
  trace (snd (complete (safeRestartTimerIfNeeded e w)))
  = trace w ++ [GetActiveTimer; GetUser;
                PostTimeEntry (Db.projectId latest) (Db.description latest)
                              (st_date (rs_start e));
                DbLogSessionStart (st_uuid (rs_start e));
                GetProject (Db.projectId latest)] /\
  lastResumeAt (snd (complete (safeRestartTimerIfNeeded e w))) = rs_now2 e.
Proof.
  intros Hcool Hl Ha He Hu Hp Hfresh.
  unfold safeRestartTimerIfNeeded. run.
  assert (Hc : (rs_now0 e - lastResumeAt w <? RESUME_COOLDOWN_MS) = false)
    by (apply Z.ltb_ge; exact Hcool).
  rewrite Hc. cbn. rewrite Hl. cbn. rewrite Ha. cbn. rewrite He. cbn.
  unfold startTimer. run. rewrite Hu. cbn. rewrite Hp. cbn.
  unfold Db.logSessionStart.
  assert (Hex : existsb (fun r => String.eqb (Db.id r) (st_uuid (rs_start e))) (db w)
                = false).
  { destruct (existsb _ (db w)) eqn:Hex; [|reflexivity].
    apply existsb_exists in Hex. destruct Hex as [x [Hin Heq]].
    apply String.eqb_eq in Heq. elim Hfresh. rewrite <- Heq. apply in_map. exact Hin. }
  rewrite Hex. cbn.
  repeat split; try reflexivity.
  repeat rewrite <- app_assoc. reflexivity.
Qed.

Lemma safeRestart_effect (e : ResumeEnv) (w : World) :
  resumeEffect e w (snd (complete (safeRestartTimerIfNeeded e w))).
Proof.
  unfold resumeEffect, safeRestartTimerIfNeeded. run.
  destruct (rs_now0 e - lastResumeAt w <? RESUME_COOLDOWN_MS) eqn:Hc; cbn;
    [left; auto|].
  apply Z.ltb_ge in Hc.
  destruct (Db.getLatestSession (db w)) as [latest|]; cbn; [|left; auto].
  destruct (rs_active e); cbn;
    [left; rewrite postTimes_app, app_nil_r; auto|].
  destruct (eligible (rs_now1 e) latest); cbn;
    [|left; rewrite postTimes_app, app_nil_r; auto].
  right. split; [exact Hc|].
  unfold startTimer. run.
  destruct (st_user (rs_start e)); cbn;
    [|split; [reflexivity|]; left; rewrite !postTimes_app, !app_nil_r; reflexivity].
  destruct (st_post (rs_start e)); cbn;
    [|split; [reflexivity|]; right; rewrite !postTimes_app; cbn;
      rewrite !app_nil_r; reflexivity].
  destruct (Db.logSessionStart _ _ _ _ _ _); cbn;
    (split; [reflexivity|]); right; rewrite !postTimes_app; cbn;
    rewrite !app_nil_r; reflexivity.
Qed.

(** *** The pollers *)

#[local] Arguments safeRestartTimerIfNeeded : simpl never.
#[local] Arguments stopTimerAndLog : simpl never.

(** A poll that observes the return of activity does to the table, the
    requests and [lastResumeAt] what [safeRestartTimerIfNeeded] does. *)
Lemma runTick_turnsActive (t : Tick) (w : World) (resume : ResumeEnv) :
  turnsActive t w = Some resume ->
  resume = resumeEnvOf t /\
  db (snd (complete (runTick t w)))
  = db (snd (complete (safeRestartTimerIfNeeded resume w))) /\
  trace (snd (complete (runTick t w)))
  = trace (snd (complete (safeRestartTimerIfNeeded resume w))) /\
  lastResumeAt (snd (complete (runTick t w)))
  = lastResumeAt (snd (complete (safeRestartTimerIfNeeded resume w))).
Proof.
  destruct t as [[state|ex] stop r|[idle|ex] stop r]; cbn [turnsActive];
    try discriminate.
  - destruct (String.eqb state SESSION_SCREEN_IS_LOCKED) eqn:Hs;
      destruct (isLocked w) eqn:Hl; cbn [andb negb]; try discriminate.
    intros [= <-]. split; [reflexivity|].
    unfold runTick, pollLock. run.
    unfold SESSION_SCREEN_IS_LOCKED in Hs. rewrite Hs, Hl. cbn.
    rewrite complete_orCatch, complete_andThen.
    destruct (complete (safeRestartTimerIfNeeded r w)) as [[u|ex] w']; cbn;
      auto.
  - destruct (Qle_bool IDLE_THRESHOLD_SECONDS idle) eqn:Hq;
      destruct (lastIdle w) eqn:Hl; cbn [andb negb]; try discriminate.
    intros [= <-]. split; [reflexivity|].
    unfold runTick, pollIdle. run.
    rewrite Hq, Hl. cbn.
    rewrite complete_orCatch, complete_andThen.
    destruct (complete (safeRestartTimerIfNeeded r w)) as [[u|ex] w']; cbn;
      auto.
Qed.

Lemma runTick_turnsInactive (t : Tick) (w : World) (stop : StopEnv) :
  turnsInactive t w = Some stop ->
  db (enteringStop t w) = db w /\
  trace (enteringStop t w) = trace w /\
  db (snd (complete (runTick t w)))
  = db (snd (complete (stopTimerAndLog stop (enteringStop t w)))) /\
  trace (snd (complete (runTick t w)))
  = trace (snd (complete (stopTimerAndLog stop (enteringStop t w)))).
Proof.
  destruct t as [[state|ex] s r|[idle|ex] s r]; cbn [turnsInactive];
    try discriminate.
  - destruct (String.eqb state SESSION_SCREEN_IS_LOCKED) eqn:Hs;
      destruct (isLocked w) eqn:Hl; cbn [andb negb]; try discriminate.
    intros [= <-]. split; [reflexivity|]. split; [reflexivity|].
    unfold runTick, pollLock, enteringStop. run.
    unfold SESSION_SCREEN_IS_LOCKED in Hs. rewrite Hs, Hl. cbn.
    rewrite complete_orCatch, complete_andThen.
    destruct (complete (stopTimerAndLog s _)) as [[b|ex] w']; cbn; auto.
  - destruct (Qle_bool IDLE_THRESHOLD_SECONDS idle) eqn:Hq; try discriminate.
    intros [= <-]. split; [reflexivity|]. split; [reflexivity|].
    unfold runTick, pollIdle, enteringStop. run.
    rewrite Hq. cbn.
    rewrite complete_orCatch, complete_andThen.
    destruct (complete (stopTimerAndLog s w)) as [[[|]|ex] w']; cbn; auto.
Qed.

Lemma resumeEffect_none (e : ResumeEnv) (w w' : World) :
  lastResumeAt w' = lastResumeAt w ->
  postTimes (trace w') = postTimes (trace w) ->
  resumeEffect e w w'.
Proof. intros H1 H2. left. split; assumption. Qed.

(** Every poll run to its end, whatever it observes, has the effect of at
    most one call of [safeRestartTimerIfNeeded] on [lastResumeAt] and the
    timers started. *)
Lemma runTick_effect (t : Tick) (w : World) :
  resumeEffect (resumeEnvOf t) w (snd (complete (runTick t w))).
Proof.
  destruct t as [[state|ex] stop r|[idle|ex] stop r]; cbn [resumeEnvOf];
    unfold runTick, pollLock, pollIdle; run;
    try (apply resumeEffect_none; reflexivity).
  - destruct (String.eqb state "SESSION_SCREEN_IS_LOCKED");
      destruct (isLocked w) eqn:Hl; cbn;
      try (apply resumeEffect_none; reflexivity);
      rewrite complete_orCatch, complete_andThen.
    + match goal with
      | |- context [stopTimerAndLog stop ?w1] =>
          destruct (stopTimerAndLog_frame stop w1) as [HL [_ [_ HP]]];
          destruct (complete (stopTimerAndLog stop w1)) as [[b|ex] w']
      end; cbn in *; apply resumeEffect_none; assumption.
    + pose proof (safeRestart_effect r w) as H.
      destruct (complete (safeRestartTimerIfNeeded r w)) as [[u|ex] w'];
        cbn in *; exact H.
  - destruct (Qle_bool IDLE_THRESHOLD_SECONDS idle); cbn;
      rewrite complete_orCatch, complete_andThen.
    + destruct (stopTimerAndLog_frame stop w) as [HL [_ [_ HP]]].
      destruct (complete (stopTimerAndLog stop w)) as [[[|]|ex] w']; cbn in *;
        apply resumeEffect_none; assumption.
    + destruct (lastIdle w); cbn; [|apply resumeEffect_none; reflexivity].
      pose proof (safeRestart_effect r w) as H.
      destruct (complete (safeRestartTimerIfNeeded r w)) as [[u|ex] w'];
        cbn in *; exact H.
Qed.

(** *** The cooldown over a run of polls *)

Lemma spaced_snoc (times : list Z) (t : Z) :
  spaced times ->
  Forall (fun a => a + RESUME_COOLDOWN_MS <= t) times ->
  spaced (times ++ [t]).
Proof.
  unfold spaced. induction 1 as [|a l Hl IH Ha]; intros Hall; simpl.
  - repeat constructor.
  - inversion Hall as [|? ? Hat Hrest]; subst. constructor.
    + apply IH. exact Hrest.
    + apply Forall_app. split; [exact Ha | repeat constructor; exact Hat].
Qed.

Lemma resumeEffect_invariant (e : ResumeEnv) (w w' : World) :
  clockAdvances e ->
  resumeEffect e w w' ->
  cooldownInvariant w -> cooldownInvariant w'.
Proof.
  unfold cooldownInvariant, clockAdvances, resumeEffect, RESUME_COOLDOWN_MS.
  intros [H01 H12] [[HL HP]|[Hc [HL HP]]] [Hsp Hle].
  - rewrite HL, HP. split; assumption.
  - rewrite HL.
    assert (Hold : Forall (fun p => p + 10000 <= st_date (rs_start e))
                          (postTimes (trace w))).
    { eapply Forall_impl; [|exact Hle]. cbn. intros p Hp. lia. }
    destruct HP as [-> | ->].
    + split; [exact Hsp|]. eapply Forall_impl; [|exact Hle]. cbn. intros p Hp. lia.
    + split; [apply spaced_snoc; assumption|].
      apply Forall_app. split; [|repeat constructor; exact H12].
      eapply Forall_impl; [|exact Hle]. cbn. intros p Hp. lia.
Qed.

Lemma runTicks_app (ts1 ts2 : list Tick) (w : World) :
  runTicks (ts1 ++ ts2) w = runTicks ts2 (runTicks ts1 w).
Proof. revert w. induction ts1 as [|t ts1 IH]; intros w; simpl; auto. Qed.

Lemma runTicks_invariant (ts : list Tick) :
  forall w,
    Forall (fun t => clockAdvances (resumeEnvOf t)) ts ->
    cooldownInvariant w -> cooldownInvariant (runTicks ts w).
Proof.
  induction ts as [|t ts IH]; intros w Hclk Hinv; simpl; [exact Hinv|].
  inversion Hclk as [|? ? Ht Hts]; subst.
  apply IH; [exact Hts|].
  eapply resumeEffect_invariant; [exact Ht | apply runTick_effect | exact Hinv].
Qed.

(** Polls that all begin inside one window shorter than the cooldown. *)
Lemma runTicks_window (t0 : Z) (ts : list Tick) :
  forall w,
    Forall (fun t => clockAdvances (resumeEnvOf t)) ts ->
    (forall t, In t ts ->
               t0 <= rs_now0 (resumeEnvOf t) < t0 + RESUME_COOLDOWN_MS) ->
    (List.length (postTimes (trace (runTicks ts w)))
     <= List.length (postTimes (trace w)) + 1)%nat /\
    (t0 <= lastResumeAt w ->
     postTimes (trace (runTicks ts w)) = postTimes (trace w)).
Proof.
  induction ts as [|t ts IH]; intros w Hclk Hwin; simpl.
  - split; [lia | reflexivity].
  - inversion Hclk as [|? ? [H01 H12] Hts]; subst.
    assert (Hin : t0 <= rs_now0 (resumeEnvOf t) < t0 + RESUME_COOLDOWN_MS)
      by (apply Hwin; left; reflexivity).
    destruct (IH (snd (complete (runTick t w))) Hts (fun x Hx => Hwin x (or_intror Hx)))
      as [IHle IHeq].
    destruct (runTick_effect t w) as [[HL HP]|[Hc [HL HP]]].
    + rewrite HL, HP in *. split; assumption.
    + assert (Hafter : t0 <= lastResumeAt (snd (complete (runTick t w))))
        by (rewrite HL; lia).
      specialize (IHeq Hafter). rewrite IHeq. split.
      * destruct HP as [-> | ->]; [lia | rewrite length_app; simpl; lia].
      * intros Hbefore. lia.
Qed.

(** *** C4 *)

(** C4, amended: on a poll that observes the return of activity, if the
    latest session is closed, auto-completed, completed less than two hours
    before the clock reading of the check and has a project, no remote
    timer is reported, the resume cooldown has elapsed, Clockify answers
    the user lookup and the POST, and the fresh id is not in the table,
    then the poll starts exactly one remote timer, with that session's
    project and description, and appends exactly one session, open and
    with [isAutoCompleted] 0. *)
Theorem resume_when_eligible (t : Tick) (w : World) (resume : ResumeEnv)
    (latest : Db.Session) (c : string) (cms : Z) (u : User) (entry : TimeEntry) :
  turnsActive t w = Some resume ->
  Db.getLatestSession (db w) = Returns latest ->
  Db.completedAt latest = Some c ->
  Db.isAutoCompleted latest <> 0 ->
  getTime c = Some cms ->
  rs_now1 resume - twoHours < cms ->
  Db.projectId latest <> EmptyString ->
  rs_active resume = None ->
  RESUME_COOLDOWN_MS <= rs_now0 resume - lastResumeAt w ->
  st_user (rs_start resume) = Some u ->
  st_post (rs_start resume) = Returns entry ->
  ~ In (st_uuid (rs_start resume)) (map Db.id (db w)) ->
  db (snd (complete (runTick t w)))
  = db w ++ [Db.mkSession (st_uuid (rs_start resume)) (Db.projectId latest)
                          (Db.description latest)
                          (toISOString (st_date (rs_start resume)))
                          None 0 None] /\
  trace (snd (complete (runTick t w)))
  = trace w ++ [GetActiveTimer; GetUser;
                PostTimeEntry (Db.projectId latest) (Db.description latest)
                              (st_date (rs_start resume));
                DbLogSessionStart (st_uuid (rs_start resume));
                GetProject (Db.projectId latest)].
Proof.
  intros Ht Hl Hc Hauto Hms Hfresh Hpid Ha Hcool Hu Hp Hid.
  destruct (runTick_turnsActive t w resume Ht) as [_ [Hdb [Htr _]]].
  rewrite Hdb, Htr.
  pose proof (eligible_fresh _ _ _ _ Hc Hms Hauto Hfresh Hpid) as He.
  destruct (safeRestart_resumes resume w latest u entry Hcool Hl Ha He Hu Hp Hid)
    as [_ [H1 [H2 _]]].
  split; assumption.
Qed.

(** *** C6 *)

(** On a table that holds an open session: on a poll that observes
    inactivity, if Clockify reports a running timer, the poll asks Clockify
    to stop the timer and, the stop having succeeded, then closes the open
    session none of the open sessions started later than, with
    [completedAt] the instant read in this poll and [isAutoCompleted] 1. *)
Lemma inactive_stops_then_closes (t : Tick) (w : World) (stop : StopEnv)
    (a s : TimeEntry) :
  turnsInactive t w = Some stop ->
  sp_active stop = Some a ->
  sp_stopped stop = Some s ->
  NoDup (map Db.id (db w)) ->
  (exists r, In r (db w) /\ Db.completedAt r = None) ->
  (exists rest,
      jiraTail rest /\
      trace (snd (complete (runTick t w)))
      = trace w ++ [GetActiveTimer; StopTimer;
                    DbCompleteLatestSession (toISOString (sp_date stop)) true]
                ++ rest) /\
  (exists before r after,
      db w = before ++ r :: after /\
      Db.completedAt r = None /\
      (forall r', In r' (db w) -> Db.completedAt r' = None ->
                  text_le (Db.startedAt r') (Db.startedAt r) = true) /\
      db (snd (complete (runTick t w)))
      = before ++ Db.mkSession (Db.id r) (Db.projectId r) (Db.description r)
                               (Db.startedAt r)
                               (Some (toISOString (sp_date stop))) 1
                               (Db.jiraTicket r) :: after).
Proof.
  intros Ht Ha Hs Hnd Hopen.
  destruct (runTick_turnsInactive t w stop Ht) as [Hdb0 [Htr0 [Hdb Htr]]].
  assert (Hne : db (enteringStop t w) <> []).
  { rewrite Hdb0. destruct Hopen as [r [Hin _]].
    intros E. rewrite E in Hin. exact Hin. }
  destruct (getLatestSession_nonempty _ Hne) as [latest [Hl _]].
  destruct (stopTimerAndLog_stopped stop (enteringStop t w) a s latest Ha Hs Hl)
    as [_ [Hdb1 [rest [Hj Htr1]]]].
  split.
  - exists rest. split; [exact Hj|]. rewrite Htr, Htr1, Htr0. reflexivity.
  - rewrite Hdb, Hdb1, Hdb0.
    apply (complete_decomposed (toISOString (sp_date stop)) true (db w) Hnd Hopen).
Qed.

(** On an empty table [stopTimerAndLog] is left by the exception of
    [getLatestSession], after the lookup of the running timer and before
    the stop. *)
Lemma stopTimerAndLog_empty_table (e : StopEnv) (w : World) :
  sp_active e <> None ->
  db w = [] ->
  complete (stopTimerAndLog e w)
  = (Throws ZodError,
     mkWorld (db w) (lastResumeAt w) (isLocked w) (lastIdle w)
             (trace w ++ [GetActiveTimer])).
Proof.
  intros Ha Hdb. unfold stopTimerAndLog. run.
  destruct (sp_active e) as [a|]; [|contradiction]. cbn.
  rewrite Hdb. reflexivity.
Qed.

(** C6, at the failing input: on an empty table, a poll that observes
    inactivity while Clockify reports a running timer does not ask Clockify
    to stop it.  [getLatestSession] throws between the lookup of the
    running timer and the stop, the poller swallows the exception, and the
    lookup is the only request made: the remote timer keeps running. *)
Theorem inactive_on_empty_table_sends_no_stop (t : Tick) (w : World)
    (stop : StopEnv) :
  turnsInactive t w = Some stop ->
  sp_active stop <> None ->
  db w = [] ->
  fst (complete (runTick t w)) = Returns tt /\
  db (snd (complete (runTick t w))) = [] /\
  trace (snd (complete (runTick t w))) = trace w ++ [GetActiveTimer].
Proof.
  intros Ht Ha Hdb.
  destruct t as [[state|ex] s r|[idle|ex] s r]; cbn [turnsInactive] in Ht;
    try discriminate.
  - destruct (String.eqb state SESSION_SCREEN_IS_LOCKED) eqn:Hs;
      destruct (isLocked w) eqn:Hl; cbn [andb negb] in Ht; try discriminate.
    injection Ht as ->.
    unfold runTick, pollLock. run.
    unfold SESSION_SCREEN_IS_LOCKED in Hs. rewrite Hs, Hl. cbn.
    rewrite complete_orCatch, complete_andThen.
    rewrite (stopTimerAndLog_empty_table stop
               (mkWorld (db w) (lastResumeAt w) true (lastIdle w) (trace w))
               Ha Hdb). cbn.
    rewrite Hdb. repeat split; reflexivity.
  - destruct (Qle_bool IDLE_THRESHOLD_SECONDS idle) eqn:Hq; try discriminate.
    injection Ht as ->.
    unfold runTick, pollIdle. run. rewrite Hq. cbn.
    rewrite complete_orCatch, complete_andThen.
    rewrite (stopTimerAndLog_empty_table stop w Ha Hdb). cbn.
    rewrite Hdb. repeat split; reflexivity.
Qed.

(** *** C7 *)

(** C7: on a poll that observes the return of activity, when the latest
    session was completed three hours before an instant not later than the
    clock reading of the check, no remote timer is started and the table
    is left as it is. *)
Theorem stale_session_not_resumed (t : Tick) (w : World) (resume : ResumeEnv)
    (latest : Db.Session) (c : string) (now : Z) :
  turnsActive t w = Some resume ->
  Db.getLatestSession (db w) = Returns latest ->
  Db.completedAt latest = Some c ->
  getTime c = Some (now - threeHours) ->
  now <= rs_now1 resume ->
  db (snd (complete (runTick t w))) = db w /\
  (trace (snd (complete (runTick t w))) = trace w \/
   trace (snd (complete (runTick t w))) = trace w ++ [GetActiveTimer]).
Proof.
  intros Ht Hl Hc Hms Hnow.
  destruct (runTick_turnsActive t w resume Ht) as [_ [Hdb [Htr _]]].
  rewrite Hdb, Htr.
  assert (He : eligible (rs_now1 resume) latest = false).
  { apply (eligible_stale _ _ c (now - threeHours) Hc Hms).
    unfold threeHours, twoHours. lia. }
  destruct (safeRestart_not_eligible resume w latest Hl He) as [_ [H1 [_ H2]]].
  split; assumption.
Qed.

(** *** C10 *)

(** C10: on a poll that observes inactivity, if Clockify reports no running
    timer or the stop call yields no entry, the table is left as it is and
    the only requests issued are the timer lookup and, when a timer was
    reported, the stop; [completeLatestSession] is not run. *)
Theorem failed_stop_leaves_store (t : Tick) (w : World) (stop : StopEnv) :
  turnsInactive t w = Some stop ->
  sp_active stop = None \/ sp_stopped stop = None ->
  db (snd (complete (runTick t w))) = db w /\
  (trace (snd (complete (runTick t w))) = trace w ++ [GetActiveTimer] \/
   trace (snd (complete (runTick t w))) = trace w ++ [GetActiveTimer; StopTimer]).
Proof.
  intros Ht Hfail.
  destruct (runTick_turnsInactive t w stop Ht) as [Hdb0 [Htr0 [Hdb Htr]]].
  destruct (stopTimerAndLog_not_stopped stop (enteringStop t w) Hfail) as [H1 H2].
  rewrite Hdb, Htr, H1, Hdb0. rewrite Htr0 in H2. split; [reflexivity | exact H2].
Qed.

(** *** The cooldown when polls do not overlap *)

(** In every run of polls each of which ends before the next one fires,
    provided the clock does not run backwards during a resume, the remote
    timers started are at least the cooldown of 10 s apart; and polls that
    all begin within one window shorter than the cooldown start at most one
    remote timer. *)
Lemma cooldown_without_overlap (rows : Db.Store) (before ticks : list Tick)
    (t0 : Z) :
  Forall (fun t => clockAdvances (resumeEnvOf t)) (before ++ ticks) ->
  spaced (postTimes (trace (runTicks (before ++ ticks) (initialWorld rows)))) /\
  ((forall t, In t ticks ->
              t0 <= rs_now0 (resumeEnvOf t) < t0 + RESUME_COOLDOWN_MS) ->
   (List.length (postTimes (trace (runTicks (before ++ ticks)
                                            (initialWorld rows))))
    <= List.length (postTimes (trace (runTicks before (initialWorld rows))))
       + 1)%nat).
Proof.
  intros Hclk. split.
  - apply (runTicks_invariant (before ++ ticks) (initialWorld rows) Hclk).
    split; cbn; constructor.
  - intros Hwin. rewrite runTicks_app.
    apply Forall_app in Hclk. destruct Hclk as [_ Hclk].
    apply (runTicks_window t0 ticks _ Hclk Hwin).
Qed.

(** *** The event loop *)

(** Resuming a lone body until it settles is running it to its end. *)
Lemma resume_until_settled (a : Async unit) :
  exists n,
    runTurns (repeat (Resume 0) n)
             (match a with
              | Settled _ w => (w, [])
              | Awaiting w rest => (w, [rest])
              end)
    = (snd (complete a), []).
Proof.
  induction a as [r w|w rest IH].
  - exists 0%nat. reflexivity.
  - destruct (IH w) as [n Hn]. exists (S n). cbn.
    destruct (rest w); exact Hn.
Qed.

(** A poll fired alone and resumed until it settles leaves the world that
    [runTicks] takes it to. *)
Lemma fired_alone (t : Tick) (w : World) :
  exists n,
    runTurns (Fire t :: repeat (Resume 0) n) (w, [])
    = (runTicks [t] w, []).
Proof.
  destruct (resume_until_settled (runTick t w)) as [n Hn].
  exists n. cbn. destruct (runTick t w); exact Hn.
Qed.

End Monitor.

(** ** The properties at concrete polls *)

Lemma resume_when_eligible_witness :
  db (Examples.poll Examples.unlock1 Examples.afterLock1)
  = db Examples.afterLock1
    ++ [Db.mkSession "s2" "proj-1" "write report" "2023-11-14T23:13:21.000Z"
                     None 0 None] /\
  trace (Examples.poll Examples.unlock1 Examples.afterLock1)
  = trace Examples.afterLock1
    ++ [GetActiveTimer; GetUser;
        PostTimeEntry "proj-1" "write report" 1700003601000;
        DbLogSessionStart "s2"; GetProject "proj-1"].
Proof.
  apply (resume_when_eligible (date := IsoDate.utc)
           Examples.unlock1 Examples.afterLock1
           (Examples.resumeEnvAt (Examples.t0 + 60 * Examples.minute) "s2")
           (Db.mkSession "s1" "proj-1" "write report" "2023-11-14T22:13:20.000Z"
                         (Some "2023-11-14T22:43:20.000Z"%string) 1 None)
           "2023-11-14T22:43:20.000Z" 1700001800000
           Examples.me Examples.someEntry).
  - vm_compute; reflexivity.
  - vm_compute; reflexivity.
  - reflexivity.
  - discriminate.
  - vm_compute; reflexivity.
  - vm_compute; reflexivity.
  - discriminate.
  - reflexivity.
  - vm_compute; discriminate.
  - reflexivity.
  - reflexivity.
  - vm_compute. intros [H|[]]; discriminate H.
Defined.

(** C4, refuted as stated: six seconds after a resume, the screen having
    been locked and unlocked again, the latest session is closed,
    auto-completed three seconds ago, has a project, and no remote timer
    runs; the poll starts no timer and appends no session. *)
Lemma resume_blocked_inside_cooldown :
  exists resume latest c cms,
    turnsActive Examples.unlock2 Examples.afterLock2 = Some resume /\
    Db.getLatestSession (db Examples.afterLock2) = Returns latest /\
    Db.completedAt latest = Some c /\
    Db.isAutoCompleted latest <> 0 /\
    getTime (DateRuntime := IsoDate.utc) c = Some cms /\
    rs_now1 resume - twoHours < cms /\
    Db.projectId latest <> EmptyString /\
    rs_active resume = None /\
    db (Examples.poll Examples.unlock2 Examples.afterLock2)
    = db Examples.afterLock2 /\
    trace (Examples.poll Examples.unlock2 Examples.afterLock2)
    = trace Examples.afterLock2.
Proof.
  exists (Examples.resumeEnvAt (Examples.t0 + 60 * Examples.minute + 6000) "s3").
  exists (Db.mkSession "s2" "proj-1" "write report" "2023-11-14T23:13:21.000Z"
                       (Some "2023-11-14T23:13:23.000Z"%string) 1 None).
  exists "2023-11-14T23:13:23.000Z"%string, 1700003603000.
  split; [vm_compute; reflexivity|].
  split; [vm_compute; reflexivity|].
  split; [reflexivity|].
  split; [discriminate|].
  split; [vm_compute; reflexivity|].
  split; [vm_compute; reflexivity|].
  split; [discriminate|].
  split; [reflexivity|].
  split; vm_compute; reflexivity.
Qed.

Lemma inactive_stops_then_closes_witness :
  (exists rest,
      jiraTail rest /\
      trace (Examples.poll Examples.lock1 Examples.monitorStart)
      = trace Examples.monitorStart
        ++ [GetActiveTimer; StopTimer;
            DbCompleteLatestSession "2023-11-14T22:43:20.000Z" true]
        ++ rest) /\
  (exists before r after,
      db Examples.monitorStart = before ++ r :: after /\
      Db.completedAt r = None /\
      (forall r', In r' (db Examples.monitorStart) ->
                  Db.completedAt r' = None ->
                  text_le (Db.startedAt r') (Db.startedAt r) = true) /\
      db (Examples.poll Examples.lock1 Examples.monitorStart)
      = before ++ Db.mkSession (Db.id r) (Db.projectId r) (Db.description r)
                               (Db.startedAt r)
                               (Some "2023-11-14T22:43:20.000Z"%string) 1
                               (Db.jiraTicket r) :: after).
Proof.
  apply (inactive_stops_then_closes (date := IsoDate.utc)
           Examples.lock1 Examples.monitorStart
           (Examples.stopEnvAt (Examples.t0 + 30 * Examples.minute))
           Examples.someEntry Examples.someEntry).
  - reflexivity.
  - reflexivity.
  - reflexivity.
  - simpl. repeat constructor. intros [].
  - exists Examples.working. split; [left; reflexivity | reflexivity].
Defined.

(** The scenario of the specification on a fresh database: idle for 305 s
    with a running remote timer. *)
Lemma inactive_on_empty_table_sends_no_stop_witness :
  fst (complete (runTick (date := IsoDate.utc) Examples.idle305
                         (initialWorld [])))
  = Returns tt /\
  db (Examples.poll Examples.idle305 (initialWorld [])) = [] /\
  trace (Examples.poll Examples.idle305 (initialWorld [])) = [GetActiveTimer].
Proof.
  apply (inactive_on_empty_table_sends_no_stop (date := IsoDate.utc)
           Examples.idle305 (initialWorld [])
           (Examples.stopEnvAt (Examples.t0 + 30 * Examples.minute))).
  - reflexivity.
  - discriminate.
  - reflexivity.
Defined.

Lemma stale_session_not_resumed_witness :
  db (Examples.poll Examples.unlockLate Examples.afterLock1)
  = db Examples.afterLock1 /\
  (trace (Examples.poll Examples.unlockLate Examples.afterLock1)
   = trace Examples.afterLock1 \/
   trace (Examples.poll Examples.unlockLate Examples.afterLock1)
   = trace Examples.afterLock1 ++ [GetActiveTimer]).
Proof.
  apply (stale_session_not_resumed (date := IsoDate.utc)
           Examples.unlockLate Examples.afterLock1
           (Examples.resumeEnvAt (Examples.t0 + 30 * Examples.minute + threeHours) "s2")
           (Db.mkSession "s1" "proj-1" "write report" "2023-11-14T22:13:20.000Z"
                         (Some "2023-11-14T22:43:20.000Z"%string) 1 None)
           "2023-11-14T22:43:20.000Z"
           (Examples.t0 + 30 * Examples.minute + threeHours)).
  - vm_compute; reflexivity.
  - vm_compute; reflexivity.
  - reflexivity.
  - vm_compute; reflexivity.
  - vm_compute; discriminate.
Defined.

Lemma failed_stop_leaves_store_witness :
  db (Examples.poll (Examples.lockedNoTimerAt (Examples.t0 + 30 * Examples.minute))
                     Examples.monitorStart)
  = db Examples.monitorStart /\
  (trace (Examples.poll (Examples.lockedNoTimerAt (Examples.t0 + 30 * Examples.minute))
                     Examples.monitorStart)
   = trace Examples.monitorStart ++ [GetActiveTimer] \/
   trace (Examples.poll (Examples.lockedNoTimerAt (Examples.t0 + 30 * Examples.minute))
                     Examples.monitorStart)
   = trace Examples.monitorStart ++ [GetActiveTimer; StopTimer]).
Proof.
  apply (failed_stop_leaves_store (date := IsoDate.utc)
           (Examples.lockedNoTimerAt (Examples.t0 + 30 * Examples.minute))
           Examples.monitorStart
           (mkStopEnv None (Examples.t0 + 30 * Examples.minute) None (Returns tt))).
  - reflexivity.
  - left; reflexivity.
Defined.

Example cooldown_without_overlap_example :
  spaced (postTimes (trace (runTicks (date := IsoDate.utc)
            ([Examples.lock1; Examples.unlock1] ++ [Examples.lock2; Examples.unlock2])
            (initialWorld [Examples.working])))) /\
  (List.length (postTimes (trace (runTicks (date := IsoDate.utc)
            ([Examples.lock1; Examples.unlock1] ++ [Examples.lock2; Examples.unlock2])
            (initialWorld [Examples.working]))))
   <= List.length (postTimes (trace (runTicks (date := IsoDate.utc)
            [Examples.lock1; Examples.unlock1]
            (initialWorld [Examples.working])))) + 1)%nat.
Proof.
  assert (Hclk : Forall (fun t => clockAdvances (resumeEnvOf t))
                   ([Examples.lock1; Examples.unlock1]
                    ++ [Examples.lock2; Examples.unlock2])).
  { repeat constructor; cbn; lia. }
  destruct (cooldown_without_overlap (date := IsoDate.utc) [Examples.working]
              [Examples.lock1; Examples.unlock1]
              [Examples.lock2; Examples.unlock2]
              (Examples.t0 + 60 * Examples.minute + 3000) Hclk) as [Hsp Hwin].
  split; [exact Hsp|]. apply Hwin.
  intros t [<-|[<-|[]]]; cbn; unfold RESUME_COOLDOWN_MS; lia.
Qed.

(** *** C5 *)

(** C5, at the failing input: the lock poller and the idle poller fire
    50 ms apart, both observing the return of activity, and their bodies
    overlap.  Both pass the cooldown test before either assigns
    [lastResumeAt]; two remote timers are started 50 ms apart and two
    sessions are appended.  Run one after the other, the same two polls
    start one timer. *)
Theorem overlapping_polls_resume_twice :
  turnsActive Examples.unlockBack Examples.bothInactive
  = Some (resumeEnvOf Examples.unlockBack) /\
  turnsActive Examples.idleBack Examples.bothInactive
  = Some (resumeEnvOf Examples.idleBack) /\
  rs_now0 (resumeEnvOf Examples.idleBack)
  - rs_now0 (resumeEnvOf Examples.unlockBack) = 50 /\
  snd (runTurns (date := IsoDate.utc) Examples.overlapped
                (Examples.bothInactive, [])) = [] /\
  postTimes (trace (fst (runTurns (date := IsoDate.utc) Examples.overlapped
                                  (Examples.bothInactive, []))))
  = [1700003601000; 1700003601050] /\
  map Db.id (filter Db.isOpen
               (db (fst (runTurns (date := IsoDate.utc) Examples.overlapped
                                  (Examples.bothInactive, [])))))
  = ["s2"; "s3"]%string /\
  postTimes (trace (runTicks (date := IsoDate.utc)
                             [Examples.unlockBack; Examples.idleBack]
                             Examples.bothInactive))
  = [1700003601000].
Proof.
  split; [vm_compute; reflexivity|].
  split; [vm_compute; reflexivity|].
  split; [vm_compute; reflexivity|].
  split; [vm_compute; reflexivity|].
  split; [vm_compute; reflexivity|].
  split; vm_compute; reflexivity.
Qed.

(** The scenario of the specification: idle for 305 s with a running timer,
    then active 20 s later.  The session is closed as auto-completed, and a
    new open session with the same project and description follows it. *)
Example idle_then_active :
  db (runTicks (date := IsoDate.utc) [Examples.idle305; Examples.idle0]
               Examples.monitorStart)
  = [ Db.mkSession "s1" "proj-1" "write report" "2023-11-14T22:13:20.000Z"
                   (Some "2023-11-14T22:43:20.000Z"%string) 1 None;
      Db.mkSession "s2" "proj-1" "write report" "2023-11-14T22:43:41.000Z"
                   None 0 None ].
Proof. vm_compute. reflexivity. Qed.

(** * Further properties *)

(** ** Table [sessions] *)

(** Deleting rows keeps the keys of a table distinct. *)
Lemma keys_distinct_after_delete {Row Key : Type} (key : Row -> Key)
    (kept : Row -> bool) (rows : list Row) :
  NoDup (map key rows) -> NoDup (map key (filter kept rows)).
Proof.
  intros Hnd. induction rows as [|row rows IH]; cbn; [constructor|].
  cbn in Hnd. apply NoDup_cons_iff in Hnd. destruct Hnd as [Hfresh Hnd].
  destruct (kept row); cbn; [|exact (IH Hnd)].
  apply NoDup_cons; [|exact (IH Hnd)].
  rewrite in_map_iff. intros [other [Hkey Hin]].
  apply filter_In in Hin. apply Hfresh.
  rewrite <- Hkey. apply in_map. exact (proj1 Hin).
Qed.

Lemma applyTableOp_ids (op : TableOp) (rows : Db.Store) :
  NoDup (map Db.id rows) -> NoDup (map Db.id (applyTableOp op rows)).
Proof.
  intros Hnd. destruct op as [i p d s j|c a|cutoff]; simpl.
  - destruct (Db.logSessionStart i p d s j rows) as [rows'|] eqn:H;
      [eapply logSessionStart_ids; eassumption | exact Hnd].
  - rewrite completeLatestSession_ids. exact Hnd.
  - apply keys_distinct_after_delete. exact Hnd.
Qed.

(** X1: whatever statements of lib/db.ts are run on table [sessions], in
    whatever order, the ids of its rows stay pairwise distinct. *)
Theorem session_ids_stay_distinct (ops : list TableOp) (rows : Db.Store) :
  NoDup (map Db.id rows) ->
  NoDup (map Db.id (runTableOps ops rows)).
Proof.
  revert rows. induction ops as [|op ops IH]; intros rows Hnd; simpl.
  - exact Hnd.
  - apply IH. apply applyTableOp_ids. exact Hnd.
Qed.

Lemma completeLatestSession_identity (c : string) (a : bool) (rows : Db.Store) :
  map identity (Db.completeLatestSession c a rows) = map identity rows.
Proof.
  unfold Db.completeLatestSession.
  destruct (Db.selectLatestOpen rows) as [t|]; [|reflexivity].
  rewrite map_map. apply map_ext. intros x.
  destruct (String.eqb (Db.id x) (Db.id t)); reflexivity.
Qed.

Lemma completeLatestSession_keeps_closed (c : string) (a : bool)
    (rows : Db.Store) (r : Db.Session) :
  NoDup (map Db.id rows) ->
  In r rows -> Db.completedAt r <> None ->
  In r (Db.completeLatestSession c a rows).
Proof.
  intros Hnd Hin Hclosed.
  destruct (openCount rows) as [|n] eqn:Hn.
  - rewrite complete_noop; assumption.
  - assert (Hopen : exists o, In o rows /\ Db.completedAt o = None).
    { unfold openCount in Hn.
      destruct (filter Db.isOpen rows) as [|o l] eqn:Hf; [discriminate|].
      assert (Ho : In o (filter Db.isOpen rows)) by (rewrite Hf; left; reflexivity).
      apply filter_In in Ho. exists o. split; [apply Ho | apply isOpen_iff, Ho]. }
    destruct (complete_decomposed c a rows Hnd Hopen)
      as [before [o [after [Hrows [Ho [_ Hres]]]]]].
    rewrite Hres. rewrite Hrows in Hin.
    apply in_app_or in Hin. apply in_or_app.
    destruct Hin as [Hin|[Heq|Hin]]; [left; exact Hin | | right; right; exact Hin].
    subst o. contradiction.
Qed.

Lemma completeLatestSession_openCount (c : string) (a : bool) (rows : Db.Store) :
  NoDup (map Db.id rows) ->
  openCount (Db.completeLatestSession c a rows) = pred (openCount rows).
Proof.
  intros Hnd.
  destruct (openCount rows) as [|n] eqn:Hn.
  - rewrite complete_noop; [rewrite Hn; reflexivity | exact Hn].
  - assert (Hopen : exists o, In o rows /\ Db.completedAt o = None).
    { unfold openCount in Hn.
      destruct (filter Db.isOpen rows) as [|o l] eqn:Hf; [discriminate|].
      assert (Ho : In o (filter Db.isOpen rows)) by (rewrite Hf; left; reflexivity).
      apply filter_In in Ho. exists o. split; [apply Ho | apply isOpen_iff, Ho]. }
    destruct (complete_decomposed c a rows Hnd Hopen)
      as [before [o [after [Hrows [Ho [_ Hres]]]]]].
    rewrite Hres. rewrite Hrows in Hn.
    rewrite openCount_app in *.
    change (before ++ ?x :: after) with (before ++ [x] ++ after).
    unfold openCount in *. simpl in *.
    apply isOpen_iff in Ho. rewrite Ho in Hn. simpl in Hn. lia.
Qed.

(** X2: on a table with distinct ids, [completeLatestSession] changes
    nothing of a closed session, keeps the rows in number and order, keeps
    the id, project, description, start and ticket of every row, and lowers
    the number of open sessions by exactly one, down to zero. *)
Theorem completeLatestSession_touches_open_only (c : string) (a : bool)
    (rows : Db.Store) :
  NoDup (map Db.id rows) ->
  map identity (Db.completeLatestSession c a rows) = map identity rows /\
  (forall r, In r rows -> Db.completedAt r <> None ->
             In r (Db.completeLatestSession c a rows)) /\
  openCount (Db.completeLatestSession c a rows) = pred (openCount rows).
Proof.
  intros Hnd. split; [|split].
  - apply completeLatestSession_identity.
  - intros r. apply completeLatestSession_keeps_closed. exact Hnd.
  - apply completeLatestSession_openCount. exact Hnd.
Qed.

Lemma orderBy_snoc_later (rows : list Db.Session) (r : Db.Session) :
  (forall x, In x rows -> text_lt (Db.startedAt x) (Db.startedAt r) = true) ->
  Db.orderByStartedAtDescLimit1 (rows ++ [r]) = Some r.
Proof.
  induction rows as [|x rows IH]; intros H; simpl; [reflexivity|].
  rewrite IH by (intros y Hy; apply H; right; exact Hy).
  rewrite (H x (or_introl eq_refl)). reflexivity.
Qed.

(** X3: a session logged under a new id with a [startedAt] later than that
    of every stored session is the one [getLatestSession] returns next. *)
Theorem logged_session_is_latest (i p d s : string) (j : option string)
    (rows : Db.Store) :
  ~ In i (map Db.id rows) ->
  (forall x, In x rows -> text_lt (Db.startedAt x) s = true) ->
  exists rows',
    Db.logSessionStart i p d s j rows = Returns rows' /\
    Db.getLatestSession rows' = Returns (Db.mkSession i p d s None 0 j).
Proof.
  intros Hfresh Hlater. unfold Db.logSessionStart.
  assert (Hex : existsb (fun r => String.eqb (Db.id r) i) rows = false).
  { destruct (existsb _ rows) eqn:Hex; [|reflexivity].
    apply existsb_exists in Hex. destruct Hex as [x [Hin Heq]].
    apply String.eqb_eq in Heq. elim Hfresh. rewrite <- Heq.
    apply in_map. exact Hin. }
  rewrite Hex. eexists. split; [reflexivity|].
  unfold Db.getLatestSession. rewrite orderBy_snoc_later; [reflexivity|].
  exact Hlater.
Qed.

Lemma text_le_lt_false (a b : string) :
  text_le b a = true -> text_lt a b = false.
Proof. rewrite text_lt_le. intros ->. reflexivity. Qed.

Lemma survives_later_cutoff (c1 c2 s : string) :
  negb (text_lt s c1) && negb (text_lt s c2)
  = negb (text_lt s (laterCutoff c1 c2)).
Proof.
  unfold laterCutoff. destruct (text_lt c1 c2) eqn:H12.
  - destruct (text_lt s c2) eqn:H2; simpl; [apply andb_false_r|].
    rewrite andb_true_r.
    apply text_lt_false_le in H2. apply text_lt_true_le in H12.
    rewrite (text_le_lt_false s c1); [reflexivity|].
    eapply text_le_trans; eassumption.
  - destruct (text_lt s c1) eqn:H1; simpl; [reflexivity|].
    apply text_lt_false_le in H1. apply text_lt_false_le in H12.
    rewrite (text_le_lt_false s c2); [reflexivity|].
    eapply text_le_trans; eassumption.
Qed.

Lemma filter_filter {A} (p q : A -> bool) (l : list A) :
  filter q (filter p l) = filter (fun x => p x && q x) l.
Proof.
  induction l as [|x l IH]; simpl; [reflexivity|].
  destruct (p x); simpl; [destruct (q x); simpl; congruence | exact IH].
Qed.

(** X4: two purges in a row, in either order, leave what one purge with
    the later of the two cutoffs leaves; in particular purging twice with
    the same cutoff is purging once. *)
Theorem purges_compose (c1 c2 : string) (rows : Db.Store) :
  Db.deleteOlderThan c2 (Db.deleteOlderThan c1 rows)
  = Db.deleteOlderThan (laterCutoff c1 c2) rows /\
  Db.deleteOlderThan c2 (Db.deleteOlderThan c1 rows)
  = Db.deleteOlderThan c1 (Db.deleteOlderThan c2 rows) /\
  Db.deleteOlderThan c1 (Db.deleteOlderThan c1 rows)
  = Db.deleteOlderThan c1 rows.
Proof.
  assert (H : forall a b,
             Db.deleteOlderThan b (Db.deleteOlderThan a rows)
             = Db.deleteOlderThan (laterCutoff a b) rows).
  { intros a b. unfold Db.deleteOlderThan. rewrite filter_filter.
    apply filter_ext. intros x. apply survives_later_cutoff. }
  split; [apply H|]. split.
  - rewrite !H. unfold Db.deleteOlderThan. apply filter_ext. intros x.
    rewrite <- !survives_later_cutoff. apply andb_comm.
  - rewrite H. unfold laterCutoff.
    destruct (text_lt c1 c1); reflexivity.
Qed.

Lemma orderBy_filter (p : Db.Session -> bool) (rows : list Db.Session)
    (r : Db.Session) :
  Db.orderByStartedAtDescLimit1 rows = Some r ->
  p r = true ->
  Db.orderByStartedAtDescLimit1 (filter p rows) = Some r.
Proof.
  revert r. induction rows as [|x rest IH]; intros r; simpl; [discriminate|].
  destruct (Db.orderByStartedAtDescLimit1 rest) as [b|] eqn:Hrest.
  - destruct (text_lt (Db.startedAt x) (Db.startedAt b)) eqn:Hlt;
      intros [= <-] Hp.
    + destruct (p x); simpl; rewrite (IH b eq_refl Hp); [rewrite Hlt|];
        reflexivity.
    + rewrite Hp. simpl.
      destruct (Db.orderByStartedAtDescLimit1 (filter p rest)) as [b'|] eqn:Hf;
        [|reflexivity].
      apply orderBy_latest in Hf. destruct Hf as [Hin _].
      apply filter_In in Hin. destruct Hin as [Hin _].
      apply orderBy_latest in Hrest. destruct Hrest as [_ Hmax].
      assert (Hle : text_le (Db.startedAt b') (Db.startedAt x) = true).
      { eapply text_le_trans; [apply Hmax; exact Hin|].
        apply text_lt_false_le. exact Hlt. }
      rewrite text_lt_le, Hle. reflexivity.
  - intros [= <-] Hp. rewrite Hp. simpl.
    apply orderBy_none in Hrest. subst rest. reflexivity.
Qed.

Lemma orderBy_map (f : Db.Session -> Db.Session) (rows : list Db.Session) :
  (forall x, Db.startedAt (f x) = Db.startedAt x) ->
  Db.orderByStartedAtDescLimit1 (map f rows)
  = option_map f (Db.orderByStartedAtDescLimit1 rows).
Proof.
  intros Hf. induction rows as [|x rest IH]; simpl; [reflexivity|].
  rewrite IH. destruct (Db.orderByStartedAtDescLimit1 rest) as [b|]; simpl;
    [|reflexivity].
  rewrite !Hf. destruct (text_lt _ _); reflexivity.
Qed.

(** Closing the latest open session when it is the latest session leaves
    it the latest session. *)
Lemma completeLatestSession_latest (c : string) (a : bool) (rows : Db.Store)
    (latest : Db.Session) :
  Db.getLatestSession rows = Returns latest ->
  Db.completedAt latest = None ->
  Db.getLatestSession (Db.completeLatestSession c a rows)
  = Returns (Db.setCompleted c a latest).
Proof.
  unfold Db.getLatestSession, Db.completeLatestSession, Db.selectLatestOpen.
  destruct (Db.orderByStartedAtDescLimit1 rows) as [r|] eqn:Hr; [|discriminate].
  intros [= ->] Hopen.
  rewrite (orderBy_filter Db.isOpen rows latest Hr)
    by (apply isOpen_iff; exact Hopen).
  rewrite orderBy_map, Hr.
  - simpl. rewrite String.eqb_refl. reflexivity.
  - intros x. destruct (String.eqb (Db.id x) (Db.id latest)); reflexivity.
Qed.

Lemma same_id_same_row (rows : Db.Store) (r1 r2 : Db.Session) :
  NoDup (map Db.id rows) ->
  In r1 rows -> In r2 rows -> Db.id r1 = Db.id r2 -> r1 = r2.
Proof.
  induction rows as [|x rows IH]; cbn; intros Hnd H1 H2 Hid; [destruct H1|].
  apply NoDup_cons_iff in Hnd. destruct Hnd as [Hx Hnd].
  destruct H1 as [<-|H1]; destruct H2 as [<-|H2].
  - reflexivity.
  - elim Hx. rewrite Hid. apply in_map. exact H2.
  - elim Hx. rewrite <- Hid. apply in_map. exact H1.
  - apply IH; assumption.
Qed.

(** Closing the latest open session leaves a closed latest session as it
    is. *)
Lemma completeLatestSession_latest_closed (c : string) (a : bool)
    (rows : Db.Store) (latest : Db.Session) :
  NoDup (map Db.id rows) ->
  Db.getLatestSession rows = Returns latest ->
  Db.completedAt latest <> None ->
  Db.getLatestSession (Db.completeLatestSession c a rows) = Returns latest.
Proof.
  intros Hnd Hl Hclosed.
  pose proof (getLatestSession_returns rows latest Hl) as [Hin _].
  unfold Db.getLatestSession in *. unfold Db.completeLatestSession.
  destruct (Db.orderByStartedAtDescLimit1 rows) as [r|] eqn:Hr; [|discriminate].
  injection Hl as ->.
  destruct (Db.selectLatestOpen rows) as [target|] eqn:Ht;
    [|rewrite Hr; reflexivity].
  apply selectLatestOpen_some in Ht. destruct Ht as [Htin [Hopen _]].
  rewrite orderBy_map, Hr.
  - cbn. destruct (String.eqb_spec (Db.id latest) (Db.id target)) as [Heq|Hne];
      [|reflexivity].
    rewrite (same_id_same_row rows latest target Hnd Hin Htin Heq) in Hclosed.
    contradiction.
  - intros x. destruct (String.eqb (Db.id x) (Db.id target)); reflexivity.
Qed.

(** X5: on a table that is not empty [getLatestSession] returns a session
    of the table that none started later than; and [completeLatestSession]
    does not change which session that is: afterwards [getLatestSession]
    returns a session with the same id, project, description, start and
    ticket. *)
Theorem latest_session_of_nonempty_table (rows : Db.Store) :
  rows <> [] ->
  exists r,
    Db.getLatestSession rows = Returns r /\ latestAmong r rows /\
    forall c a, exists r',
      Db.getLatestSession (Db.completeLatestSession c a rows) = Returns r' /\
      identity r' = identity r.
Proof.
  intros Hne. unfold Db.getLatestSession.
  destruct (Db.orderByStartedAtDescLimit1 rows) as [r|] eqn:H.
  - exists r. split; [reflexivity|]. split; [apply orderBy_latest; exact H|].
    intros c a. unfold Db.completeLatestSession.
    destruct (Db.selectLatestOpen rows) as [target|].
    + rewrite orderBy_map, H.
      * cbn. eexists. split; [reflexivity|].
        destruct (String.eqb (Db.id r) (Db.id target)); reflexivity.
      * intros x. destruct (String.eqb (Db.id x) (Db.id target)); reflexivity.
    + rewrite H. exists r. split; reflexivity.
  - apply orderBy_none in H. contradiction.
Qed.

(** ** Table [event_projects] *)

Lemma find_after_filter (name : string) (v : option string)
    (rows : EventProjects.Table) :
  find (fun r => String.eqb (EventProjects.eventName r) name)
       (filter (fun r => negb (String.eqb (EventProjects.eventName r) name)) rows
        ++ [EventProjects.mkRow name v])
  = Some (EventProjects.mkRow name v).
Proof.
  induction rows as [|x rows IH]; simpl.
  - rewrite String.eqb_refl. reflexivity.
  - destruct (String.eqb (EventProjects.eventName x) name) eqn:Hx; simpl;
      [exact IH|]. rewrite Hx. exact IH.
Qed.

Lemma filter_other_key (name : string) (rows : EventProjects.Table) :
  filter (fun r => negb (String.eqb (EventProjects.eventName r) name))
         (filter (fun r => negb (String.eqb (EventProjects.eventName r) name)) rows)
  = filter (fun r => negb (String.eqb (EventProjects.eventName r) name)) rows.
Proof.
  rewrite filter_filter. apply filter_ext. intros x.
  destruct (String.eqb (EventProjects.eventName x) name); reflexivity.
Qed.

Lemma getEventProject_same (name : string) (v : option string)
    (rows : EventProjects.Table) :
  EventProjects.getEventProject name (EventProjects.setEventProject name v rows)
  = Some v.
Proof.
  unfold EventProjects.getEventProject, EventProjects.setEventProject.
  rewrite find_after_filter. reflexivity.
Qed.

(** X6: [getEventProject] right after [setEventProject] for the same
    event name returns what was set, the skip choice (null) included and
    told apart from a missing entry; and of two assignments to one name
    only the second remains. *)
Theorem event_project_round_trip (name : string) (v1 v2 : option string)
    (rows : EventProjects.Table) :
  EventProjects.getEventProject name (EventProjects.setEventProject name v1 rows)
  = Some v1 /\
  EventProjects.setEventProject name v2
    (EventProjects.setEventProject name v1 rows)
  = EventProjects.setEventProject name v2 rows.
Proof.
  split.
  - apply getEventProject_same.
  - unfold EventProjects.setEventProject.
    rewrite filter_app, filter_other_key. simpl.
    rewrite String.eqb_refl. simpl. rewrite app_nil_r. reflexivity.
Qed.

Lemma getEventProject_other (name other : string) (v : option string)
    (rows : EventProjects.Table) :
  other <> name ->
  EventProjects.getEventProject other (EventProjects.setEventProject name v rows)
  = EventProjects.getEventProject other rows.
Proof.
  intros Hne.
  unfold EventProjects.getEventProject, EventProjects.setEventProject.
  assert (H : find (fun r => String.eqb (EventProjects.eventName r) other)
                   (filter (fun r => negb (String.eqb (EventProjects.eventName r) name))
                           rows ++ [EventProjects.mkRow name v])
              = find (fun r => String.eqb (EventProjects.eventName r) other) rows).
  { induction rows as [|x rows IH]; simpl.
    - destruct (String.eqb_spec name other); [subst; contradiction | reflexivity].
    - destruct (String.eqb_spec (EventProjects.eventName x) name) as [Hx|Hx]; simpl.
      + destruct (String.eqb_spec (EventProjects.eventName x) other) as [Ho|Ho];
          [elim Hne; congruence | exact IH].
      + destruct (String.eqb (EventProjects.eventName x) other);
          [reflexivity | exact IH]. }
  rewrite H. reflexivity.
Qed.

(** X7: an assignment to one event name leaves what [getEventProject]
    returns for every other name, and leaves the rows of the other names
    in their order. *)
Theorem event_project_other_names (name other : string) (v : option string)
    (rows : EventProjects.Table) :
  other <> name ->
  EventProjects.getEventProject other (EventProjects.setEventProject name v rows)
  = EventProjects.getEventProject other rows /\
  filter (fun r => negb (String.eqb (EventProjects.eventName r) name))
         (EventProjects.setEventProject name v rows)
  = filter (fun r => negb (String.eqb (EventProjects.eventName r) name)) rows.
Proof.
  intros Hne. split; [apply getEventProject_other; exact Hne|].
  unfold EventProjects.setEventProject.
  rewrite filter_app, filter_other_key. simpl.
  rewrite String.eqb_refl. simpl. apply app_nil_r.
Qed.

Lemma getEventProject_missing (name : string) (rows : EventProjects.Table) :
  EventProjects.getEventProject name rows = None <->
  ~ In name (map EventProjects.eventName rows).
Proof.
  unfold EventProjects.getEventProject. split.
  - destruct (find _ rows) as [r|] eqn:Hf; [discriminate|]. intros _ Hin.
    apply in_map_iff in Hin. destruct Hin as [x [Hx Hin]].
    pose proof (find_none _ _ Hf x Hin) as H. cbn in H.
    rewrite Hx, String.eqb_refl in H. discriminate.
  - intros Hnot. destruct (find _ rows) as [r|] eqn:Hf; [|reflexivity].
    apply find_some in Hf. destruct Hf as [Hin Heq].
    apply String.eqb_eq in Heq. elim Hnot. rewrite <- Heq.
    apply in_map. exact Hin.
Qed.

(** X8: event names stay pairwise distinct under [setEventProject], and
    [getEventProject] returns the missing value exactly for the names that
    are not in the table. *)
Theorem event_names_stay_distinct (name : string) (v : option string)
    (rows : EventProjects.Table) :
  NoDup (map EventProjects.eventName rows) ->
  NoDup (map EventProjects.eventName (EventProjects.setEventProject name v rows)) /\
  forall other,
    EventProjects.getEventProject other (EventProjects.setEventProject name v rows)
    = None <->
    other <> name /\ ~ In other (map EventProjects.eventName rows).
Proof.
  intros Hnd. split.
  - unfold EventProjects.setEventProject. rewrite map_app. simpl.
    apply NoDup_app.
    + apply keys_distinct_after_delete. exact Hnd.
    + repeat constructor. intros [].
    + intros x Hx [<-|[]]. apply in_map_iff in Hx.
      destruct Hx as [y [Hy Hin]]. apply filter_In in Hin.
      destruct Hin as [_ Hneq]. rewrite Hy, String.eqb_refl in Hneq.
      discriminate.
  - intros other. destruct (String.eqb_spec other name) as [->|Hne].
    + rewrite getEventProject_same.
      split; [discriminate | intros [Hc _]; contradiction].
    + rewrite (getEventProject_other name other v rows Hne).
      rewrite getEventProject_missing. tauto.
Qed.

(** ** Table [google_tokens] *)

Lemma tokens_snoc_later (rows : list Tokens.Row) (r : Tokens.Row) :
  (forall x, In x rows ->
             text_lt (Tokens.createdAt x) (Tokens.createdAt r) = true) ->
  Tokens.orderByCreatedAtDescLimit1 (rows ++ [r]) = Some r.
Proof.
  induction rows as [|x rows IH]; intros H; simpl; [reflexivity|].
  rewrite IH by (intros y Hy; apply H; right; exact Hy).
  rewrite (H x (or_introl eq_refl)). reflexivity.
Qed.

Lemma tokens_orderBy_none (rows : list Tokens.Row) :
  Tokens.orderByCreatedAtDescLimit1 rows = None <-> rows = [].
Proof.
  split; [|intros ->; reflexivity].
  destruct rows as [|r rest]; [reflexivity|]. simpl.
  destruct (Tokens.orderByCreatedAtDescLimit1 rest) as [b|]; [|discriminate].
  destruct (text_lt _ _); discriminate.
Qed.

Lemma text_lt_trans (a b c : string) :
  text_lt a b = true -> text_lt b c = true -> text_lt a c = true.
Proof.
  intros Hab Hbc. rewrite text_lt_le. destruct (text_le c a) eqn:Hca;
    [|reflexivity].
  apply text_lt_true_le in Hab.
  rewrite text_lt_le, (text_le_trans c a b Hca Hab) in Hbc. discriminate.
Qed.

Lemma tokens_orderBy_latest (rows : list Tokens.Row) (b : Tokens.Row) :
  Tokens.orderByCreatedAtDescLimit1 rows = Some b ->
  forall x, In x rows ->
            text_le (Tokens.createdAt x) (Tokens.createdAt b) = true.
Proof.
  revert b. induction rows as [|y rest IH]; intros b; simpl; [discriminate|].
  destruct (Tokens.orderByCreatedAtDescLimit1 rest) as [m|] eqn:Hrest.
  - destruct (text_lt (Tokens.createdAt y) (Tokens.createdAt m)) eqn:Hlt;
      intros [= <-] x [<-|Hin].
    + apply text_lt_true_le. exact Hlt.
    + apply (IH m eq_refl). exact Hin.
    + apply text_le_refl.
    + eapply text_le_trans; [apply (IH m eq_refl); exact Hin|].
      apply text_lt_false_le. exact Hlt.
  - intros [= <-] x [<-|Hin]; [apply text_le_refl|].
    apply tokens_orderBy_none in Hrest. subst rest. destruct Hin.
Qed.

(** The row the SELECT returns after one more row was inserted: the new
    row when its [createdAt] is strictly later than that of the row
    returned before, and that row otherwise. *)
Lemma tokens_snoc (rows : list Tokens.Row) (r : Tokens.Row) :
  Tokens.orderByCreatedAtDescLimit1 (rows ++ [r])
  = match Tokens.orderByCreatedAtDescLimit1 rows with
    | None => Some r
    | Some b =>
        if text_lt (Tokens.createdAt b) (Tokens.createdAt r)
        then Some r else Some b
    end.
Proof.
  induction rows as [|x rest IH]; simpl; [reflexivity|].
  rewrite IH.
  destruct (Tokens.orderByCreatedAtDescLimit1 rest) as [m|]; [|reflexivity].
  destruct (text_lt (Tokens.createdAt m) (Tokens.createdAt r)) eqn:Hmr;
    destruct (text_lt (Tokens.createdAt x) (Tokens.createdAt m)) eqn:Hxm;
    try reflexivity.
  - rewrite Hmr, (text_lt_trans _ _ _ Hxm Hmr). reflexivity.
  - rewrite Hmr. reflexivity.
  - apply text_lt_false_le in Hmr, Hxm.
    rewrite text_lt_le, (text_le_trans _ _ _ Hmr Hxm). reflexivity.
Qed.

Section TokenProperties.

Context {date : DateRuntime} {T : Type} {json : JsonRuntime T}.

(** X9: a token stored at an instant whose ISO text is later than the
    [createdAt] of every stored token is the one [getLatestToken] returns
    next, parsed back to the value that was stored. *)
Theorem stored_token_is_latest (now : Z) (t : T) (rows : Tokens.Table) :
  (forall x, In x rows -> text_lt (Tokens.createdAt x) (toISOString now) = true) ->
  getLatestToken (storeToken now t rows) = Value t.
Proof.
  intros Hlater. unfold getLatestToken, storeToken, Tokens.insert.
  rewrite tokens_snoc_later by exact Hlater.
  simpl. apply parse_stringify.
Qed.

(** X10: [getLatestToken] goes by [createdAt], not by the order of
    insertion: a token stored at an instant whose ISO text is earlier than
    the [createdAt] of a stored token is not the one returned;
    [getLatestToken] returns what it returned before. *)
Theorem earlier_token_is_not_latest (now : Z) (t : T) (rows : Tokens.Table)
    (later : Tokens.Row) :
  In later rows ->
  text_lt (toISOString now) (Tokens.createdAt later) = true ->
  getLatestToken (T := T) (storeToken now t rows) = getLatestToken rows.
Proof.
  intros Hin Hlt. unfold getLatestToken, storeToken, Tokens.insert.
  rewrite tokens_snoc.
  destruct (Tokens.orderByCreatedAtDescLimit1 rows) as [b|] eqn:Hb.
  - cbn [Tokens.createdAt].
    pose proof (tokens_orderBy_latest rows b Hb later Hin) as Hle.
    apply text_lt_true_le in Hlt.
    rewrite text_lt_le, (text_le_trans _ _ _ Hlt Hle). reflexivity.
  - apply tokens_orderBy_none in Hb. subst rows. destruct Hin.
Qed.

End TokenProperties.

(** ** [Clockify.getProjects] *)

Lemma nonempty_length {A} (l : list A) : l <> [] -> (0 <? List.length l)%nat = true.
Proof. destruct l; [congruence | reflexivity]. Qed.

(** The loop over pages that are all answered with projects. *)
Lemma getProjectsFrom_pages (server : nat -> Outcome (list Clockify.ClockifyProject))
    (pages : list (list Clockify.ClockifyProject)) :
  forall (fuel page : nat) (asked : list nat)
         (allProjects : list Clockify.ClockifyProject),
    (forall i data, nth_error pages i = Some data ->
                    server (page + i)%nat = Returns data /\ data <> []) ->
    (List.length pages < fuel)%nat ->
    Clockify.getProjectsFrom fuel server page asked allProjects
    = Clockify.getProjectsFrom (fuel - List.length pages) server
        (page + List.length pages)
        (asked ++ seq page (List.length pages))
        (allProjects ++ List.concat pages).
Proof.
  induction pages as [|data pages IH]; intros fuel page asked allProjects Hs Hf.
  - simpl. rewrite Nat.sub_0_r, Nat.add_0_r, !app_nil_r. reflexivity.
  - destruct fuel as [|fuel]; [simpl in Hf; lia|].
    destruct (Hs 0%nat data eq_refl) as [H0 Hne].
    rewrite Nat.add_0_r in H0. cbn [Clockify.getProjectsFrom].
    rewrite H0, (nonempty_length _ Hne).
    rewrite IH.
    + cbn [List.length seq List.concat]. rewrite <- !app_assoc. cbn [app].
      replace (S page + List.length pages)%nat
        with (page + S (List.length pages))%nat by lia.
      reflexivity.
    + intros i d Hi. replace (S page + i)%nat with (page + S i)%nat by lia.
      apply Hs. exact Hi.
    + simpl in Hf. lia.
Qed.

(** X11: when the server answers pages 1 to n with projects and page n+1
    with an empty list, [getProjects] asks for pages 1 to n+1 in this order
    and returns the projects of the n pages, in page order. *)
Theorem getProjects_collects_pages
    (server : nat -> Outcome (list Clockify.ClockifyProject))
    (pages : list (list Clockify.ClockifyProject)) (fuel : nat) :
  (forall i data, nth_error pages i = Some data ->
                  server (S i) = Returns data /\ data <> []) ->
  server (S (List.length pages)) = Returns [] ->
  (List.length pages < fuel)%nat ->
  Clockify.getProjects fuel server
  = Some (Clockify.mkFetched (seq 1 (S (List.length pages))) (List.concat pages)).
Proof.
  intros Hs Hlast Hf. unfold Clockify.getProjects.
  rewrite (getProjectsFrom_pages server pages fuel 1 [] [] Hs Hf).
  destruct (fuel - List.length pages)%nat as [|rest] eqn:Hrest; [lia|].
  cbn [Clockify.getProjectsFrom]. cbn [Nat.add]. rewrite Hlast.
  cbn [List.length Nat.ltb Nat.leb app].
  rewrite seq_S. reflexivity.
Qed.

(** X12: when a page request is rejected, [getProjects] returns the empty
    list: the projects of the pages answered before are dropped. *)
Theorem getProjects_drops_pages_on_failure
    (server : nat -> Outcome (list Clockify.ClockifyProject))
    (pages : list (list Clockify.ClockifyProject)) (fuel : nat) (e : Exn) :
  (forall i data, nth_error pages i = Some data ->
                  server (S i) = Returns data /\ data <> []) ->
  server (S (List.length pages)) = Throws e ->
  (List.length pages < fuel)%nat ->
  Clockify.getProjects fuel server
  = Some (Clockify.mkFetched (seq 1 (S (List.length pages))) []).
Proof.
  intros Hs Hlast Hf. unfold Clockify.getProjects.
  rewrite (getProjectsFrom_pages server pages fuel 1 [] [] Hs Hf).
  destruct (fuel - List.length pages)%nat as [|rest] eqn:Hrest; [lia|].
  cbn [Clockify.getProjectsFrom]. cbn [Nat.add]. rewrite Hlast.
  cbn [List.length Nat.ltb Nat.leb app].
  rewrite seq_S. reflexivity.
Qed.

(** X13: against a server that answers every page with projects,
    [getProjects] never returns, however long it runs. *)
Theorem getProjects_needs_an_empty_page
    (server : nat -> Outcome (list Clockify.ClockifyProject)) (fuel : nat) :
  (forall page, exists data, server page = Returns data /\ data <> []) ->
  Clockify.getProjects fuel server = None.
Proof.
  intros Hs. unfold Clockify.getProjects.
  generalize 1%nat as page, (@nil nat) as asked,
             (@nil Clockify.ClockifyProject) as allProjects.
  induction fuel as [|fuel IH]; intros page asked allProjects; [reflexivity|].
  cbn [Clockify.getProjectsFrom].
  destruct (Hs page) as [data [Hd Hne]].
  rewrite Hd, (nonempty_length _ Hne). apply IH.
Qed.

(** ** [Clockify.startTimer] *)

Section MonitorProperties.

Context {date : DateRuntime}.

(** X14: [startTimer] never throws; it returns an entry exactly when the
    POST was answered and the session was logged, and then the table has
    gained that one open session, with the project, the instant and the
    ticket of the call; in every other case it returns null and the table
    is as it was. *)
Theorem startTimer_logs_after_post (e : StartEnv) (projectId : string)
    (description jiraTicket : option string) (w : World) :
  match fst (complete (startTimer e projectId description jiraTicket w)) with
  | Returns (Some entry) =>
      st_post e = Returns entry /\
      exists finalDescription,
        db (snd (complete (startTimer e projectId description jiraTicket w)))
        = db w ++ [Db.mkSession (st_uuid e) projectId finalDescription
                                (toISOString (st_date e)) None 0 jiraTicket]
  | Returns None =>
      db (snd (complete (startTimer e projectId description jiraTicket w)))
      = db w
  | Throws _ => False
  end.
Proof.
  unfold startTimer. run.
  destruct (st_user e) as [u|]; cbn; [|reflexivity].
  destruct (truthyOpt jiraTicket) as [jt|]; cbn.
  - destruct (st_ticket e) as [ticket|ex]; cbn; [|reflexivity].
    destruct (st_post e) as [entry|ex]; cbn; [|reflexivity].
    unfold Db.logSessionStart. destruct (existsb _ _); cbn; [reflexivity|].
    split; [reflexivity | eexists; reflexivity].
  - destruct (st_post e) as [entry|ex]; cbn; [|reflexivity].
    unfold Db.logSessionStart. destruct (existsb _ _); cbn; [reflexivity|].
    split; [reflexivity | eexists; reflexivity].
Qed.

(** ** The monitor's pollers *)

Lemma started_app (l1 l2 : list Event) :
  started (l1 ++ l2) = started l1 ++ started l2.
Proof. apply flat_map_app. Qed.

Lemma reported_app (l1 l2 : list Event) :
  reported (l1 ++ l2) = reported l1 ++ reported l2.
Proof. apply flat_map_app. Qed.

Lemma truthyOpt_some (s : option string) (t : string) :
  truthyOpt s = Some t -> s = Some t /\ t <> EmptyString.
Proof.
  destruct s as [x|]; cbn; [|discriminate].
  unfold truthy. destruct (String.eqb_spec x EmptyString); cbn; [discriminate|].
  intros [= <-]. split; [reflexivity | assumption].
Qed.

Ltac quiet :=
  cbn; rewrite ?started_app, ?reported_app; cbn; rewrite ?app_nil_r;
  repeat (split; [reflexivity|]).

(** What one call of [stopTimerAndLog] does: it starts no timer and leaves
    the monitor's variables; it returns true and closes the latest open
    session exactly when a timer was reported, the table was not empty and
    the stop was answered; it reports to Jira at most once, and then the
    ticket of the latest session and at least a minute. *)
Lemma stopTimerAndLog_cases (e : StopEnv) (w : World) :
  lastResumeAt (snd (complete (stopTimerAndLog e w))) = lastResumeAt w /\
  isLocked (snd (complete (stopTimerAndLog e w))) = isLocked w /\
  lastIdle (snd (complete (stopTimerAndLog e w))) = lastIdle w /\
  started (trace (snd (complete (stopTimerAndLog e w)))) = started (trace w) /\
  ((fst (complete (stopTimerAndLog e w)) <> Returns true /\
    (sp_active e = None \/ sp_stopped e = None \/ db w = []) /\
    db (snd (complete (stopTimerAndLog e w))) = db w /\
    reported (trace (snd (complete (stopTimerAndLog e w)))) = reported (trace w)) \/
   (exists latest,
      fst (complete (stopTimerAndLog e w)) = Returns true /\
      sp_active e <> None /\ sp_stopped e <> None /\
      Db.getLatestSession (db w) = Returns latest /\
      db (snd (complete (stopTimerAndLog e w)))
      = Db.completeLatestSession (toISOString (sp_date e)) true (db w) /\
      (reported (trace (snd (complete (stopTimerAndLog e w)))) = reported (trace w) \/
       exists ticket secs,
         Db.jiraTicket latest = Some ticket /\ ticket <> EmptyString /\
         timeSpentSeconds (toISOString (sp_date e)) (Db.startedAt latest)
         = Some secs /\
         60 <= secs /\
         reported (trace (snd (complete (stopTimerAndLog e w))))
         = reported (trace w) ++ [(ticket, secs)]))).
Proof.
  unfold stopTimerAndLog. run.
  destruct (sp_active e) as [a|] eqn:Ha; cbn;
    [|quiet; left; quiet; split; [discriminate|]; split; [auto|]; quiet;
      reflexivity].
  destruct (Db.getLatestSession (db w)) as [latest|ex] eqn:Hl; cbn.
  2:{ quiet. left. split; [discriminate|]. split.
      - right. right. destruct (db w); [reflexivity|].
        unfold Db.getLatestSession in Hl.
        destruct (Db.orderByStartedAtDescLimit1 (s :: s0)) eqn:Ho;
          [discriminate|]. apply orderBy_none in Ho. discriminate.
      - quiet. reflexivity. }
  destruct (sp_stopped e) as [s|] eqn:Hs; cbn;
    [|quiet; left; split; [discriminate|]; split; [auto|]; quiet; reflexivity].
  destruct (truthyOpt (Db.jiraTicket latest)) as [jt|] eqn:Hj; cbn.
  2:{ quiet. right. exists latest. quiet.
      split; [discriminate|]. split; [discriminate|]. quiet. left. reflexivity. }
  apply truthyOpt_some in Hj. destruct Hj as [Hj Hne].
  destruct (timeSpentSeconds _ _) as [secs|] eqn:Ht; cbn.
  2:{ quiet. right. exists latest. quiet.
      split; [discriminate|]. split; [discriminate|]. quiet. left. reflexivity. }
  destruct (60 <=? secs) eqn:H60; cbn.
  2:{ quiet. right. exists latest. quiet.
      split; [discriminate|]. split; [discriminate|]. quiet. left. reflexivity. }
  apply Z.leb_le in H60.
  destruct (sp_jira e); cbn; quiet; right; exists latest; quiet;
    (split; [discriminate|]); (split; [discriminate|]); quiet;
    right; exists jt, secs; auto.
Qed.

Lemma eligible_inv (now1 : Z) (latest : Db.Session) :
  twoHours <= now1 ->
  eligible now1 latest = true ->
  Db.isAutoCompleted latest <> 0 /\
  (exists c cms, Db.completedAt latest = Some c /\ getTime c = Some cms /\
                 now1 - twoHours < cms) /\
  Db.projectId latest <> EmptyString.
Proof.
  unfold eligible, twoHours. intros Hnow H.
  apply andb_true_iff in H. destruct H as [H Hp].
  apply andb_true_iff in H. destruct H as [Ha Hc].
  split; [|split].
  - apply negb_true_iff, Z.eqb_neq in Ha. exact Ha.
  - destruct (truthyOpt (Db.completedAt latest)) as [text|] eqn:Ht.
    + apply truthyOpt_some in Ht. destruct Ht as [Ht _].
      destruct (getTime text) as [cms|] eqn:Hg; [|discriminate].
      exists text, cms. apply Z.ltb_lt in Hc. auto.
    + apply Z.ltb_lt in Hc. lia.
  - unfold truthy in Hp. apply negb_true_iff in Hp.
    intros Heq. rewrite Heq in Hp. discriminate.
Qed.

(** [safeRestartTimerIfNeeded] leaves the pollers' flags and sends nothing
    to Jira; it raises only on an empty table, and then nothing was done. *)
Lemma safeRestart_frame (e : ResumeEnv) (w : World) :
  isLocked (snd (complete (safeRestartTimerIfNeeded e w))) = isLocked w /\
  lastIdle (snd (complete (safeRestartTimerIfNeeded e w))) = lastIdle w /\
  reported (trace (snd (complete (safeRestartTimerIfNeeded e w))))
  = reported (trace w) /\
  (fst (complete (safeRestartTimerIfNeeded e w)) = Returns tt \/
   (db w = [] /\ RESUME_COOLDOWN_MS <= rs_now0 e - lastResumeAt w /\
    snd (complete (safeRestartTimerIfNeeded e w)) = w)).
Proof.
  unfold safeRestartTimerIfNeeded. run.
  destruct (rs_now0 e - lastResumeAt w <? RESUME_COOLDOWN_MS) eqn:Hc; cbn;
    [quiet; auto|].
  apply Z.ltb_ge in Hc.
  destruct (Db.getLatestSession (db w)) as [latest|ex] eqn:Hl; cbn.
  2:{ quiet. right. split; [|split; [exact Hc | reflexivity]].
      destruct (db w) as [|x rows]; [reflexivity|].
      unfold Db.getLatestSession in Hl.
      destruct (Db.orderByStartedAtDescLimit1 (x :: rows)) eqn:Ho;
        [discriminate|]. apply orderBy_none in Ho. discriminate. }
  destruct (rs_active e); cbn; [quiet; auto|].
  destruct (eligible (rs_now1 e) latest); cbn; [|quiet; auto].
  unfold startTimer. run.
  destruct (st_user (rs_start e)); cbn; [|quiet; auto].
  destruct (st_post (rs_start e)); cbn; [|quiet; auto].
  destruct (Db.logSessionStart _ _ _ _ _ _); cbn; quiet; auto.
Qed.

(** The table after [safeRestartTimerIfNeeded]: as it was, or with one
    more row. *)
Lemma safeRestart_db (e : ResumeEnv) (w : World) :
  db (snd (complete (safeRestartTimerIfNeeded e w))) = db w \/
  exists r, db (snd (complete (safeRestartTimerIfNeeded e w))) = db w ++ [r].
Proof.
  unfold safeRestartTimerIfNeeded. run.
  destruct (rs_now0 e - lastResumeAt w <? RESUME_COOLDOWN_MS); cbn; [auto|].
  destruct (Db.getLatestSession (db w)) as [latest|ex]; cbn; [|auto].
  destruct (rs_active e); cbn; [auto|].
  destruct (eligible (rs_now1 e) latest); cbn; [|auto].
  unfold startTimer. run.
  destruct (st_user (rs_start e)); cbn; [|auto].
  destruct (st_post (rs_start e)); cbn; [|auto].
  unfold Db.logSessionStart. destruct (existsb _ _); cbn; [auto|].
  right. eexists. reflexivity.
Qed.

(** The timers [safeRestartTimerIfNeeded] starts: none, or one for the
    latest session, which is then eligible, outside the cooldown, with no
    timer reported. *)
Lemma safeRestart_started (e : ResumeEnv) (w : World) :
  (started (trace (snd (complete (safeRestartTimerIfNeeded e w))))
   = started (trace w) /\
   db (snd (complete (safeRestartTimerIfNeeded e w))) = db w) \/
  exists latest,
    RESUME_COOLDOWN_MS <= rs_now0 e - lastResumeAt w /\
    rs_active e = None /\
    Db.getLatestSession (db w) = Returns latest /\
    eligible (rs_now1 e) latest = true /\
    started (trace (snd (complete (safeRestartTimerIfNeeded e w))))
    = started (trace w)
      ++ [(Db.projectId latest, Db.description latest, st_date (rs_start e))].
Proof.
  unfold safeRestartTimerIfNeeded. run.
  destruct (rs_now0 e - lastResumeAt w <? RESUME_COOLDOWN_MS) eqn:Hc; cbn;
    [auto|].
  apply Z.ltb_ge in Hc.
  destruct (Db.getLatestSession (db w)) as [latest|ex] eqn:Hl; cbn; [|auto].
  destruct (rs_active e) eqn:Ha; cbn; [left; quiet; reflexivity|].
  destruct (eligible (rs_now1 e) latest) eqn:He; cbn;
    [|left; quiet; reflexivity].
  unfold startTimer. run.
  destruct (st_user (rs_start e)); cbn; [|left; quiet; reflexivity].
  destruct (st_post (rs_start e)); cbn.
  - destruct (Db.logSessionStart _ _ _ _ _ _); cbn;
      right; exists latest; (split; [exact Hc|]); quiet;
      (split; [exact He|]); reflexivity.
  - right. exists latest. split; [exact Hc|]. quiet.
    split; [exact He|]. reflexivity.
Qed.

#[local] Arguments safeRestartTimerIfNeeded : simpl never.
#[local] Arguments stopTimerAndLog : simpl never.

(** A poll run to its end, in terms of the one function it calls. *)
Lemma runTick_unfold (t : Tick) (w : World) :
  complete (runTick t w)
  = match t with
    | LockPoll (Returns state) stop resume =>
        if String.eqb state SESSION_SCREEN_IS_LOCKED && negb (isLocked w)
        then (Returns tt,
              snd (complete (stopTimerAndLog stop (enteringStop t w))))
        else if negb (String.eqb state SESSION_SCREEN_IS_LOCKED) && isLocked w
        then match complete (safeRestartTimerIfNeeded resume w) with
             | (Returns _, w1) =>
                 (Returns tt,
                  mkWorld (db w1) (lastResumeAt w1) false (lastIdle w1) (trace w1))
             | (Throws _, w1) => (Returns tt, w1)
             end
        else (Returns tt, w)
    | IdlePoll (Returns idleTime) stop resume =>
        if Qle_bool IDLE_THRESHOLD_SECONDS idleTime
        then match complete (stopTimerAndLog stop w) with
             | (Returns true, w1) =>
                 (Returns tt,
                  mkWorld (db w1) (lastResumeAt w1) (isLocked w1) true (trace w1))
             | (_, w1) => (Returns tt, w1)
             end
        else if lastIdle w
        then match complete (safeRestartTimerIfNeeded resume w) with
             | (Returns _, w1) =>
                 (Returns tt,
                  mkWorld (db w1) (lastResumeAt w1) (isLocked w1) false (trace w1))
             | (Throws _, w1) => (Returns tt, w1)
             end
        else (Returns tt,
              mkWorld (db w) (lastResumeAt w) (isLocked w) false (trace w))
    | _ => (Returns tt, w)
    end.
Proof.
  destruct t as [[state|ex] stop r|[idle|ex] stop r];
    unfold runTick, pollLock, pollIdle, enteringStop, SESSION_SCREEN_IS_LOCKED;
    run; try reflexivity.
  - destruct (String.eqb state "SESSION_SCREEN_IS_LOCKED");
      destruct (isLocked w); cbn; try reflexivity;
      rewrite complete_orCatch, complete_andThen.
    + destruct (complete (stopTimerAndLog stop _)) as [[b|ex] w1]; reflexivity.
    + destruct (complete (safeRestartTimerIfNeeded r w)) as [[u|ex] w1];
        reflexivity.
  - destruct (Qle_bool IDLE_THRESHOLD_SECONDS idle); cbn.
    + rewrite complete_orCatch, complete_andThen.
      destruct (complete (stopTimerAndLog stop w)) as [[[|]|ex] w1]; reflexivity.
    + destruct (lastIdle w); cbn; [|reflexivity].
      rewrite complete_orCatch, complete_andThen.
      destruct (complete (safeRestartTimerIfNeeded r w)) as [[u|ex] w1];
        reflexivity.
Qed.

(** X15: a poll never lets an exception escape, whatever fails inside it;
    and a poll whose reading of the screen state or of the idle time
    raises changes nothing. *)
Theorem poll_never_throws (t : Tick) (w : World) :
  match t with
  | LockPoll (Throws _) _ _ | IdlePoll (Throws _) _ _ =>
      complete (runTick t w) = (Returns tt, w)
  | _ => fst (complete (runTick t w)) = Returns tt
  end.
Proof.
  rewrite runTick_unfold.
  destruct t as [[state|ex] stop r|[idle|ex] stop r]; try reflexivity.
  - destruct (_ && _); [reflexivity|].
    destruct (_ && _); [|reflexivity].
    destruct (complete _) as [[u|ex] w1]; reflexivity.
  - destruct (Qle_bool _ _).
    + destruct (complete _) as [[[|]|ex] w1]; reflexivity.
    + destruct (lastIdle w); [|reflexivity].
      destruct (complete _) as [[u|ex] w1]; reflexivity.
Qed.

(** The timers a poll starts: none, and then the table is as it was or
    the latest open session was closed as auto-completed; or one for the
    latest session, and then the poll observed the return of activity
    outside the cooldown, no timer was reported and the session is
    eligible. *)
Lemma runTick_started (t : Tick) (w : World) :
  (started (trace (snd (complete (runTick t w)))) = started (trace w) /\
   (db (snd (complete (runTick t w))) = db w \/
    exists c, db (snd (complete (runTick t w)))
              = Db.completeLatestSession c true (db w))) \/
  exists latest,
    turnsActive t w = Some (resumeEnvOf t) /\
    RESUME_COOLDOWN_MS <= rs_now0 (resumeEnvOf t) - lastResumeAt w /\
    rs_active (resumeEnvOf t) = None /\
    Db.getLatestSession (db w) = Returns latest /\
    eligible (rs_now1 (resumeEnvOf t)) latest = true /\
    started (trace (snd (complete (runTick t w))))
    = started (trace w)
      ++ [(Db.projectId latest, Db.description latest,
           st_date (rs_start (resumeEnvOf t)))].
Proof.
  rewrite runTick_unfold.
  assert (Hstop : forall stop w0 o w1,
    db w0 = db w -> trace w0 = trace w ->
    complete (stopTimerAndLog stop w0) = (o, w1) ->
    started (trace w1) = started (trace w) /\
    (db w1 = db w \/ exists c, db w1 = Db.completeLatestSession c true (db w))).
  { intros stop w0 o w1 Hdb Htr Hrun.
    destruct (stopTimerAndLog_cases stop w0)
      as [_ [_ [_ [Hst [[_ [_ [H _]]]|[latest [_ [_ [_ [_ [H _]]]]]]]]]]];
      rewrite Hrun in Hst, H; cbn [snd] in Hst, H; rewrite Htr in Hst;
      rewrite Hdb in H; (split; [exact Hst|]); eauto. }
  assert (Hresume :
    forall w1 o, complete (safeRestartTimerIfNeeded (resumeEnvOf t) w) = (o, w1) ->
    turnsActive t w = Some (resumeEnvOf t) ->
    (started (trace w1) = started (trace w) /\
     (db w1 = db w \/ exists c, db w1 = Db.completeLatestSession c true (db w))) \/
    exists latest,
      turnsActive t w = Some (resumeEnvOf t) /\
      RESUME_COOLDOWN_MS <= rs_now0 (resumeEnvOf t) - lastResumeAt w /\
      rs_active (resumeEnvOf t) = None /\
      Db.getLatestSession (db w) = Returns latest /\
      eligible (rs_now1 (resumeEnvOf t)) latest = true /\
      started (trace w1)
      = started (trace w)
        ++ [(Db.projectId latest, Db.description latest,
             st_date (rs_start (resumeEnvOf t)))]).
  { intros w1 o Hrun Hact.
    destruct (safeRestart_started (resumeEnvOf t) w)
      as [[H Hdb]|[latest [Hc [Ha [Hl [He H]]]]]];
      rewrite Hrun in *; cbn [snd] in *; [left; auto|].
    right. exists latest. repeat (split; [assumption|]). exact H. }
  destruct t as [[state|ex] stop r|[idle|ex] stop r]; cbn [resumeEnvOf] in *;
    try (left; split; [reflexivity | left; reflexivity]).
  - cbn [turnsActive] in Hresume |- *.
    destruct (String.eqb state SESSION_SCREEN_IS_LOCKED);
      destruct (isLocked w) eqn:Hl; cbn [andb negb] in *;
      try (left; split; [reflexivity | left; reflexivity]).
    + left. cbn [enteringStop snd].
      destruct (complete (stopTimerAndLog stop
                  (mkWorld (db w) (lastResumeAt w) true (lastIdle w) (trace w))))
        as [o w1] eqn:Hrun.
      apply (Hstop stop
               (mkWorld (db w) (lastResumeAt w) true (lastIdle w) (trace w))
               o w1 eq_refl eq_refl Hrun).
    + destruct (complete (safeRestartTimerIfNeeded r w)) as [[u|ex] w1] eqn:Hrun;
        cbn [snd trace db]; apply (Hresume w1 _ eq_refl eq_refl).
  - cbn [turnsActive] in Hresume |- *.
    destruct (Qle_bool IDLE_THRESHOLD_SECONDS idle); cbn [andb negb] in *.
    + left. destruct (complete (stopTimerAndLog stop w)) as [o w1] eqn:Hrun.
      pose proof (Hstop stop w o w1 eq_refl eq_refl Hrun) as H.
      destruct o as [[|]|ex]; cbn [snd trace db]; exact H.
    + destruct (lastIdle w); [|left; split; [reflexivity | left; reflexivity]].
      destruct (complete (safeRestartTimerIfNeeded r w)) as [[u|ex] w1] eqn:Hrun;
        cbn [snd trace db]; apply (Hresume w1 _ eq_refl eq_refl).
Qed.

(** X16: with the clock past 02:00 on 1 January 1970, a poll starts at
    most one remote timer, and when it starts one, it is a poll that
    observed the return of activity outside the cooldown, Clockify reported
    no running timer, and the latest session is closed, auto-completed,
    completed less than two hours before and has a project; the timer is
    started for that session's project and description. *)
Theorem poll_starts_only_eligible (t : Tick) (w : World) :
  twoHours <= rs_now1 (resumeEnvOf t) ->
  started (trace (snd (complete (runTick t w)))) = started (trace w) \/
  exists latest c cms,
    turnsActive t w = Some (resumeEnvOf t) /\
    RESUME_COOLDOWN_MS <= rs_now0 (resumeEnvOf t) - lastResumeAt w /\
    rs_active (resumeEnvOf t) = None /\
    Db.getLatestSession (db w) = Returns latest /\
    Db.isAutoCompleted latest <> 0 /\
    Db.completedAt latest = Some c /\
    getTime c = Some cms /\
    rs_now1 (resumeEnvOf t) - twoHours < cms /\
    Db.projectId latest <> EmptyString /\
    started (trace (snd (complete (runTick t w))))
    = started (trace w)
      ++ [(Db.projectId latest, Db.description latest,
           st_date (rs_start (resumeEnvOf t)))].
Proof.
  intros Hnow.
  destruct (runTick_started t w)
    as [[H _]|[latest [Hact [Hc [Ha [Hl [He H]]]]]]]; [left; exact H|].
  destruct (eligible_inv _ _ Hnow He) as [Hauto [[c [cms [Hcm [Hg Hf]]]] Hp]].
  right. exists latest, c, cms. repeat (split; [assumption|]). exact H.
Qed.

Lemma runTick_db (t : Tick) (w : World) :
  db (snd (complete (runTick t w))) = db w \/
  (exists c, db (snd (complete (runTick t w)))
             = Db.completeLatestSession c true (db w)) \/
  exists r, db (snd (complete (runTick t w))) = db w ++ [r].
Proof.
  rewrite runTick_unfold.
  assert (Hstop : forall stop w0, db w0 = db w ->
    db (snd (complete (stopTimerAndLog stop w0))) = db w \/
    (exists c, db (snd (complete (stopTimerAndLog stop w0)))
               = Db.completeLatestSession c true (db w)) \/
    exists r, db (snd (complete (stopTimerAndLog stop w0))) = db w ++ [r]).
  { intros stop w0 H0.
    destruct (stopTimerAndLog_cases stop w0)
      as [_ [_ [_ [_ [[_ [_ [H _]]]|[latest [_ [_ [_ [_ [H _]]]]]]]]]]];
      rewrite H0 in H; eauto. }
  assert (Hresume : forall r,
    db (snd (complete (safeRestartTimerIfNeeded r w))) = db w \/
    (exists c, db (snd (complete (safeRestartTimerIfNeeded r w)))
               = Db.completeLatestSession c true (db w)) \/
    exists x, db (snd (complete (safeRestartTimerIfNeeded r w))) = db w ++ [x]).
  { intros r. destruct (safeRestart_db r w) as [H|H]; auto. }
  destruct t as [[state|ex] stop r|[idle|ex] stop r]; try (left; reflexivity).
  - destruct (_ && _); [apply Hstop; reflexivity|].
    destruct (_ && _); [|left; reflexivity].
    specialize (Hresume r).
    destruct (complete (safeRestartTimerIfNeeded r w)) as [[u|ex] w1];
      exact Hresume.
  - destruct (Qle_bool _ _).
    + specialize (Hstop stop w eq_refl).
      destruct (complete (stopTimerAndLog stop w)) as [[[|]|ex] w1];
        exact Hstop.
    + destruct (lastIdle w); [|left; reflexivity].
      specialize (Hresume r).
      destruct (complete (safeRestartTimerIfNeeded r w)) as [[u|ex] w1];
        exact Hresume.
Qed.

(** X17: the monitor never deletes a session and never changes the id,
    project, description, start or ticket of one: after any run of polls
    the table holds the sessions it held, in their order, followed by at
    most one new session per poll. *)
Theorem monitor_keeps_sessions (ts : list Tick) (w : World) :
  exists added,
    map identity (db (runTicks ts w)) = map identity (db w) ++ added /\
    (List.length added <= List.length ts)%nat.
Proof.
  revert w. induction ts as [|t ts IH]; intros w; cbn [runTicks].
  - exists []. rewrite app_nil_r. split; [reflexivity | cbn; lia].
  - destruct (IH (snd (complete (runTick t w)))) as [added [Hadd Hlen]].
    destruct (runTick_db t w) as [H|[[c H]|[r H]]]; rewrite H in Hadd.
    + exists added. split; [exact Hadd | cbn; lia].
    + rewrite completeLatestSession_identity in Hadd.
      exists added. split; [exact Hadd | cbn; lia].
    + rewrite map_app, <- app_assoc in Hadd.
      exists (map identity [r] ++ added). split; [exact Hadd|].
      rewrite length_app. cbn. lia.
Qed.

(** X18: on a table that is not empty, the lock poller's flag after a poll
    is what the poll read: set when the screen was reported locked, whether
    or not a timer was stopped, and clear otherwise, whether or not a timer
    was resumed.  The poll leaves the idle poller's flag. *)
Theorem lock_flag_follows_screen (state : string) (stop : StopEnv)
    (resume : ResumeEnv) (w : World) :
  db w <> [] ->
  isLocked (snd (complete (runTick (LockPoll (Returns state) stop resume) w)))
  = String.eqb state SESSION_SCREEN_IS_LOCKED /\
  lastIdle (snd (complete (runTick (LockPoll (Returns state) stop resume) w)))
  = lastIdle w.
Proof.
  intros Hne. rewrite runTick_unfold.
  destruct (String.eqb state SESSION_SCREEN_IS_LOCKED);
    destruct (isLocked w) eqn:Hl; cbn [andb negb enteringStop];
    try (split; [exact Hl | reflexivity]).
  - destruct (stopTimerAndLog_cases stop
                (mkWorld (db w) (lastResumeAt w) true (lastIdle w) (trace w)))
      as [_ [H1 [H2 _]]].
    cbn [snd]. rewrite H1, H2. split; reflexivity.
  - destruct (safeRestart_frame resume w) as [_ [H2 [_ [Hr|[Hdb _]]]]];
      [|contradiction].
    destruct (complete (safeRestartTimerIfNeeded resume w)) as [[u|ex] w1];
      cbn in *; [|discriminate].
    split; [reflexivity | exact H2].
Qed.

(** X19: on a table that is not empty, the idle poller's flag is set after
    a poll exactly when the poll read an idle time at or over the threshold
    and either the flag was set already or this poll stopped a timer
    (Clockify reported one and answered the stop).  An idle period in which
    no timer was stopped is therefore not followed by a resume. *)
Theorem idle_flag_needs_a_stop (idleTime : Q) (stop : StopEnv)
    (resume : ResumeEnv) (w : World) :
  db w <> [] ->
  lastIdle (snd (complete (runTick (IdlePoll (Returns idleTime) stop resume) w)))
  = true <->
  Qle_bool IDLE_THRESHOLD_SECONDS idleTime = true /\
  (lastIdle w = true \/ (sp_active stop <> None /\ sp_stopped stop <> None)).
Proof.
  intros Hne. rewrite runTick_unfold.
  destruct (Qle_bool IDLE_THRESHOLD_SECONDS idleTime).
  - destruct (stopTimerAndLog_cases stop w)
      as [_ [_ [H2 [_ [[Hr [Hwhy _]]|[latest [Hr [Ha [Hs _]]]]]]]]].
    + assert (Hsame :
        lastIdle (snd (let (o, w1) := complete (stopTimerAndLog stop w) in
                       match o with
                       | Returns true =>
                           (Returns tt,
                            mkWorld (db w1) (lastResumeAt w1) (isLocked w1)
                                    true (trace w1))
                       | _ => (Returns tt, w1)
                       end))
        = lastIdle w).
      { destruct (complete (stopTimerAndLog stop w)) as [[[|]|ex] w1];
          cbn in *; [elim Hr; reflexivity | exact H2 | exact H2]. }
      rewrite Hsame. split.
      * intros H. split; [reflexivity | left; exact H].
      * intros [_ [H|[Ha Hs]]]; [exact H|].
        destruct Hwhy as [H|[H|H]]; contradiction.
    + destruct (complete (stopTimerAndLog stop w)) as [[b|ex] w1];
        cbn in Hr; [|discriminate]. injection Hr as ->. cbn.
      split; [intros _; split; [reflexivity | right; split; assumption]
             | reflexivity].
  - destruct (lastIdle w) eqn:Hl.
    + destruct (safeRestart_frame resume w) as [_ [_ [_ [Hr|[Hdb _]]]]];
        [|contradiction].
      destruct (complete (safeRestartTimerIfNeeded resume w)) as [[u|ex] w1];
        cbn in *; [|discriminate].
      split; [discriminate | intros [H _]; discriminate].
    + cbn. split; [discriminate | intros [H _]; discriminate].
Qed.

Lemma safeRestart_empty_table (e : ResumeEnv) (w : World) :
  db w = [] ->
  RESUME_COOLDOWN_MS <= rs_now0 e - lastResumeAt w ->
  complete (safeRestartTimerIfNeeded e w) = (Throws ZodError, w).
Proof.
  intros Hdb Hc. unfold safeRestartTimerIfNeeded. run.
  apply Z.ltb_ge in Hc. rewrite Hc. cbn. rewrite Hdb. reflexivity.
Qed.

(** X20: on an empty table, a poll that observes the return of activity
    outside the cooldown changes nothing, not even its poller's flag: the
    exception of [getLatestSession] leaves the poll before the flag is
    cleared, so the next poll observes the return of activity again. *)
Theorem resume_on_empty_table_is_retried (t : Tick) (w : World)
    (resume : ResumeEnv) :
  turnsActive t w = Some resume ->
  db w = [] ->
  RESUME_COOLDOWN_MS <= rs_now0 resume - lastResumeAt w ->
  complete (runTick t w) = (Returns tt, w) /\
  turnsActive t (snd (complete (runTick t w))) = Some resume.
Proof.
  intros Hact Hdb Hc.
  assert (H : complete (runTick t w) = (Returns tt, w)).
  { rewrite runTick_unfold.
    destruct t as [[state|ex] stop r|[idle|ex] stop r]; cbn [turnsActive] in Hact;
      try discriminate.
    - destruct (String.eqb state SESSION_SCREEN_IS_LOCKED);
        destruct (isLocked w); cbn [andb negb] in *; try discriminate.
      injection Hact as ->.
      rewrite (safeRestart_empty_table resume w Hdb Hc). reflexivity.
    - destruct (Qle_bool IDLE_THRESHOLD_SECONDS idle);
        destruct (lastIdle w); cbn [andb negb] in *; try discriminate.
      injection Hact as ->.
      rewrite (safeRestart_empty_table resume w Hdb Hc). reflexivity. }
  rewrite H. split; [reflexivity | exact Hact].
Qed.

(** X21: a resume that fails at Clockify (the user lookup or the POST is
    not answered) logs no session, yet the cooldown starts: [lastResumeAt]
    takes the clock reading made after the attempt. *)
Theorem failed_resume_starts_cooldown (t : Tick) (w : World)
    (resume : ResumeEnv) (latest : Db.Session) :
  turnsActive t w = Some resume ->
  RESUME_COOLDOWN_MS <= rs_now0 resume - lastResumeAt w ->
  Db.getLatestSession (db w) = Returns latest ->
  rs_active resume = None ->
  eligible (rs_now1 resume) latest = true ->
  st_user (rs_start resume) = None \/
  (exists ex, st_post (rs_start resume) = Throws ex) ->
  db (snd (complete (runTick t w))) = db w /\
  lastResumeAt (snd (complete (runTick t w))) = rs_now2 resume.
Proof.
  intros Hact Hc Hl Ha He Hfail.
  destruct (runTick_turnsActive t w resume Hact) as [_ [Hdb [_ Hlast]]].
  rewrite Hdb, Hlast. clear Hdb Hlast.
  unfold safeRestartTimerIfNeeded. run.
  apply Z.ltb_ge in Hc. rewrite Hc. cbn. rewrite Hl. cbn. rewrite Ha. cbn.
  rewrite He. cbn. unfold startTimer. run.
  destruct Hfail as [Hu|[ex Hp]].
  - rewrite Hu. cbn. split; reflexivity.
  - destruct (st_user (rs_start resume)); cbn; [|split; reflexivity].
    rewrite Hp. cbn. split; reflexivity.
Qed.

(** X22: a poll sends Jira at most one report of time spent, and only a
    poll that observed inactivity and stopped the remote timer: the report
    carries the ticket of the latest session, which is not empty, and the
    seconds from that session's start to the stop, rounded, which are at
    least 60. *)
Theorem monitor_reports_to_jira (t : Tick) (w : World) :
  reported (trace (snd (complete (runTick t w)))) = reported (trace w) \/
  exists stop latest ticket secs,
    turnsInactive t w = Some stop /\
    sp_active stop <> None /\ sp_stopped stop <> None /\
    Db.getLatestSession (db w) = Returns latest /\
    Db.jiraTicket latest = Some ticket /\ ticket <> EmptyString /\
    timeSpentSeconds (toISOString (sp_date stop)) (Db.startedAt latest)
    = Some secs /\
    60 <= secs /\
    reported (trace (snd (complete (runTick t w))))
    = reported (trace w) ++ [(ticket, secs)].
Proof.
  rewrite runTick_unfold.
  assert (Hstop : forall stop w0 o w1,
    db w0 = db w -> trace w0 = trace w ->
    complete (stopTimerAndLog stop w0) = (o, w1) ->
    turnsInactive t w = Some stop ->
    reported (trace w1) = reported (trace w) \/
    exists stop latest ticket secs,
      turnsInactive t w = Some stop /\
      sp_active stop <> None /\ sp_stopped stop <> None /\
      Db.getLatestSession (db w) = Returns latest /\
      Db.jiraTicket latest = Some ticket /\ ticket <> EmptyString /\
      timeSpentSeconds (toISOString (sp_date stop)) (Db.startedAt latest)
      = Some secs /\
      60 <= secs /\
      reported (trace w1) = reported (trace w) ++ [(ticket, secs)]).
  { intros stop w0 o w1 Hdb Htr Hrun Hin.
    destruct (stopTimerAndLog_cases stop w0)
      as [_ [_ [_ [_ [[_ [_ [_ H]]]|[latest [_ [Ha [Hs [Hl [_ H]]]]]]]]]]];
      rewrite Hrun in H; cbn [snd] in H; rewrite Htr in H; [left; exact H|].
    destruct H as [H|[ticket [secs [Hj [Hne [Ht [H60 H]]]]]]]; [left; exact H|].
    rewrite Hdb in Hl. right. exists stop, latest, ticket, secs.
    repeat (split; [assumption|]). exact H. }
  assert (Hresume : forall r o w1,
    complete (safeRestartTimerIfNeeded r w) = (o, w1) ->
    reported (trace w1) = reported (trace w)).
  { intros r o w1 Hrun.
    destruct (safeRestart_frame r w) as [_ [_ [H _]]].
    rewrite Hrun in H. exact H. }
  destruct t as [[state|ex] stop r|[idle|ex] stop r]; try (left; reflexivity);
    cbn [turnsInactive] in Hstop |- *.
  - destruct (String.eqb state SESSION_SCREEN_IS_LOCKED);
      destruct (isLocked w) eqn:Hlk; cbn [andb negb enteringStop] in *;
      try (left; reflexivity).
    + destruct (complete (stopTimerAndLog stop _)) as [o w1] eqn:Hrun.
      cbn [snd].
      apply (Hstop stop
               (mkWorld (db w) (lastResumeAt w) true (lastIdle w) (trace w))
               o w1 eq_refl eq_refl Hrun eq_refl).
    + destruct (complete (safeRestartTimerIfNeeded r w)) as [[u|ex] w1] eqn:Hrun;
        left; cbn [snd trace]; apply (Hresume r _ _ Hrun).
  - destruct (Qle_bool IDLE_THRESHOLD_SECONDS idle).
    + destruct (complete (stopTimerAndLog stop w)) as [o w1] eqn:Hrun.
      specialize (Hstop stop w o w1 eq_refl eq_refl Hrun eq_refl).
      destruct o as [[|]|ex]; cbn [snd trace]; exact Hstop.
    + destruct (lastIdle w); [|left; reflexivity].
      destruct (complete (safeRestartTimerIfNeeded r w)) as [[u|ex] w1] eqn:Hrun;
        left; cbn [snd trace]; apply (Hresume r _ _ Hrun).
Qed.

(** X23: a return of activity observed inside the cooldown is dropped, not
    deferred: the poll changes neither the table, nor the requests, nor
    [lastResumeAt], and it clears its poller's flag, so later polls no
    longer observe the return of activity. *)
Theorem blocked_resume_is_dropped (t : Tick) (w : World) (resume : ResumeEnv) :
  turnsActive t w = Some resume ->
  rs_now0 resume - lastResumeAt w < RESUME_COOLDOWN_MS ->
  db (snd (complete (runTick t w))) = db w /\
  trace (snd (complete (runTick t w))) = trace w /\
  lastResumeAt (snd (complete (runTick t w))) = lastResumeAt w /\
  turnsActive t (snd (complete (runTick t w))) = None.
Proof.
  intros Hact Hc. rewrite runTick_unfold.
  destruct t as [[state|ex] stop r|[idle|ex] stop r]; cbn [turnsActive] in *;
    try discriminate.
  - destruct (String.eqb state SESSION_SCREEN_IS_LOCKED);
      destruct (isLocked w); cbn [andb negb] in *; try discriminate.
    injection Hact as ->.
    rewrite (safeRestart_in_cooldown resume w Hc). cbn.
    repeat (split; [reflexivity|]). reflexivity.
  - destruct (Qle_bool IDLE_THRESHOLD_SECONDS idle);
      destruct (lastIdle w); cbn [andb negb] in *; try discriminate.
    injection Hact as ->.
    rewrite (safeRestart_in_cooldown resume w Hc). cbn.
    repeat (split; [reflexivity|]). reflexivity.
Qed.

End MonitorProperties.

(** ** The commands [stop] and [start] *)

Section CommandProperties.

Context {date : DateRuntime}.

Ltac quiet :=
  cbn; rewrite ?started_app, ?reported_app; cbn; rewrite ?app_nil_r;
  repeat (split; [reflexivity|]).

(** What the [stop] command does, by what it is answered. *)
Lemma stopCommand_cases (e : StopCommandEnv) (w : World) :
  started (trace (snd (complete (stopCommand e w)))) = started (trace w) /\
  ((db (snd (complete (stopCommand e w))) = db w /\
    reported (trace (snd (complete (stopCommand e w)))) = reported (trace w) /\
    (sc_user e = None \/ sc_stopped e = None \/ db w = [])) \/
   exists latest,
     sc_user e <> None /\ sc_stopped e <> None /\
     Db.getLatestSession (db w) = Returns latest /\
     fst (complete (stopCommand e w)) = Returns Done /\
     db (snd (complete (stopCommand e w)))
     = Db.completeLatestSession (toISOString (sc_date e)) false (db w) /\
     (reported (trace (snd (complete (stopCommand e w)))) = reported (trace w) \/
      exists ticket secs,
        Db.jiraTicket latest = Some ticket /\ ticket <> EmptyString /\
        timeSpentSeconds (toISOString (sc_date e)) (Db.startedAt latest)
        = Some secs /\
        60 <= secs /\
        reported (trace (snd (complete (stopCommand e w))))
        = reported (trace w) ++ [(ticket, secs)])).
Proof.
  unfold stopCommand, getWorkspaceAndUser. run.
  destruct (sc_user e) as [u|] eqn:Hu; cbn; [|quiet; left; quiet; auto].
  destruct (Db.getLatestSession (db w)) as [latest|ex] eqn:Hl; cbn.
  2:{ quiet. left. quiet. right. right.
      destruct (db w) as [|x rows]; [reflexivity|].
      unfold Db.getLatestSession in Hl.
      destruct (Db.orderByStartedAtDescLimit1 (x :: rows)) eqn:Ho;
        [discriminate|]. apply orderBy_none in Ho. discriminate. }
  destruct (sc_stopped e) as [s|] eqn:Hs; cbn; [|quiet; left; quiet; auto].
  destruct (truthyOpt (Db.jiraTicket latest)) as [jt|] eqn:Hj; cbn.
  2:{ quiet. right. exists latest.
      split; [discriminate|]. split; [discriminate|]. quiet. left. reflexivity. }
  apply truthyOpt_some in Hj. destruct Hj as [Hj Hne].
  destruct (timeSpentSeconds _ _) as [secs|] eqn:Ht; cbn.
  2:{ quiet. right. exists latest.
      split; [discriminate|]. split; [discriminate|]. quiet. left. reflexivity. }
  destruct (60 <=? secs) eqn:H60; cbn.
  2:{ quiet. right. exists latest.
      split; [discriminate|]. split; [discriminate|]. quiet. left. reflexivity. }
  apply Z.leb_le in H60.
  destruct (sc_jira e); cbn; quiet; right; exists latest;
    (split; [discriminate|]); (split; [discriminate|]); quiet;
    right; exists jt, secs; auto.
Qed.

(** A latest session that was closed by hand stays so under a poll, and
    the poll starts no timer. *)
Lemma runTick_after_manual_stop (t : Tick) (w : World) (latest : Db.Session) :
  NoDup (map Db.id (db w)) ->
  Db.getLatestSession (db w) = Returns latest ->
  Db.completedAt latest <> None ->
  Db.isAutoCompleted latest = 0 ->
  started (trace (snd (complete (runTick t w)))) = started (trace w) /\
  NoDup (map Db.id (db (snd (complete (runTick t w))))) /\
  Db.getLatestSession (db (snd (complete (runTick t w)))) = Returns latest.
Proof.
  intros Hnd Hl Hclosed Hmanual.
  destruct (runTick_started t w)
    as [[Hst [Hdb|[c Hdb]]]|[r [_ [_ [_ [Hr [He _]]]]]]].
  - rewrite Hdb. auto.
  - rewrite Hdb, completeLatestSession_ids.
    split; [exact Hst|]. split; [exact Hnd|].
    apply completeLatestSession_latest_closed; assumption.
  - rewrite Hl in Hr. injection Hr as <-.
    unfold eligible in He. rewrite Hmanual in He. discriminate.
Qed.

(** X24: a session closed by the [stop] command is not resumed by the
    monitor.  When the latest session is open and Clockify answers the user
    lookup and the stop, the command closes that session with
    [isAutoCompleted] 0 and the instant read after the stop, it stays the
    latest session, and no run of polls afterwards, whatever they observe,
    starts a timer. *)
Theorem manual_stop_is_not_resumed (e : StopCommandEnv) (w : World)
    (latest : Db.Session) :
  NoDup (map Db.id (db w)) ->
  sc_user e <> None ->
  sc_stopped e <> None ->
  Db.getLatestSession (db w) = Returns latest ->
  Db.completedAt latest = None ->
  fst (complete (stopCommand e w)) = Returns Done /\
  Db.getLatestSession (db (snd (complete (stopCommand e w))))
  = Returns (Db.setCompleted (toISOString (sc_date e)) false latest) /\
  forall ts,
    started (trace (runTicks ts (snd (complete (stopCommand e w)))))
    = started (trace (snd (complete (stopCommand e w)))) /\
    Db.getLatestSession (db (runTicks ts (snd (complete (stopCommand e w)))))
    = Returns (Db.setCompleted (toISOString (sc_date e)) false latest).
Proof.
  intros Hnd Hu Hs Hl Hopen.
  destruct (stopCommand_cases e w)
    as [_ [[_ [_ [H|[H|H]]]]|[latest' [_ [_ [Hl' [Hr [Hdb _]]]]]]]];
    try contradiction.
  - rewrite H in Hl. discriminate.
  - assert (Hlatest :
      Db.getLatestSession (db (snd (complete (stopCommand e w))))
      = Returns (Db.setCompleted (toISOString (sc_date e)) false latest)).
    { rewrite Hdb. apply completeLatestSession_latest; assumption. }
    assert (Hnd' : NoDup (map Db.id (db (snd (complete (stopCommand e w)))))).
    { rewrite Hdb, completeLatestSession_ids. exact Hnd. }
    split; [exact Hr|]. split; [exact Hlatest|].
    intros ts. revert Hlatest Hnd'.
    generalize (snd (complete (stopCommand e w))) as w1.
    induction ts as [|t ts IH]; intros w1 Hlatest Hnd'; cbn [runTicks].
    + split; [reflexivity | exact Hlatest].
    + destruct (runTick_after_manual_stop t w1 _ Hnd' Hlatest)
        as [Hst [Hnd2 Hl2]]; [discriminate | reflexivity |].
      destruct (IH _ Hl2 Hnd2) as [IH1 IH2].
      split; [rewrite IH1; exact Hst | exact IH2].
Qed.

(** X25: the [stop] command starts no timer; it changes the table only
    after Clockify has answered the user lookup and the stop, and then by
    closing the latest open session with [isAutoCompleted] 0; it reports
    to Jira at most once, the ticket of the latest session, which is not
    empty, and at least 60 seconds. *)
Theorem stop_command_closes_after_stop (e : StopCommandEnv) (w : World) :
  started (trace (snd (complete (stopCommand e w)))) = started (trace w) /\
  ((db (snd (complete (stopCommand e w))) = db w /\
    reported (trace (snd (complete (stopCommand e w)))) = reported (trace w)) \/
   exists latest,
     sc_user e <> None /\ sc_stopped e <> None /\
     Db.getLatestSession (db w) = Returns latest /\
     db (snd (complete (stopCommand e w)))
     = Db.completeLatestSession (toISOString (sc_date e)) false (db w) /\
     (reported (trace (snd (complete (stopCommand e w)))) = reported (trace w) \/
      exists ticket secs,
        Db.jiraTicket latest = Some ticket /\ ticket <> EmptyString /\
        timeSpentSeconds (toISOString (sc_date e)) (Db.startedAt latest)
        = Some secs /\
        60 <= secs /\
        reported (trace (snd (complete (stopCommand e w))))
        = reported (trace w) ++ [(ticket, secs)])).
Proof.
  destruct (stopCommand_cases e w)
    as [Hst [[Hdb [Hrep _]]|[latest [Hu [Hs [Hl [_ [Hdb Hrep]]]]]]]].
  - split; [exact Hst|]. left. split; assumption.
  - split; [exact Hst|]. right. exists latest.
    repeat (split; [assumption|]). exact Hrep.
Qed.

(** X26: on an empty table the [stop] command raises the exception of
    [getLatestSession] before it asks Clockify to stop: the only request
    made is the user lookup, and a running remote timer keeps running. *)
Theorem stop_command_on_empty_table (e : StopCommandEnv) (w : World) :
  sc_user e <> None ->
  db w = [] ->
  fst (complete (stopCommand e w)) = Throws ZodError /\
  db (snd (complete (stopCommand e w))) = [] /\
  trace (snd (complete (stopCommand e w))) = trace w ++ [GetUser].
Proof.
  intros Hu Hdb. unfold stopCommand, getWorkspaceAndUser. run.
  destruct (sc_user e) as [u|]; [|contradiction]. cbn.
  rewrite Hdb. cbn. rewrite ?Hdb. repeat split; reflexivity.
Qed.

Lemma project_fields (projects : list Clockify.ClockifyProject) :
  map (fun p => Clockify.mkProject (Clockify.id p) (Clockify.name p)) projects
  = projects.
Proof.
  induction projects as [|[i n] rest IH]; simpl; [|rewrite IH]; reflexivity.
Qed.

Lemma includes_In (x : string) (l : list string) :
  existsb (String.eqb x) l = true <-> In x l.
Proof.
  rewrite existsb_exists. split.
  - intros [y [Hin Heq]]. apply String.eqb_eq in Heq. subst. exact Hin.
  - intros Hin. exists x. split; [exact Hin | apply String.eqb_refl].
Qed.

Lemma filter_by_own_ids (projects : list Clockify.ClockifyProject) :
  filter (fun p => existsb (String.eqb (Clockify.id p))
                           (map Clockify.id projects)) projects
  = projects.
Proof.
  apply forallb_filter_id. apply forallb_forall. intros p Hp.
  apply includes_In. apply in_map. exact Hp.
Qed.

(** X27: the project filter of [start].  With an empty local list every
    project of the workspace is written to the local file and offered;
    with a local list that is not empty nothing is written, and a project
    is offered exactly when its id is in the local list. *)
Theorem offered_projects_are_local
    (projects localProjects : list Clockify.ClockifyProject) :
  offeredProjects projects [] = (Some projects, projects) /\
  (localProjects = [] \/ fst (offeredProjects projects localProjects) = None) /\
  forall p,
    In p (snd (offeredProjects projects localProjects)) <->
    In p projects /\
    (localProjects = [] \/ In (Clockify.id p) (map Clockify.id localProjects)).
Proof.
  split; [|split].
  - unfold offeredProjects. cbn [List.length Nat.eqb].
    rewrite project_fields.
    destruct projects as [|x rest] eqn:Hp; [reflexivity|].
    rewrite <- Hp. cbn [fst snd].
    assert (Hlen : (0 <? List.length projects)%nat = true)
      by (rewrite Hp; reflexivity).
    rewrite Hlen, filter_by_own_ids. reflexivity.
  - destruct localProjects as [|l rest]; [left; reflexivity | right; reflexivity].
  - intros p. destruct localProjects as [|l rest].
    + unfold offeredProjects. cbn [List.length Nat.eqb snd].
      rewrite project_fields.
      destruct (0 <? List.length projects)%nat;
        [rewrite filter_by_own_ids|]; tauto.
    + unfold offeredProjects. cbn [List.length Nat.eqb Nat.ltb Nat.leb snd].
      rewrite filter_In, includes_In. split.
      * intros [H1 H2]. split; [exact H1 | right; exact H2].
      * intros [H1 [H2|H2]]; [discriminate | split; assumption].
Qed.

(** The paging loop as a call agrees with [Clockify.getProjectsFrom]: it
    requests the same pages, changes nothing but the trace, and returns the
    same list unless a request was rejected, which leaves the loop. *)
Lemma requestProjectsFrom_run
    (server : nat -> Outcome (list Clockify.ClockifyProject)) (fuel : nat) :
  forall (page : nat) (asked : list nat)
         (allProjects : list Clockify.ClockifyProject) (w : World)
         (fetched : Clockify.Fetched),
    Clockify.getProjectsFrom fuel server page asked allProjects = Some fetched ->
    exists pages,
      Clockify.requested fetched = asked ++ pages /\
      db (snd (complete (requestProjectsFrom fuel server page allProjects w)))
      = db w /\
      trace (snd (complete (requestProjectsFrom fuel server page allProjects w)))
      = trace w ++ map GetProjects pages /\
      match fst (complete (requestProjectsFrom fuel server page allProjects w))
      with
      | Returns result => result = Some (Clockify.returned fetched)
      | Throws _ => Clockify.returned fetched = []
      end.
Proof.
  induction fuel as [|fuel IH]; intros page asked allProjects w fetched H;
    cbn [Clockify.getProjectsFrom] in H; [discriminate|].
  cbn [requestProjectsFrom]. run.
  destruct (server page) as [[|project data]|ex];
    cbn [List.length Nat.ltb Nat.leb] in H; cbn.
  - injection H as <-. exists [page]. cbn. repeat split; reflexivity.
  - destruct (IH (S page) (asked ++ [page]) (allProjects ++ project :: data)
                 (mkWorld (db w) (lastResumeAt w) (isLocked w) (lastIdle w)
                          (trace w ++ [GetProjects page]))
                 fetched H)
      as [pages [Hreq [Hdb [Htr Hres]]]].
    exists (page :: pages). cbn in Hdb, Htr.
    rewrite <- app_assoc in Hreq, Htr.
    split; [exact Hreq|]. split; [exact Hdb|]. split; [exact Htr | exact Hres].
  - injection H as <-. exists [page]. cbn. repeat split; reflexivity.
Qed.

Lemma requestProjects_run
    (server : nat -> Outcome (list Clockify.ClockifyProject)) (fuel : nat)
    (w : World) (fetched : Clockify.Fetched) :
  Clockify.getProjects fuel server = Some fetched ->
  fst (complete (requestProjects fuel server w))
  = Returns (Some (Clockify.returned fetched)) /\
  db (snd (complete (requestProjects fuel server w))) = db w /\
  trace (snd (complete (requestProjects fuel server w)))
  = trace w ++ map GetProjects (Clockify.requested fetched).
Proof.
  intros H. unfold Clockify.getProjects in H.
  destruct (requestProjectsFrom_run server fuel 1 [] [] w fetched H)
    as [pages [Hreq [Hdb [Htr Hres]]]].
  cbn [app] in Hreq. rewrite Hreq.
  unfold requestProjects, tryCatch. rewrite complete_orCatch.
  destruct (complete (requestProjectsFrom fuel server 1 [] w)) as [[result|ex] w1];
    cbn in *.
  - subst result. auto.
  - rewrite Hres. auto.
Qed.

#[local] Arguments requestProjects : simpl never.
#[local] Arguments offeredProjects : simpl never.

(** X28: when the user lookup fails, or [getProjects] returns and no
    project is left to offer, the [start] command asks for no project and
    starts nothing: the requests made are the user lookup and, after a
    user was found, the pages [getProjects] asks for; the table is as it
    was. *)
Theorem start_command_needs_a_project (fuel : nat) (e : StartCommandEnv)
    (message jira : option string) (w : World) (fetched : Clockify.Fetched) :
  sa_user e = None \/
  (Clockify.getProjects fuel (sa_server e) = Some fetched /\
   snd (offeredProjects (Clockify.returned fetched) (sa_local e)) = []) ->
  fst (complete (startCommand fuel e message jira w))
  = Returns (Some (match sa_user e with
                   | None => (Exit 1, None, None)
                   | Some _ =>
                       (Done,
                        fst (offeredProjects (Clockify.returned fetched)
                                             (sa_local e)),
                        None)
                   end)) /\
  db (snd (complete (startCommand fuel e message jira w))) = db w /\
  trace (snd (complete (startCommand fuel e message jira w)))
  = trace w
    ++ GetUser :: match sa_user e with
                  | None => []
                  | Some _ => map GetProjects (Clockify.requested fetched)
                  end.
Proof.
  intros H. unfold startCommand, getWorkspaceAndUser. run.
  destruct (sa_user e) as [u|]; cbn; [|repeat split; reflexivity].
  destruct H as [H|[Hfetched Hnone]]; [discriminate|].
  rewrite complete_andThen.
  destruct (requestProjects_run (sa_server e) fuel
              (mkWorld (db w) (lastResumeAt w) (isLocked w) (lastIdle w)
                       (trace w ++ [GetUser]))
              fetched Hfetched) as [Hres [Hdb Htr]].
  destruct (complete (requestProjects fuel (sa_server e) _)) as [result w1].
  cbn [fst snd db trace] in Hres, Hdb, Htr. subst result.
  destruct (offeredProjects (Clockify.returned fetched) (sa_local e))
    as [written projects].
  cbn [snd fst] in *. subst projects. cbn.
  rewrite Htr, <- app_assoc.
  split; [reflexivity|]. split; [exact Hdb | reflexivity].
Qed.

End CommandProperties.

(** ** The loop of scripts/log-calendar-events.ts *)

(** X29: with [--project-id] given, the loop asks nothing and leaves table
    [event_projects] as it was, whatever is stored there: every event that
    is not all-day and has a summary and both instants is logged to that
    project, in the order of the listing, and the loop runs to its end. *)
Theorem calendar_with_project_id (projectId : option string) (p : string)
    (ask : nat -> string -> Outcome (option string))
    (index : nat) (events : list Calendar.CalendarEvent)
    (table : EventProjects.Table) :
  truthyOpt projectId = Some p ->
  Calendar.processEvents projectId ask index events table
  = (table,
     map (fun x => match x with
                   | (label, startsAt, endsAt) =>
                       Calendar.LogTime p startsAt endsAt label
                   end) (timedEvents events),
     true).
Proof.
  intros Hp. revert index.
  induction events as [|event rest IH]; intros index; [reflexivity|].
  cbn [Calendar.processEvents timedEvents flat_map].
  fold (timedEvents rest).
  destruct (Calendar.isAllDay event); [apply IH|].
  destruct (Calendar.timed event) as [[[label startsAt] endsAt]|]; [|apply IH].
  rewrite Hp. destruct (truthyOpt_some _ _ Hp) as [_ Hne].
  rewrite (truthy_nonempty p Hne), IH. reflexivity.
Qed.

(** X30: a choice stored for an event name is final for a run without
    [--project-id].  If the table holds for the name the skip choice, or a
    project id that is not empty, the loop never asks about that name,
    the choice is still stored afterwards, and every request to log an
    event of that name goes to the stored project; after a skip choice
    there is none. *)
Theorem stored_choice_is_final (projectId : option string)
    (ask : nat -> string -> Outcome (option string))
    (label : string) (choice : option string)
    (events : list Calendar.CalendarEvent) (index : nat)
    (table : EventProjects.Table) :
  truthyOpt projectId = None ->
  EventProjects.getEventProject label table = Some choice ->
  (choice = None \/ exists p, choice = Some p /\ p <> EmptyString) ->
  EventProjects.getEventProject label
    (fst (fst (Calendar.processEvents projectId ask index events table)))
  = Some choice /\
  ~ In (Calendar.Prompt label)
       (snd (fst (Calendar.processEvents projectId ask index events table))) /\
  forall p startsAt endsAt,
    In (Calendar.LogTime p startsAt endsAt label)
       (snd (fst (Calendar.processEvents projectId ask index events table))) ->
    choice = Some p.
Proof.
  intros Hp Hstored Hchoice. revert index table Hstored.
  induction events as [|event rest IH]; intros index table Hstored.
  - cbn. split; [exact Hstored|]. split; [intros []|]. intros p s e [].
  - cbn [Calendar.processEvents].
    destruct (Calendar.isAllDay event); [apply IH; exact Hstored|].
    destruct (Calendar.timed event) as [[[l startsAt] endsAt]|];
      [|apply IH; exact Hstored].
    rewrite Hp.
    assert (Hprompt :
      l <> label ->
      let r := Calendar.promptAndLog (ask index l) l startsAt endsAt table
                 (Calendar.processEvents projectId ask (S index) rest) in
      EventProjects.getEventProject label (fst (fst r)) = Some choice /\
      ~ In (Calendar.Prompt label) (snd (fst r)) /\
      forall p s e, In (Calendar.LogTime p s e label) (snd (fst r)) ->
                    choice = Some p).
    { intros Hne. unfold Calendar.promptAndLog.
      destruct (ask index l) as [selected|ex]; cbn.
      - assert (Hstored' :
          EventProjects.getEventProject label
            (EventProjects.setEventProject l selected table) = Some choice)
          by (rewrite getEventProject_other by (intros H; elim Hne; congruence);
              exact Hstored).
        destruct (IH (S index) _ Hstored') as [H1 [H2 H3]].
        destruct (Calendar.processEvents projectId ask (S index) rest _)
          as [[table' actions] finished]. cbn in *.
        split; [exact H1|]. split.
        + intros [H|H]; [elim Hne; congruence|].
          apply in_app_or in H. destruct H as [H|H]; [|exact (H2 H)].
          destruct (truthyOpt selected); cbn in H;
            [destruct H as [H|[]]; discriminate | destruct H].
        + intros p s e [H|H]; [discriminate|].
          apply in_app_or in H. destruct H as [H|H]; [|exact (H3 p s e H)].
          destruct (truthyOpt selected); cbn in H;
            [destruct H as [H|[]]; elim Hne; congruence | destruct H].
      - split; [exact Hstored|]. split.
        + intros [H|[]]. elim Hne. congruence.
        + intros p s e [H|[]]. discriminate. }
    destruct (String.eqb_spec l label) as [->|Hne].
    + rewrite Hstored.
      destruct Hchoice as [->|[p [-> Hpne]]]; [apply IH; exact Hstored|].
      rewrite (truthy_nonempty p Hpne).
      destruct (IH (S index) table Hstored) as [H1 [H2 H3]].
      destruct (Calendar.processEvents projectId ask (S index) rest table)
        as [[table' actions] finished]. cbn in *.
      split; [exact H1|]. split.
      * intros [H|H]; [discriminate | exact (H2 H)].
      * intros p' s e [H|H]; [congruence | exact (H3 p' s e H)].
    + specialize (Hprompt Hne). cbn zeta in Hprompt.
      destruct (EventProjects.getEventProject l table) as [[q|]|];
        [|apply IH; exact Hstored | exact Hprompt].
      destruct (truthy q); [|exact Hprompt].
      destruct (IH (S index) table Hstored) as [H1 [H2 H3]].
      destruct (Calendar.processEvents projectId ask (S index) rest table)
        as [[table' actions] finished]. cbn in *.
      split; [exact H1|]. split.
      * intros [H|H]; [discriminate | exact (H2 H)].
      * intros p' s e [H|H]; [elim Hne; congruence | exact (H3 p' s e H)].
Qed.

(** ** The further properties at concrete inputs *)

Lemma session_ids_stay_distinct_witness :
  NoDup (map Db.id (runTableOps MoreExamples.tableOps Examples.twoOpen)).
Proof.
  apply (session_ids_stay_distinct MoreExamples.tableOps Examples.twoOpen).
  cbn. constructor; [intros [H|[]]; discriminate H|].
  constructor; [intros []|]. constructor.
Defined.

Lemma completeLatestSession_touches_open_only_witness :
  map identity (Db.completeLatestSession "2023-11-15T10:00:00.000Z" true
                                         Examples.oneOpen)
  = map identity Examples.oneOpen /\
  (forall r, In r Examples.oneOpen -> Db.completedAt r <> None ->
             In r (Db.completeLatestSession "2023-11-15T10:00:00.000Z" true
                                            Examples.oneOpen)) /\
  openCount (Db.completeLatestSession "2023-11-15T10:00:00.000Z" true
                                      Examples.oneOpen)
  = pred (openCount Examples.oneOpen).
Proof.
  apply (completeLatestSession_touches_open_only
           "2023-11-15T10:00:00.000Z" true Examples.oneOpen).
  cbn. constructor; [intros [H|[]]; discriminate H|].
  constructor; [intros []|]. constructor.
Defined.

Lemma logged_session_is_latest_witness :
  exists rows',
    Db.logSessionStart "s3" "proj-1" "standup" "2023-11-15T09:00:00.000Z" None
                       Examples.oneOpen = Returns rows' /\
    Db.getLatestSession rows'
    = Returns (Db.mkSession "s3" "proj-1" "standup" "2023-11-15T09:00:00.000Z"
                            None 0 None).
Proof.
  apply (logged_session_is_latest "s3" "proj-1" "standup"
           "2023-11-15T09:00:00.000Z" None Examples.oneOpen).
  - cbn. intros [H|[H|[]]]; discriminate H.
  - intros x [<-|[<-|[]]]; vm_compute; reflexivity.
Defined.

Lemma latest_session_of_nonempty_table_witness :
  exists r,
    Db.getLatestSession Examples.oneOpen = Returns r /\
    latestAmong r Examples.oneOpen /\
    forall c a, exists r',
      Db.getLatestSession (Db.completeLatestSession c a Examples.oneOpen)
      = Returns r' /\
      identity r' = identity r.
Proof.
  apply (latest_session_of_nonempty_table Examples.oneOpen). discriminate.
Defined.

Lemma event_project_other_names_witness :
  EventProjects.getEventProject "standup"
    (EventProjects.setEventProject "retro" (Some "proj-2"%string)
                                   MoreExamples.choices)
  = EventProjects.getEventProject "standup" MoreExamples.choices /\
  filter (fun r => negb (String.eqb (EventProjects.eventName r) "retro"))
         (EventProjects.setEventProject "retro" (Some "proj-2"%string)
                                        MoreExamples.choices)
  = filter (fun r => negb (String.eqb (EventProjects.eventName r) "retro"))
           MoreExamples.choices.
Proof.
  apply (event_project_other_names "retro" "standup" (Some "proj-2"%string)
           MoreExamples.choices).
  discriminate.
Defined.

Lemma event_names_stay_distinct_witness :
  NoDup (map EventProjects.eventName
             (EventProjects.setEventProject "lunch" (Some "proj-2"%string)
                                            MoreExamples.choices)) /\
  forall other,
    EventProjects.getEventProject other
      (EventProjects.setEventProject "lunch" (Some "proj-2"%string)
                                     MoreExamples.choices)
    = None <->
    other <> "lunch"%string /\
    ~ In other (map EventProjects.eventName MoreExamples.choices).
Proof.
  apply (event_names_stay_distinct "lunch" (Some "proj-2"%string)
           MoreExamples.choices).
  cbn. constructor; [intros [H|[]]; discriminate H|].
  constructor; [intros []|]. constructor.
Defined.

Lemma stored_token_is_latest_witness :
  getLatestToken (json := jsonBool)
    (storeToken (date := IsoDate.utc) (json := jsonBool)
                (Examples.t0 + Examples.minute) (Some true)
                MoreExamples.oneToken)
  = Value (Some true).
Proof.
  apply (stored_token_is_latest (date := IsoDate.utc) (json := jsonBool)
           (Examples.t0 + Examples.minute) (Some true) MoreExamples.oneToken).
  intros x [<-|[]]. vm_compute. reflexivity.
Defined.

Lemma earlier_token_is_not_latest_witness :
  getLatestToken (json := jsonBool)
    (storeToken (date := IsoDate.utc) (json := jsonBool)
                (Examples.t0 - Examples.minute) (Some true)
                MoreExamples.oneToken)
  = getLatestToken (json := jsonBool) MoreExamples.oneToken.
Proof.
  apply (earlier_token_is_not_latest (date := IsoDate.utc) (json := jsonBool)
           (Examples.t0 - Examples.minute) (Some true) MoreExamples.oneToken
           (Tokens.mkRow 1 "false" "2023-11-14T22:13:20.000Z")).
  - left. reflexivity.
  - vm_compute. reflexivity.
Defined.

Lemma getProjects_collects_pages_witness :
  Clockify.getProjects 5 MoreExamples.serveTwoPages
  = Some (Clockify.mkFetched [1; 2; 3]%nat
            [MoreExamples.alpha; MoreExamples.beta; MoreExamples.gamma]).
Proof.
  apply (getProjects_collects_pages MoreExamples.serveTwoPages
           MoreExamples.twoPages 5).
  - intros [|[|i]] data H; cbn in H.
    + injection H as <-. split; [reflexivity | discriminate].
    + injection H as <-. split; [reflexivity | discriminate].
    + destruct i; discriminate H.
  - reflexivity.
  - cbn. lia.
Defined.

Lemma getProjects_drops_pages_on_failure_witness :
  Clockify.getProjects 5 MoreExamples.serveOnePageThenFail
  = Some (Clockify.mkFetched [1; 2]%nat []).
Proof.
  apply (getProjects_drops_pages_on_failure MoreExamples.serveOnePageThenFail
           [[MoreExamples.alpha; MoreExamples.beta]] 5 TransportError).
  - intros [|i] data H; cbn in H.
    + injection H as <-. split; [reflexivity | discriminate].
    + destruct i; discriminate H.
  - reflexivity.
  - cbn. lia.
Defined.

Lemma getProjects_needs_an_empty_page_witness :
  Clockify.getProjects 1000 MoreExamples.serveSamePage = None.
Proof.
  apply (getProjects_needs_an_empty_page MoreExamples.serveSamePage 1000).
  intros page. exists [MoreExamples.alpha]. split; [reflexivity | discriminate].
Defined.

Lemma poll_starts_only_eligible_witness :
  started (trace (Examples.poll Examples.unlock1 Examples.afterLock1))
  = started (trace Examples.afterLock1) \/
  exists latest c cms,
    turnsActive Examples.unlock1 Examples.afterLock1
    = Some (resumeEnvOf Examples.unlock1) /\
    RESUME_COOLDOWN_MS
    <= rs_now0 (resumeEnvOf Examples.unlock1) - lastResumeAt Examples.afterLock1 /\
    rs_active (resumeEnvOf Examples.unlock1) = None /\
    Db.getLatestSession (db Examples.afterLock1) = Returns latest /\
    Db.isAutoCompleted latest <> 0 /\
    Db.completedAt latest = Some c /\
    getTime (DateRuntime := IsoDate.utc) c = Some cms /\
    rs_now1 (resumeEnvOf Examples.unlock1) - twoHours < cms /\
    Db.projectId latest <> EmptyString /\
    started (trace (Examples.poll Examples.unlock1 Examples.afterLock1))
    = started (trace Examples.afterLock1)
      ++ [(Db.projectId latest, Db.description latest,
           st_date (rs_start (resumeEnvOf Examples.unlock1)))].
Proof.
  apply (poll_starts_only_eligible (date := IsoDate.utc)
           Examples.unlock1 Examples.afterLock1).
  vm_compute. discriminate.
Defined.

Lemma lock_flag_follows_screen_witness :
  isLocked (Examples.poll Examples.unlock1 Examples.afterLock1)
  = String.eqb "SESSION_ON_CONSOLE_KEY" SESSION_SCREEN_IS_LOCKED /\
  lastIdle (Examples.poll Examples.unlock1 Examples.afterLock1)
  = lastIdle Examples.afterLock1.
Proof.
  apply (lock_flag_follows_screen (date := IsoDate.utc)
           "SESSION_ON_CONSOLE_KEY"
           (Examples.stopEnvAt (Examples.t0 + 60 * Examples.minute))
           (Examples.resumeEnvAt (Examples.t0 + 60 * Examples.minute) "s2")
           Examples.afterLock1).
  vm_compute. discriminate.
Defined.

Lemma idle_flag_needs_a_stop_witness :
  lastIdle (Examples.poll Examples.idle305 Examples.monitorStart) = true <->
  Qle_bool IDLE_THRESHOLD_SECONDS (305 # 1) = true /\
  (lastIdle Examples.monitorStart = true \/
   (sp_active (Examples.stopEnvAt (Examples.t0 + 30 * Examples.minute)) <> None /\
    sp_stopped (Examples.stopEnvAt (Examples.t0 + 30 * Examples.minute)) <> None)).
Proof.
  apply (idle_flag_needs_a_stop (date := IsoDate.utc) (305 # 1)
           (Examples.stopEnvAt (Examples.t0 + 30 * Examples.minute))
           (Examples.resumeEnvAt (Examples.t0 + 30 * Examples.minute) "unused")
           Examples.monitorStart).
  cbn. discriminate.
Defined.

Lemma resume_on_empty_table_is_retried_witness :
  complete (runTick (date := IsoDate.utc) Examples.unlock1 MoreExamples.lockedEmpty)
  = (Returns tt, MoreExamples.lockedEmpty) /\
  turnsActive Examples.unlock1
    (snd (complete (runTick (date := IsoDate.utc) Examples.unlock1
                            MoreExamples.lockedEmpty)))
  = Some (Examples.resumeEnvAt (Examples.t0 + 60 * Examples.minute) "s2").
Proof.
  apply (resume_on_empty_table_is_retried (date := IsoDate.utc)
           Examples.unlock1 MoreExamples.lockedEmpty
           (Examples.resumeEnvAt (Examples.t0 + 60 * Examples.minute) "s2")).
  - reflexivity.
  - reflexivity.
  - vm_compute. discriminate.
Defined.

Lemma failed_resume_starts_cooldown_witness :
  db (Examples.poll MoreExamples.unlockedPostRejected Examples.afterLock1)
  = db Examples.afterLock1 /\
  lastResumeAt (Examples.poll MoreExamples.unlockedPostRejected Examples.afterLock1)
  = rs_now2 (resumeEnvOf MoreExamples.unlockedPostRejected).
Proof.
  apply (failed_resume_starts_cooldown (date := IsoDate.utc)
           MoreExamples.unlockedPostRejected Examples.afterLock1
           (resumeEnvOf MoreExamples.unlockedPostRejected)
           MoreExamples.autoClosed).
  - vm_compute; reflexivity.
  - vm_compute; discriminate.
  - vm_compute; reflexivity.
  - reflexivity.
  - vm_compute; reflexivity.
  - right. exists TransportError. reflexivity.
Defined.

Lemma blocked_resume_is_dropped_witness :
  db (Examples.poll Examples.unlock2 Examples.afterLock2)
  = db Examples.afterLock2 /\
  trace (Examples.poll Examples.unlock2 Examples.afterLock2)
  = trace Examples.afterLock2 /\
  lastResumeAt (Examples.poll Examples.unlock2 Examples.afterLock2)
  = lastResumeAt Examples.afterLock2 /\
  turnsActive Examples.unlock2
              (Examples.poll Examples.unlock2 Examples.afterLock2)
  = None.
Proof.
  apply (blocked_resume_is_dropped (date := IsoDate.utc)
           Examples.unlock2 Examples.afterLock2
           (Examples.resumeEnvAt
              (Examples.t0 + 60 * Examples.minute + 6000) "s3")).
  - vm_compute; reflexivity.
  - vm_compute; reflexivity.
Defined.

Lemma manual_stop_is_not_resumed_witness :
  fst (complete (stopCommand (date := IsoDate.utc) MoreExamples.stopNow
                             Examples.monitorStart))
  = Returns Done /\
  Db.getLatestSession
    (db (snd (complete (stopCommand (date := IsoDate.utc) MoreExamples.stopNow
                                    Examples.monitorStart))))
  = Returns (Db.setCompleted
               (toISOString (DateRuntime := IsoDate.utc)
                            (sc_date MoreExamples.stopNow))
               false Examples.working) /\
  forall ts,
    started (trace (runTicks (date := IsoDate.utc) ts
      (snd (complete (stopCommand (date := IsoDate.utc) MoreExamples.stopNow
                                  Examples.monitorStart)))))
    = started (trace (snd (complete
        (stopCommand (date := IsoDate.utc) MoreExamples.stopNow
                     Examples.monitorStart)))) /\
    Db.getLatestSession (db (runTicks (date := IsoDate.utc) ts
      (snd (complete (stopCommand (date := IsoDate.utc) MoreExamples.stopNow
                                  Examples.monitorStart)))))
    = Returns (Db.setCompleted
                 (toISOString (DateRuntime := IsoDate.utc)
                              (sc_date MoreExamples.stopNow))
                 false Examples.working).
Proof.
  apply (manual_stop_is_not_resumed (date := IsoDate.utc)
           MoreExamples.stopNow Examples.monitorStart Examples.working).
  - cbn. constructor; [intros []|]. constructor.
  - discriminate.
  - discriminate.
  - reflexivity.
  - reflexivity.
Defined.

Lemma stop_command_on_empty_table_witness :
  fst (complete (stopCommand (date := IsoDate.utc) MoreExamples.stopNow
                             (initialWorld [])))
  = Throws ZodError /\
  db (snd (complete (stopCommand (date := IsoDate.utc) MoreExamples.stopNow
                                 (initialWorld []))))
  = [] /\
  trace (snd (complete (stopCommand (date := IsoDate.utc) MoreExamples.stopNow
                                    (initialWorld []))))
  = trace (initialWorld []) ++ [GetUser].
Proof.
  apply (stop_command_on_empty_table (date := IsoDate.utc)
           MoreExamples.stopNow (initialWorld [])).
  - discriminate.
  - reflexivity.
Defined.

Lemma start_command_needs_a_project_witness :
  fst (complete (startCommand (date := IsoDate.utc) 5
                              MoreExamples.startElsewhere
                              None None (initialWorld [])))
  = Returns (Some (Done, None, None)) /\
  db (snd (complete (startCommand (date := IsoDate.utc) 5
                                  MoreExamples.startElsewhere
                                  None None (initialWorld []))))
  = [] /\
  trace (snd (complete (startCommand (date := IsoDate.utc) 5
                                     MoreExamples.startElsewhere
                                     None None (initialWorld []))))
  = [GetUser; GetProjects 1; GetProjects 2; GetProjects 3].
Proof.
  apply (start_command_needs_a_project (date := IsoDate.utc) 5
           MoreExamples.startElsewhere None None (initialWorld [])
           (Clockify.mkFetched [1; 2; 3]%nat
              [MoreExamples.alpha; MoreExamples.beta; MoreExamples.gamma])).
  right. split; reflexivity.
Defined.

Lemma calendar_with_project_id_witness :
  Calendar.processEvents (Some "proj-9"%string) MoreExamples.alwaysBeta 0
                         MoreExamples.day MoreExamples.choices
  = (MoreExamples.choices,
     [ Calendar.LogTime "proj-9" "2023-11-15T09:00:00Z" "2023-11-15T09:15:00Z"
                        "standup";
       Calendar.LogTime "proj-9" "2023-11-15T12:00:00Z" "2023-11-15T13:00:00Z"
                        "lunch";
       Calendar.LogTime "proj-9" "2023-11-15T15:00:00Z" "2023-11-15T16:00:00Z"
                        "retro" ],
     true).
Proof.
  apply (calendar_with_project_id (Some "proj-9"%string) "proj-9"
           MoreExamples.alwaysBeta 0 MoreExamples.day MoreExamples.choices).
  reflexivity.
Defined.

Lemma stored_choice_is_final_witness :
  EventProjects.getEventProject "lunch"
    (fst (fst (Calendar.processEvents None MoreExamples.alwaysBeta 0
                                      MoreExamples.day MoreExamples.choices)))
  = Some None /\
  ~ In (Calendar.Prompt "lunch")
       (snd (fst (Calendar.processEvents None MoreExamples.alwaysBeta 0
                                         MoreExamples.day MoreExamples.choices))) /\
  forall p startsAt endsAt,
    In (Calendar.LogTime p startsAt endsAt "lunch")
       (snd (fst (Calendar.processEvents None MoreExamples.alwaysBeta 0
                                         MoreExamples.day MoreExamples.choices))) ->
    None = Some p.
Proof.
  apply (stored_choice_is_final None MoreExamples.alwaysBeta "lunch" None
           MoreExamples.day 0%nat MoreExamples.choices).
  - reflexivity.
  - reflexivity.
  - left. reflexivity.
Defined.
